(** * Unit-LoRaWAN (ASR6501) AT-command driver: a shallow embedding

    The development follows [src/unit_lorawan.c] (the 2025 driver, the first
    translation unit of that file) and [src/include/unit_lorawan.h].

    Conventions of the embedding.
    - [esp_err_t] is the ESP-IDF [int] error code, kept as [Z] with the
      ESP-IDF constants.
    - [uint8_t], [uint16_t] and [size_t] values are [N]; C [int] values and
      the millisecond clock are [Z], with the 32-bit wrap-around of the tick
      arithmetic written out.
    - C strings and byte buffers are [string]s (lists of 8-bit characters);
      [c_str] gives the view the C library has of a buffer (up to the first
      NUL).
    - The serial transport, the FreeRTOS delay and the spawned task are
      effects on an explicit [world], threaded by a small state monad.
    - Heap allocation ([malloc]) is taken to succeed; the branches of the
      driver that handle a failed allocation are not part of the model.
    - Pointer arguments are passed by value; an argument that the driver
      checks against NULL is an [option]. *)

From Stdlib Require Import ZArith NArith List String Ascii Bool Lia DecimalString.
Import ListNotations.
Local Open Scope Z_scope.
Local Open Scope string_scope.

(* ===================================================================== *)
(** * C library functions used by the driver *)
(* ===================================================================== *)

Module CLib.

(** The content a C string function sees in a buffer: the bytes before the
    first NUL. *)
Fixpoint c_str (s : string) : string :=
  match s with
  | EmptyString => EmptyString
  | String c t => if Ascii.eqb c zero then EmptyString else String c (c_str t)
  end.

(** [strstr hay needle]: the suffix of [hay] that starts at the first
    occurrence of [needle], or [None] (the C NULL). *)
Fixpoint strstr (hay needle : string) : option string :=
  if String.prefix needle hay then Some hay
  else match hay with
       | EmptyString => None
       | String _ t => strstr t needle
       end.

(** [strstr (...) != NULL] *)
Definition found (hay needle : string) : bool :=
  match strstr hay needle with Some _ => true | None => false end.

(** [isspace] in the C locale. *)
Definition isspace (c : ascii) : bool :=
  let n := N_of_ascii c in
  ((n =? 32) || ((9 <=? n) && (n <=? 13)))%N.

Fixpoint skip_space (s : string) : string :=
  match s with
  | EmptyString => EmptyString
  | String c t => if isspace c then skip_space t else s
  end.

(** The characters a [%<width>s] conversion stores: at most [width]
    characters up to the next white space. *)
Fixpoint take_token (width : nat) (s : string) : string :=
  match width, s with
  | S k, String c t => if isspace c then EmptyString else String c (take_token k t)
  | _, _ => EmptyString
  end.

(** [%<width>s]: skips white space; fails at the end of the input. *)
Definition scan_s (width : nat) (s : string) : option string :=
  match take_token width (skip_space s) with
  | EmptyString => None
  | tok => Some tok
  end.

(** Matching the literal part of a [sscanf] format (no white space and no
    conversion in it): the input must start with it. *)
Fixpoint strip_prefix (lit s : string) : option string :=
  match lit, s with
  | EmptyString, _ => Some s
  | String a l, String b t => if Ascii.eqb a b then strip_prefix l t else None
  | String _ _, EmptyString => None
  end.

(** [sscanf (input, "<lit>%<width>s", out) == 1], with the stored token. *)
Definition sscanf_lit_s (lit : string) (width : nat) (input : string)
  : option string :=
  match strip_prefix lit input with
  | Some rest => scan_s width rest
  | None => None
  end.

Definition digit_of (c : ascii) : option Z :=
  let n := N_of_ascii c in
  if ((48 <=? n) && (n <=? 57))%N then Some (Z.of_N n - 48) else None.

Fixpoint scan_digits (acc : Z) (s : string) : Z :=
  match s with
  | EmptyString => acc
  | String c t =>
      match digit_of c with
      | Some d => scan_digits (10 * acc + d) t
      | None => acc
      end
  end.

Definition INT_MAX : Z := 2147483647.
Definition INT_MIN : Z := -2147483648.

(** The value [strtol] hands to a [%d] conversion saturates at the range of
    a 32-bit [long]. *)
Definition clamp_int (z : Z) : Z := Z.max INT_MIN (Z.min INT_MAX z).

Definition starts_with_digit (s : string) : bool :=
  match s with
  | String c _ => match digit_of c with Some _ => true | None => false end
  | EmptyString => false
  end.

(** [%d]: skips white space, takes an optional sign and at least one
    decimal digit. *)
Definition scan_d (s : string) : option Z :=
  match skip_space s with
  | String "-" t =>
      if starts_with_digit t then Some (clamp_int (- scan_digits 0 t)) else None
  | String "+" t =>
      if starts_with_digit t then Some (clamp_int (scan_digits 0 t)) else None
  | t => if starts_with_digit t then Some (clamp_int (scan_digits 0 t)) else None
  end.

(** [sscanf (input, "<lit>%d", &out) == 1], with the stored value. *)
Definition sscanf_lit_d (lit : string) (input : string) : option Z :=
  match strip_prefix lit input with
  | Some rest => scan_d rest
  | None => None
  end.

(** [snprintf (buf, size, ...)] keeps at most [size - 1] characters of the
    formatted text. *)
Definition snprintf (size : nat) (formatted : string) : string :=
  substring 0 (size - 1)%nat formatted.

(** [%d] and [%zu] of an unsigned value. *)
Definition dec (n : N) : string := NilEmpty.string_of_uint (N.to_uint n).

Definition hex_digit (n : N) : ascii :=
  match n with
  | 0 => "0" | 1 => "1" | 2 => "2" | 3 => "3" | 4 => "4" | 5 => "5"
  | 6 => "6" | 7 => "7" | 8 => "8" | 9 => "9" | 10 => "A" | 11 => "B"
  | 12 => "C" | 13 => "D" | 14 => "E" | _ => "F"
  end%N%char.

(** [snprintf (p, 3, "%02X", (uint8_t) c)]: two upper-case digits. *)
Definition fmt_02X (c : ascii) : string :=
  let n := N_of_ascii c in
  String (hex_digit (n / 16)) (String (hex_digit (n mod 16)) EmptyString).

Definition CRLF : string := String (ascii_of_N 13) (String (ascii_of_N 10) EmptyString).

End CLib.
Import CLib.

(* ===================================================================== *)
(** * Constants of the driver *)
(* ===================================================================== *)

Definition esp_err_t := Z.
Definition ESP_OK : esp_err_t := 0.
Definition ESP_FAIL : esp_err_t := -1.
Definition ESP_ERR_NO_MEM : esp_err_t := 257.        (* 0x101 *)
Definition ESP_ERR_INVALID_ARG : esp_err_t := 258.   (* 0x102 *)
Definition ESP_ERR_INVALID_STATE : esp_err_t := 259. (* 0x103 *)
Definition ESP_ERR_INVALID_SIZE : esp_err_t := 260.  (* 0x104 *)
Definition ESP_ERR_NOT_SUPPORTED : esp_err_t := 262. (* 0x106 *)
Definition ESP_ERR_TIMEOUT : esp_err_t := 263.       (* 0x107 *)

Definition is_ok (e : esp_err_t) : bool := (e =? ESP_OK)%Z.

Definition UNIT_LORAWAN_RESPONSE_TIMEOUT_MS : Z := 5000.
Definition UNIT_LORAWAN_COMMAND_DELAY_MS : Z := 100.
Definition UNIT_LORAWAN_MAX_RETRIES : nat := 3%nat.
Definition UNIT_LORAWAN_HEX_MESSAGE_MAX_SIZE : N := 512%N.

Definition UNIT_LORAWAN_TTN_US915_DATA_RATE_DEFAULT : N := 2%N.
Definition UNIT_LORAWAN_US915_DATA_RATE_MAX : N := 4%N.
Definition UNIT_LORAWAN_US915_MAX_PAYLOAD_DR0 : N := 11%N.
Definition UNIT_LORAWAN_US915_MAX_PAYLOAD_DR1 : N := 53%N.
Definition UNIT_LORAWAN_US915_MAX_PAYLOAD_DR2 : N := 125%N.
Definition UNIT_LORAWAN_US915_MAX_PAYLOAD_DR3 : N := 242%N.
Definition UNIT_LORAWAN_US915_MAX_PAYLOAD_DR4 : N := 242%N.
Definition UNIT_LORAWAN_US915_SUB_BAND_MIN : N := 1%N.
Definition UNIT_LORAWAN_US915_SUB_BAND_MAX : N := 8%N.
Definition UNIT_LORAWAN_LOG_LEVEL_MAX : N := 5%N.
Definition UNIT_LORAWAN_EUI_LENGTH : nat := 16%nat.
Definition UNIT_LORAWAN_APP_KEY_LENGTH : nat := 32%nat.

(** [us915_max_payload_sizes[]] *)
Definition us915_max_payload_sizes : list N :=
  [ UNIT_LORAWAN_US915_MAX_PAYLOAD_DR0;
    UNIT_LORAWAN_US915_MAX_PAYLOAD_DR1;
    UNIT_LORAWAN_US915_MAX_PAYLOAD_DR2;
    UNIT_LORAWAN_US915_MAX_PAYLOAD_DR3;
    UNIT_LORAWAN_US915_MAX_PAYLOAD_DR4 ].

Inductive unit_lorwan_uldlmode := DIFFERENT_FREQ_MODE | SAME_FREQ_MODE.

(** [_unit_lorawan_uldlmode_str[mode]] *)
Definition _unit_lorawan_uldlmode_str (mode : unit_lorwan_uldlmode) : string :=
  match mode with DIFFERENT_FREQ_MODE => "2" | SAME_FREQ_MODE => "1" end.

(* ===================================================================== *)
(** * Payload validation and hex encoding *)
(* ===================================================================== *)

Definition _unit_lorawan_validate_payload_size (payload_size : N) (data_rate : N)
  : esp_err_t :=
  let max_payload :=
    match data_rate with
    | 0 => UNIT_LORAWAN_US915_MAX_PAYLOAD_DR0
    | 1 => UNIT_LORAWAN_US915_MAX_PAYLOAD_DR1
    | 2 => UNIT_LORAWAN_US915_MAX_PAYLOAD_DR2
    | 3 => UNIT_LORAWAN_US915_MAX_PAYLOAD_DR3
    | 4 => UNIT_LORAWAN_US915_MAX_PAYLOAD_DR4
    | _ => UNIT_LORAWAN_US915_MAX_PAYLOAD_DR0
    end%N in
  if (max_payload <? payload_size)%N then ESP_ERR_INVALID_SIZE else ESP_OK.

(** The conversion loop of [unit_lorawan_send]:
    [for (i = 0; i < length; i++) snprintf (hex_message + i * 2, 3, "%02X", ...)]. *)
Fixpoint hex_encode (message : string) : string :=
  match message with
  | EmptyString => EmptyString
  | String c t => fmt_02X c ++ hex_encode t
  end.

(** The first [length] bytes of the caller's buffer (the driver reads
    [message[0 .. length-1]]; a [length] beyond the buffer is outside C). *)
Definition message_bytes (message : string) (length : N) : string :=
  substring 0%nat (N.to_nat length) message.

(** Reference decoder for the hex text.  The driver has no decoder (the
    modem decodes); this one states what "decoding" means in the round-trip
    property. *)
Definition hex_value (c : ascii) : option N :=
  let n := N_of_ascii c in
  if ((48 <=? n) && (n <=? 57))%N then Some (n - 48)%N
  else if ((65 <=? n) && (n <=? 70))%N then Some (n - 55)%N
  else None.

Fixpoint hex_decode (hex : string) : option string :=
  match hex with
  | EmptyString => Some EmptyString
  | String hi (String lo t) =>
      match hex_value hi, hex_value lo, hex_decode t with
      | Some h, Some l, Some rest => Some (String (ascii_of_N (16 * h + l)) rest)
      | _, _, _ => None
      end
  | String _ EmptyString => None
  end.

Definition is_upper_hex (c : ascii) : bool :=
  match hex_value c with Some _ => true | None => false end.

Fixpoint string_forallb (p : ascii -> bool) (s : string) : bool :=
  match s with
  | EmptyString => true
  | String c t => p c && string_forallb p t
  end.

(* ===================================================================== *)
(** * Response parser *)
(* ===================================================================== *)

Record lorawan_response_t := mk_response {
  success : bool;
  response_data : option string;
  data_length : N;
  error_code : string
}.

(** [lorawan_response_t response = { 0 };] *)
Definition response_zero : lorawan_response_t :=
  mk_response false None 0%N EmptyString.

(** The allow-list of data-bearing reply prefixes. *)
Definition has_data_prefix (raw : string) : bool :=
  found raw "+CGMI=" || found raw "+CSTATUS:" || found raw "+CDATARATE:"
  || found raw "+CTXP:" || found raw "+CRSSI:" || found raw "+DTRX:"
  || found raw "+CJOIN:".

(** [raw_response] is the receive buffer holding [response_len] bytes
    (followed by the NUL the reader stores); [parsed_response] is passed in
    because the early return leaves it untouched. *)
Definition _unit_lorawan_parse_response (raw_response : string)
    (parsed_response : lorawan_response_t) : esp_err_t * lorawan_response_t :=
  let response_len := N.of_nat (String.length raw_response) in
  if (response_len =? 0)%N then (ESP_ERR_INVALID_ARG, parsed_response)
  else
    let text := c_str raw_response in
    if found text "OK" then
      if has_data_prefix text
      then (ESP_OK, mk_response true (Some raw_response) response_len EmptyString)
      else (ESP_OK, mk_response true None 0%N EmptyString)
    else
      match strstr text "ERROR" with
      | Some error_pos =>
          let code :=
            match sscanf_lit_s "ERROR:" 15 error_pos with
            | Some c => c
            | None => EmptyString
            end in
          (ESP_OK, mk_response false None 0%N code)
      | None =>
          if has_data_prefix text
          then (ESP_OK, mk_response true (Some raw_response) response_len EmptyString)
          else (ESP_OK, mk_response false None 0%N EmptyString)
      end.

(** [_unit_lorawan_cleanup_response] *)
Definition _unit_lorawan_cleanup_response (response : lorawan_response_t)
  : lorawan_response_t :=
  match response_data response with
  | Some _ => mk_response (success response) None 0 (error_code response)
  | None => response
  end.

(* ===================================================================== *)
(** * The world: serial transport, clock and tasks *)
(* ===================================================================== *)

(** What the driver does to the transport and to the scheduler, in the order
    it does it. *)
Inductive event :=
| EvFlush                   (* core2foraws_expports_uart_read_flush *)
| EvWrite (bytes : string)  (* core2foraws_expports_uart_write *)
| EvRead                    (* core2foraws_expports_uart_read *)
| EvDelay (ms : Z).         (* vTaskDelay (pdMS_TO_TICKS (ms)) *)

(** [join_monitor_params_t]; the callback and the user data are addresses. *)
Record join_monitor_params_t := mk_params {
  callback : N;
  user_data : N;
  timeout_sec : N
}.

Inductive task_event :=
| TaskCreate (params : join_monitor_params_t)   (* xTaskCreate (ttn_join_monitor_task, ...) *)
| CallbackCall (cb : N) (joined : bool) (error_code : N) (data : N)
| ParamsFree                                    (* free (monitor_params) *)
| TaskDelete.                                   (* vTaskDelete (NULL) *)

(** The transport is a scripted peer: [rx] holds what the successive calls
    of the read primitive return, [tx] the status of the successive writes;
    an exhausted script means "no byte available" and "write accepted".
    [clock] counts the milliseconds the driver has spent in [vTaskDelay]. *)
Record world := mk_world {
  clock : Z;
  rx : list (esp_err_t * string);
  tx : list esp_err_t;
  trace : list event;
  tasks : list task_event
}.

Definition M (A : Type) : Type := world -> A * world.

Definition ret {A} (a : A) : M A := fun w => (a, w).

Definition bind {A B} (m : M A) (k : A -> M B) : M B :=
  fun w => let (a, w1) := m w in k a w1.

Declare Scope drv_scope.
Delimit Scope drv_scope with drv.
Notation "x <- m ;; k" := (bind m (fun x => k))
  (at level 61, m at next level, right associativity) : drv_scope.
Notation "' pat <- m ;; k" := (bind m (fun x => match x with pat => k end))
  (at level 61, pat pattern, m at next level, right associativity) : drv_scope.
Notation "m ;;; k" := (bind m (fun _ => k))
  (at level 61, right associativity) : drv_scope.
Local Open Scope drv_scope.

Definition log_event (e : event) : M unit :=
  fun w => (tt, mk_world (clock w) (rx w) (tx w) (trace w ++ [e]) (tasks w)).

Definition log_task (e : task_event) : M unit :=
  fun w => (tt, mk_world (clock w) (rx w) (tx w) (trace w) (tasks w ++ [e])).

Definition vTaskDelay (ms : Z) : M unit :=
  fun w => (tt, mk_world (clock w + ms) (rx w) (tx w)
                         (trace w ++ [EvDelay ms]) (tasks w)).

Definition uint32 (z : Z) : Z := z mod 2 ^ 32.

(** [xTaskGetTickCount () * portTICK_PERIOD_MS], a [uint32_t]. *)
Definition tick_ms : M Z := fun w => (uint32 (clock w), w).

Definition core2foraws_expports_uart_read_flush : M unit := log_event EvFlush.

Definition core2foraws_expports_uart_write (bytes : string) : M esp_err_t :=
  fun w =>
    let w1 := mk_world (clock w) (rx w) (List.tl (tx w))
                       (trace w ++ [EvWrite bytes]) (tasks w) in
    (List.hd ESP_OK (tx w), w1).

(** The status and the bytes stored in the caller's buffer
    ([*available_bytes] is their number).  The receive buffer of the driver
    holds 511 bytes and a NUL; a longer packet is outside C. *)
Definition core2foraws_expports_uart_read : M (esp_err_t * string) :=
  fun w =>
    let w1 := mk_world (clock w) (List.tl (rx w)) (tx w)
                       (trace w ++ [EvRead]) (tasks w) in
    (List.hd (ESP_OK, EmptyString) (rx w), w1).

(* ===================================================================== *)
(** * Response reader and command framer *)
(* ===================================================================== *)

(** The polling loop of [_unit_lorawan_wait_for_response].  Every turn of
    the loop advances the clock by 50 ms, so [fuel] turns are enough when
    [fuel * 50 >= timeout_ms] (see [wait_loop_fuel_suffices]); [None] is
    "out of fuel". *)
Fixpoint wait_loop (fuel : nat) (start_time timeout_ms : Z)
  : M (option (esp_err_t * string)) :=
  fun w =>
    if (uint32 (uint32 (clock w) - start_time) <? timeout_ms)%Z then
      match fuel with
      | O => (None, w)
      | S fuel' =>
          let '((err, bytes), w1) := core2foraws_expports_uart_read w in
          if is_ok err && (0 <? String.length bytes)%nat
          then (Some (ESP_OK, bytes), w1)
          else wait_loop fuel' start_time timeout_ms (snd (vTaskDelay 50 w1))
      end
    else (Some (ESP_ERR_TIMEOUT, EmptyString), w).

(** The number of turns the loop can take before [timeout_ms] has passed. *)
Definition poll_budget (timeout_ms : Z) : nat := Z.to_nat ((timeout_ms + 49) / 50).

(** Returns the status and the received bytes ([*received_len] is their
    number).  The definition is the reader for the timeouts from 0 to
    [2^32 - 50] ms: there the budget of polls is never spent before the
    loop leaves ([wait_for_response_total]), and the last branch is dead.
    The driver's own timeouts are 5000 and 30000; only
    [unit_lorawan_send_raw_command] hands on one of its caller.  Beyond
    [2^32 - 50] the tick arithmetic of the loop wraps and the loop of the
    source need not leave at all (at [2^32 - 1] with a silent peer it never
    does, [wait_loop_without_end]); the last branch then stands for a
    function of the source that does not return, and what is proved of the
    reader and of the framer through it is stated with the bound. *)
Definition _unit_lorawan_wait_for_response (timeout_ms : Z)
  : M (esp_err_t * string) :=
  start_time <- tick_ms ;;
  r <- wait_loop (poll_budget timeout_ms) start_time timeout_ms ;;
  match r with
  | Some res => ret res
  | None => ret (ESP_ERR_TIMEOUT, EmptyString)
  end.

(** [snprintf (at_cmd, at_cmd_len, "AT+%s\r\n", cmd)]; [cmd] is a C string
    and [at_cmd_len] leaves room for all of it. *)
Definition at_frame (cmd : string) : string := "AT+" ++ cmd ++ CRLF.

Inductive loop_exit := LoopContinue | LoopBreak.

(** One turn of the retry loop of [_unit_lorawan_send_at_command]. *)
Definition send_attempt (retry : nat) (at_cmd : string)
    (response : lorawan_response_t) (timeout_ms : Z)
  : M (loop_exit * (esp_err_t * lorawan_response_t)) :=
  (if (0 <? retry)%nat then vTaskDelay 500 else ret tt) ;;;
  core2foraws_expports_uart_read_flush ;;;
  err <- core2foraws_expports_uart_write at_cmd ;;
  if negb (is_ok err) then ret (LoopContinue, (err, response))
  else
    vTaskDelay UNIT_LORAWAN_COMMAND_DELAY_MS ;;;
    '(err, response_buffer) <- _unit_lorawan_wait_for_response timeout_ms ;;
    let '(err, response) :=
      if is_ok err
      then _unit_lorawan_parse_response response_buffer response
      else (err, response) in
    if is_ok err then ret (LoopBreak, (err, response))
    else ret (LoopContinue, (err, response)).

(** [for (retry = ...; retry < UNIT_LORAWAN_MAX_RETRIES; retry++)], with
    [remaining = UNIT_LORAWAN_MAX_RETRIES - retry]. *)
Fixpoint send_retry_loop (remaining retry : nat) (at_cmd : string)
    (err : esp_err_t) (response : lorawan_response_t) (timeout_ms : Z)
  : M (esp_err_t * lorawan_response_t) :=
  match remaining with
  | O => ret (err, response)
  | S remaining' =>
      '(ctl, (err, response)) <- send_attempt retry at_cmd response timeout_ms ;;
      match ctl with
      | LoopBreak => ret (err, response)
      | LoopContinue =>
          send_retry_loop remaining' (S retry) at_cmd err response timeout_ms
      end
  end.

Definition _unit_lorawan_send_at_command (cmd : string)
    (response : lorawan_response_t) (timeout_ms : Z)
  : M (esp_err_t * lorawan_response_t) :=
  send_retry_loop UNIT_LORAWAN_MAX_RETRIES 0 (at_frame cmd) ESP_FAIL
                  response timeout_ms.

(* ===================================================================== *)
(** * Module control operations *)
(* ===================================================================== *)

Definition unit_lorawan_log (level : N) : M esp_err_t :=
  let level :=
    if (UNIT_LORAWAN_LOG_LEVEL_MAX <? level)%N
    then UNIT_LORAWAN_LOG_LEVEL_MAX else level in
  let log_cmd := snprintf 32 ("ILOGLVL=" ++ dec level) in
  '(err, _) <- _unit_lorawan_send_at_command
                 log_cmd response_zero UNIT_LORAWAN_RESPONSE_TIMEOUT_MS ;;
  ret err.

(** The part of [unit_lorawan_connected] that reads the status out of the
    captured response text. *)
Definition status_code_of (data : string) : option string :=
  match strstr (c_str data) "+CSTATUS:" with
  | Some status_pos => sscanf_lit_s "+CSTATUS:" 7 status_pos
  | None => None
  end.

(** [state] is a valid pointer; the result carries [*state]. *)
Definition unit_lorawan_connected : M (esp_err_t * bool) :=
  '(err, response) <- _unit_lorawan_send_at_command
                        "CSTATUS?" response_zero UNIT_LORAWAN_RESPONSE_TIMEOUT_MS ;;
  let state :=
    if is_ok err && success response then
      match response_data response with
      | Some data =>
          match status_code_of data with
          | Some status_code => found status_code "04" || found status_code "08"
          | None => false
          end
      | None => false
      end
    else false in
  ret (err, state).

Definition unit_lorawan_join : M esp_err_t :=
  '(err, _) <- _unit_lorawan_send_at_command "CJOIN=1,1,10,8" response_zero 30000 ;;
  ret err.

(** A configuration step: send the command; on [err != ESP_OK ||
    !response.success] leave through [cleanup:] with [err], else release the
    response and go on. *)
Definition at_step (cmd : string) (response : lorawan_response_t)
    (k : lorawan_response_t -> M esp_err_t) : M esp_err_t :=
  '(err, response) <- _unit_lorawan_send_at_command
                        cmd response UNIT_LORAWAN_RESPONSE_TIMEOUT_MS ;;
  if negb (is_ok err) || negb (success response) then ret err
  else k (_unit_lorawan_cleanup_response response).

Definition unit_lorawan_configOTTA (devEUI appEUI appKey : option string)
    (mode : unit_lorwan_uldlmode) : M esp_err_t :=
  match devEUI, appEUI, appKey with
  | Some devEUI, Some appEUI, Some appKey =>
      at_step "CJOINMODE=0" response_zero (fun response =>
      at_step (snprintf 64 ("CDEVEUI=" ++ c_str devEUI)) response (fun response =>
      at_step (snprintf 64 ("CAPPEUI=" ++ c_str appEUI)) response (fun response =>
      at_step (snprintf 80 ("CAPPKEY=" ++ c_str appKey)) response (fun response =>
      at_step (snprintf 32 ("CULDLMODE=" ++ _unit_lorawan_uldlmode_str mode))
              response (fun response =>
      at_step "CCLASS=0" response (fun response =>
      at_step "CWORKMODE=2" response (fun _ =>
      ret ESP_OK)))))))
  | _, _, _ => ret ESP_ERR_INVALID_ARG
  end.

Definition UNIT_LORAWAN_MFG : string := "ASR".

Definition unit_lorawan_attached : M (esp_err_t * bool) :=
  '(err, response) <- _unit_lorawan_send_at_command
                        "CGMI?" response_zero UNIT_LORAWAN_RESPONSE_TIMEOUT_MS ;;
  let state :=
    if is_ok err && success response then
      match response_data response with
      | Some data =>
          match strstr (c_str data) "+CGMI=" with
          | Some cgmi_pos =>
              match sscanf_lit_s "+CGMI=" 15 cgmi_pos with
              | Some manufacturer => found manufacturer UNIT_LORAWAN_MFG
              | None => false
              end
          | None => false
          end
      | None => false
      end
    else false in
  ret (err, state).

(** [(uint8_t) dr_value] *)
Definition uint8_of_int (z : Z) : N := Z.to_N (z mod 256).

(** The two outputs are passed in with the content the caller's variables
    have before the call, since not every path stores to them. *)
Definition unit_lorawan_get_data_rate_info (current_data_rate max_payload_size : N)
  : M (esp_err_t * (N * N)) :=
  '(err, response) <- _unit_lorawan_send_at_command
                        "CDATARATE?" response_zero UNIT_LORAWAN_RESPONSE_TIMEOUT_MS ;;
  match (if is_ok err && success response then response_data response else None) with
  | Some data =>
      match strstr (c_str data) "+CDATARATE:" with
      | Some cdatarate_pos =>
          match sscanf_lit_d "+CDATARATE:" cdatarate_pos with
          | Some dr_value =>
              let max :=
                if (0 <=? dr_value)%Z && (dr_value <=? 4)%Z
                then nth (Z.to_nat dr_value) us915_max_payload_sizes 0%N
                else UNIT_LORAWAN_US915_MAX_PAYLOAD_DR0 in
              ret (err, (uint8_of_int dr_value, max))
          | None => ret (ESP_FAIL, (current_data_rate, max_payload_size))
          end
      | None => ret (ESP_FAIL, (current_data_rate, max_payload_size))
      end
  | None =>
      (* Try alternative query *)
      '(err, response) <- _unit_lorawan_send_at_command
                            "CSTATUS?" (_unit_lorawan_cleanup_response response)
                            UNIT_LORAWAN_RESPONSE_TIMEOUT_MS ;;
      if is_ok err && success response
      then ret (err, (UNIT_LORAWAN_TTN_US915_DATA_RATE_DEFAULT,
                      nth (N.to_nat UNIT_LORAWAN_TTN_US915_DATA_RATE_DEFAULT)
                          us915_max_payload_sizes 0%N))
      else ret (err, (current_data_rate, max_payload_size))
  end.

(** [stack_dr] and [stack_max] are the contents of the locals [current_dr]
    and [max_payload] at their declaration: they have no initialiser, so
    these are whatever the stack holds. *)
Definition unit_lorawan_send (message : option string) (length : N)
    (stack_dr stack_max : N) : M esp_err_t :=
  match message with
  | None => ret ESP_ERR_INVALID_ARG
  | Some message =>
      if (length =? 0)%N then ret ESP_ERR_INVALID_ARG
      else
        '(dr_err, (current_dr, max_payload)) <-
            unit_lorawan_get_data_rate_info stack_dr stack_max ;;
        let '(current_dr, max_payload) :=
          if negb (is_ok dr_err)
          then (0%N, UNIT_LORAWAN_US915_MAX_PAYLOAD_DR0)
          else (current_dr, max_payload) in
        let size_check := _unit_lorawan_validate_payload_size length current_dr in
        if negb (is_ok size_check) then ret size_check
        else
          let hex_message := hex_encode (message_bytes message length) in
          let hex_len := N.of_nat (String.length hex_message) in
          if (UNIT_LORAWAN_HEX_MESSAGE_MAX_SIZE <? hex_len)%N
          then ret ESP_ERR_INVALID_SIZE
          else
            let send_cmd :=
              snprintf (9 + 10 + N.to_nat hex_len + 1)
                       ("DTRX=1,2," ++ dec length ++ "," ++ hex_message) in
            '(err, _) <- _unit_lorawan_send_at_command send_cmd response_zero 30000 ;;
            ret err
  end.

Definition unit_lorawan_set_data_rate (data_rate : N) : M esp_err_t :=
  if (UNIT_LORAWAN_US915_DATA_RATE_MAX <? data_rate)%N then ret ESP_ERR_INVALID_ARG
  else
    let dr_cmd := snprintf 32 ("CDATARATE=" ++ dec data_rate) in
    '(err, _) <- _unit_lorawan_send_at_command
                   dr_cmd response_zero UNIT_LORAWAN_RESPONSE_TIMEOUT_MS ;;
    ret err.

Definition unit_lorawan_set_retries (message_type retries : N) : M esp_err_t :=
  if (1 <? message_type)%N then ret ESP_ERR_INVALID_ARG
  else if (retries <? 1)%N || (15 <? retries)%N then ret ESP_ERR_INVALID_ARG
  else
    let cmd := snprintf 32 ("CNBTRIALS=" ++ dec message_type ++ "," ++ dec retries) in
    '(err, _) <- _unit_lorawan_send_at_command
                   cmd response_zero UNIT_LORAWAN_RESPONSE_TIMEOUT_MS ;;
    ret err.

Definition unit_lorawan_set_tx_power (power_index : N) : M esp_err_t :=
  if (7 <? power_index)%N then ret ESP_ERR_INVALID_ARG
  else
    let cmd := snprintf 16 ("CTXP=" ++ dec power_index) in
    '(err, _) <- _unit_lorawan_send_at_command
                   cmd response_zero UNIT_LORAWAN_RESPONSE_TIMEOUT_MS ;;
    ret err.

Definition unit_lorawan_link_check (mode : N) : M esp_err_t :=
  if (2 <? mode)%N then ret ESP_ERR_INVALID_ARG
  else
    let cmd := snprintf 16 ("CLINKCHECK=" ++ dec mode) in
    '(err, _) <- _unit_lorawan_send_at_command
                   cmd response_zero
                   (if (mode =? 1)%N then 30000 else UNIT_LORAWAN_RESPONSE_TIMEOUT_MS) ;;
    ret err.

(* ===================================================================== *)
(** * TTN orchestrator and join watcher *)
(* ===================================================================== *)

(** [unit_lorawan_ttn_config_t]; the three strings are valid pointers. *)
Record unit_lorawan_ttn_config_t := mk_config {
  dev_eui : string;
  app_eui : string;
  app_key : string;
  sub_band : N;
  data_rate : N;
  adr_enabled : bool;
  rx2_frequency : N;
  rx2_data_rate : N;
  join_timeout_sec : N
}.

Definition strlen (s : string) : nat := String.length (c_str s).

Definition _get_us915_sub_band_mask (sub_band : N) : string :=
  match sub_band with
  | 1 => "0001" | 2 => "0002" | 3 => "0004" | 4 => "0008"
  | 5 => "0010" | 6 => "0020" | 7 => "0040" | 8 => "0080"
  | _ => "0002"
  end%N.

Definition _validate_ttn_config (config : option unit_lorawan_ttn_config_t)
  : esp_err_t :=
  match config with
  | None => ESP_ERR_INVALID_ARG
  | Some config =>
      if negb (strlen (dev_eui config) =? UNIT_LORAWAN_EUI_LENGTH)%nat
      then ESP_ERR_INVALID_ARG
      else if negb (strlen (app_eui config) =? UNIT_LORAWAN_EUI_LENGTH)%nat
      then ESP_ERR_INVALID_ARG
      else if negb (strlen (app_key config) =? UNIT_LORAWAN_APP_KEY_LENGTH)%nat
      then ESP_ERR_INVALID_ARG
      else if (sub_band config <? UNIT_LORAWAN_US915_SUB_BAND_MIN)%N
              || (UNIT_LORAWAN_US915_SUB_BAND_MAX <? sub_band config)%N
      then ESP_ERR_INVALID_ARG
      else if (UNIT_LORAWAN_US915_DATA_RATE_MAX <? data_rate config)%N
      then ESP_ERR_INVALID_ARG
      else if (15 <? rx2_data_rate config)%N
      then ESP_ERR_INVALID_ARG
      else ESP_OK
  end.

Definition _configure_us915_frequency_plan (sub_band : N) : M esp_err_t :=
  at_step "CFREQBANDMASK=0001" response_zero (fun response =>
  at_step (snprintf 32 ("CFREQBANDMASK=" ++ _get_us915_sub_band_mask sub_band))
          response (fun _ =>
  ret ESP_OK)).

Definition _configure_ttn_network_parameters (config : unit_lorawan_ttn_config_t)
  : M esp_err_t :=
  at_step (snprintf 16 ("CADR=" ++ (if adr_enabled config then "1" else "0")))
          response_zero (fun response =>
  '(err, response) <- _unit_lorawan_send_at_command
                        (snprintf 32 ("CDATARATE=" ++ dec (data_rate config)))
                        response UNIT_LORAWAN_RESPONSE_TIMEOUT_MS ;;
  if negb (is_ok err) || negb (success response)
  then ret ESP_OK   (* Don't fail configuration for this *)
  else ret err).

(** The polling loop of the watcher: [remaining] is
    [timeout_sec - elapsed_sec] ([elapsed_sec] itself only feeds the log);
    [connected] is the local the loop leaves behind for the test after it. *)
Fixpoint monitor_loop (remaining : nat) (monitor_params : join_monitor_params_t)
    (connected : bool) : M bool :=
  match remaining with
  | O => ret connected
  | S remaining' =>
      vTaskDelay 1000 ;;;
      '(check_err, connected) <- unit_lorawan_connected ;;
      if is_ok check_err && connected then
        log_task (CallbackCall (callback monitor_params) true 0
                               (user_data monitor_params)) ;;;
        ret connected
      else monitor_loop remaining' monitor_params connected
  end.

Definition ttn_join_monitor_task (monitor_params : join_monitor_params_t)
  : M unit :=
  connected <- monitor_loop (N.to_nat (timeout_sec monitor_params))
                            monitor_params false ;;
  (if negb connected
   then log_task (CallbackCall (callback monitor_params) false 1
                               (user_data monitor_params))
   else ret tt) ;;;
  log_task ParamsFree ;;;
  log_task TaskDelete.

(** [join_callback] is [None] for a NULL callback. *)
Definition unit_lorawan_configure_ttn_us915
    (config : option unit_lorawan_ttn_config_t)
    (join_callback : option N) (user_data : N) : M esp_err_t :=
  let err := _validate_ttn_config config in
  match config with
  | Some config =>
      if negb (is_ok err) then ret err
      else
        '(err, attached) <- unit_lorawan_attached ;;
        if negb (is_ok err) || negb attached then ret ESP_ERR_INVALID_STATE
        else
          err <- _configure_us915_frequency_plan (sub_band config) ;;
          if negb (is_ok err) then ret err
          else
            err <- unit_lorawan_configOTTA (Some (dev_eui config))
                     (Some (app_eui config)) (Some (app_key config))
                     DIFFERENT_FREQ_MODE ;;
            if negb (is_ok err) then ret err
            else
              err <- _configure_ttn_network_parameters config ;;
              if negb (is_ok err) then ret err
              else
                _unit_lorawan_send_at_command
                  "CSAVE" response_zero UNIT_LORAWAN_RESPONSE_TIMEOUT_MS ;;;
                err <- unit_lorawan_join ;;
                if negb (is_ok err) then ret err
                else
                  (match join_callback with
                   | Some cb =>
                       log_task (TaskCreate
                                   (mk_params cb user_data (join_timeout_sec config)))
                   | None => ret tt
                   end) ;;;
                  ret ESP_OK
  | None => ret err
  end.

(** ** Example worlds *)

Definition world0 : world := mk_world 0 [] [] [] [].

(** A modem that answers the successive commands with the given texts, each
    on the first poll. *)
Definition answering (replies : list string) : world :=
  mk_world 0 (map (fun r => (ESP_OK, r)) replies) [] [] [].

(** The frames written so far. *)
Definition written (w : world) : list string :=
  flat_map (fun e => match e with EvWrite b => [b] | _ => [] end) (trace w).

Definition count_events (p : event -> bool) (evs : list event) : nat :=
  List.length (filter p evs).

Definition is_write (e : event) : bool :=
  match e with EvWrite _ => true | _ => false end.

(* ===================================================================== *)
(** * Vocabulary of the specifications *)
(* ===================================================================== *)

(** [us915_max_payload_sizes[dr]] *)
Definition ceiling_of (dr : N) : N := nth (N.to_nat dr) us915_max_payload_sizes 0%N.

(** The character after a scanned token: white space or the end. *)
Definition token_end (rest : string) : bool :=
  match rest with
  | EmptyString => true
  | String c _ => isspace c
  end.

(** Events of the reading phase of an attempt: polls of the transport, the
    50 ms naps between them and the 100 ms settle delay after the write. *)
Definition quiet (e : event) : bool :=
  match e with
  | EvRead => true
  | EvDelay ms => (ms =? 50)%Z || (ms =? 100)%Z
  | _ => false
  end.

(** [w'] continues [w] with reading-phase events only. *)
Definition extends_quietly (w w' : world) : Prop :=
  exists polls, trace w' = (trace w ++ polls)%list /\ forallb quiet polls = true
                /\ tasks w' = tasks w /\ tx w' = tx w.

(** What the polling loop can end with: out of fuel, the timeout, or a
    non-empty packet of bytes. *)
Definition wait_result (r : option (esp_err_t * string)) : Prop :=
  r = None \/ r = Some (ESP_ERR_TIMEOUT, EmptyString)
  \/ exists bytes, r = Some (ESP_OK, bytes) /\ bytes <> EmptyString.

(** The nap before a retry: [if (retry > 0) vTaskDelay (pdMS_TO_TICKS (500))]. *)
Definition backoff (retry : nat) : list event :=
  if (0 <? retry)%nat then [EvDelay 500] else [].

(** The events of [n] consecutive attempts, the first of which has loop
    index [retry]: each attempt is the back-off nap (not before the first
    one), the flush, the write of the frame, then reading-phase events. *)
Inductive attempts_trace (at_cmd : string) : nat -> nat -> list event -> Prop :=
| attempts_done retry : attempts_trace at_cmd retry 0 []
| attempts_next retry n polls rest :
    forallb quiet polls = true ->
    attempts_trace at_cmd (S retry) n rest ->
    attempts_trace at_cmd retry (S n)
      (backoff retry ++ EvFlush :: EvWrite at_cmd :: polls ++ rest)%list.

(** [w'] is [w] after some more transport events, with the same task log. *)
Definition grows (w w' : world) : Prop :=
  tasks w' = tasks w /\ exists evs, trace w' = (trace w ++ evs)%list.

(** An operation that only talks to the transport. *)
Definition frame {A} (m : M A) : Prop := forall w, grows w (snd (m w)).

(** The parser lets the text through to the status scan: it has an [OK]
    marker, or at least no [ERROR] marker. *)
Definition accepted (text : string) : bool :=
  found (c_str text) "OK" || negb (found (c_str text) "ERROR").

(** [*state] as a function of the reply. *)
Definition state_of_reply (text : string) : bool :=
  match status_code_of text with
  | Some status_code =>
      accepted text && (found status_code "04" || found status_code "08")
  | None => false
  end.

(** The data rate the payload is validated against. *)
Definition rate_in_force (query : esp_err_t * (N * N)) : N :=
  if is_ok (fst query) then fst (snd query) else 0%N.

(** The world after the one-second nap that precedes a poll. *)
Definition nap (w : world) : world := snd (vTaskDelay 1000 w).

(** [polls n w joined w']: starting in [w] the watcher makes [n] polls, each
    a one-second nap followed by a connected-check; every poll but the last
    finds the device not joined; [joined] tells whether the last one found
    it joined; [w'] is the world after the last check. *)
Inductive polls : nat -> world -> bool -> world -> Prop :=
| polls_none w : polls 0 w false w
| polls_joined w w1 :
    unit_lorawan_connected (nap w) = ((ESP_OK, true), w1) ->
    polls 1 w true w1
| polls_next n w err state w1 joined w2 :
    unit_lorawan_connected (nap w) = ((err, state), w1) ->
    is_ok err && state = false ->
    polls n w1 joined w2 ->
    polls (S n) w joined w2.

(** [w] with the task log replaced. *)
Definition with_tasks (w : world) (ts : list task_event) : world :=
  mk_world (clock w) (rx w) (tx w) (trace w) ts.

(** The watcher task the orchestrator leaves behind. *)
Definition spawned (config : unit_lorawan_ttn_config_t) (join_callback : option N)
    (user_data : N) (err : esp_err_t) : list task_event :=
  match join_callback with
  | Some cb =>
      if is_ok err
      then [TaskCreate (mk_params cb user_data (join_timeout_sec config))]
      else []
  | None => []
  end.

From Stdlib Require DecimalN DecimalPos.

(* ===================================================================== *)
(** * Further operations of the driver *)
(* ===================================================================== *)

Definition unit_lorawan_reboot : M esp_err_t :=
  '(err, _) <- _unit_lorawan_send_at_command
                 "IREBOOT=0" response_zero UNIT_LORAWAN_RESPONSE_TIMEOUT_MS ;;
  (if is_ok err then vTaskDelay 2000 else ret tt) ;;;
  ret err.

Definition unit_lorawan_save_config : M esp_err_t :=
  '(err, _) <- _unit_lorawan_send_at_command
                 "CSAVE" response_zero UNIT_LORAWAN_RESPONSE_TIMEOUT_MS ;;
  ret err.

Definition unit_lorawan_restore_defaults : M esp_err_t :=
  '(err, _) <- _unit_lorawan_send_at_command
                 "CRESTORE" response_zero UNIT_LORAWAN_RESPONSE_TIMEOUT_MS ;;
  ret err.

(** [power_index] is [None] for a NULL pointer, else the content of
    [*power_index] before the call; the result carries its content after. *)
Definition unit_lorawan_get_tx_power (power_index : option N)
  : M (esp_err_t * option N) :=
  match power_index with
  | None => ret (ESP_ERR_INVALID_ARG, None)
  | Some old =>
      '(err, response) <- _unit_lorawan_send_at_command
                            "CTXP?" response_zero UNIT_LORAWAN_RESPONSE_TIMEOUT_MS ;;
      match (if is_ok err && success response then response_data response else None) with
      | Some data =>
          match strstr (c_str data) "+CTXP:" with
          | Some txp_pos =>
              match sscanf_lit_d "+CTXP:" txp_pos with
              | Some power_value => ret (err, Some (uint8_of_int power_value))
              | None => ret (ESP_FAIL, Some old)
              end
          | None => ret (ESP_FAIL, Some old)
          end
      | None => ret (err, Some old)
      end
  end.

(** [response] is [None] for a NULL buffer, else the C string the buffer
    holds before the call; the result carries the C string it holds after
    ([strncpy (response, data, response_size - 1)] and the NUL stored at
    [response_size - 1]). *)
Definition unit_lorawan_send_raw_command (command : option string)
    (response : option string) (response_size : N) (timeout_ms : Z)
  : M (esp_err_t * option string) :=
  match command with
  | None => ret (ESP_ERR_INVALID_ARG, response)
  | Some command =>
      '(err, lorawan_resp) <- _unit_lorawan_send_at_command
                                command response_zero timeout_ms ;;
      match response with
      | Some old =>
          if is_ok err && (0 <? response_size)%N then
            match response_data lorawan_resp with
            | Some data =>
                ret (err, Some (substring 0 (N.to_nat response_size - 1) (c_str data)))
            | None => ret (err, Some EmptyString)
            end
          else ret (err, Some old)
      | None => ret (err, None)
      end
  end.

(** [uart_begin] is the status [core2foraws_expports_uart_begin (115200)]
    returns; opening the port is not an event of the trace. *)
Definition unit_lorawan_init (uart_begin : esp_err_t) : M esp_err_t :=
  if negb (is_ok uart_begin) then ret uart_begin
  else
    core2foraws_expports_uart_read_flush ;;;
    '(err, attached) <- unit_lorawan_attached ;;
    if negb (is_ok err) || negb attached then ret ESP_FAIL
    else
      unit_lorawan_log 1 ;;;
      _unit_lorawan_send_at_command
        "CSAVE" response_zero UNIT_LORAWAN_RESPONSE_TIMEOUT_MS ;;;
      unit_lorawan_reboot ;;;
      ret ESP_OK.

(** The compile-time OTAA settings: [CONFIG_LORAWAN_DEVICE_EUI],
    [CONFIG_LORAWAN_APP_EUI] and [CONFIG_LORAWAN_APP_KEY]. *)
Record otaa_kconfig := mk_otaa_kconfig {
  CONFIG_LORAWAN_DEVICE_EUI : string;
  CONFIG_LORAWAN_APP_EUI : string;
  CONFIG_LORAWAN_APP_KEY : string
}.

(** The two macros the function tests with [#ifdef] are arguments:
    [CONFIG_LORAWAN_OTAA] with the settings it brings, and
    [CONFIG_LORAWAN_ULDL_MODE] with its value. *)
Definition unit_lorawan_config_otaa_from_kconfig
    (CONFIG_LORAWAN_OTAA : option otaa_kconfig)
    (CONFIG_LORAWAN_ULDL_MODE : option bool) : M esp_err_t :=
  match CONFIG_LORAWAN_OTAA with
  | Some cfg =>
      if negb (strlen (CONFIG_LORAWAN_DEVICE_EUI cfg) =? UNIT_LORAWAN_EUI_LENGTH)%nat
      then ret ESP_ERR_INVALID_ARG
      else if negb (strlen (CONFIG_LORAWAN_APP_EUI cfg) =? UNIT_LORAWAN_EUI_LENGTH)%nat
      then ret ESP_ERR_INVALID_ARG
      else if negb (strlen (CONFIG_LORAWAN_APP_KEY cfg) =? UNIT_LORAWAN_APP_KEY_LENGTH)%nat
      then ret ESP_ERR_INVALID_ARG
      else
        let mode :=
          match CONFIG_LORAWAN_ULDL_MODE with
          | Some true => SAME_FREQ_MODE
          | Some false => DIFFERENT_FREQ_MODE
          | None => DIFFERENT_FREQ_MODE
          end in
        unit_lorawan_configOTTA (Some (CONFIG_LORAWAN_DEVICE_EUI cfg))
                                (Some (CONFIG_LORAWAN_APP_EUI cfg))
                                (Some (CONFIG_LORAWAN_APP_KEY cfg)) mode
  | None => ret ESP_ERR_INVALID_ARG
  end.

(** ** Channel RSSI scan *)

Definition newline : ascii := ascii_of_N 10.

(** [strchr (s, c)] for a character other than NUL: the suffix of [s] that
    starts at the first [c], or [None]. *)
Fixpoint strchr (s : string) (c : ascii) : option string :=
  match s with
  | EmptyString => None
  | String a t => if Ascii.eqb a c then Some s else strchr t c
  end.

(** The digits of a [%d] conversion, with the input left after them. *)
Fixpoint scan_digits_rest (acc : Z) (s : string) : Z * string :=
  match s with
  | EmptyString => (acc, EmptyString)
  | String c t =>
      match digit_of c with
      | Some d => scan_digits_rest (10 * acc + d) t
      | None => (acc, s)
      end
  end.

(** [%d] followed by more of the format: the value and the rest of the
    input. *)
Definition scan_d_rest (s : string) : option (Z * string) :=
  match skip_space s with
  | String "-" t =>
      if starts_with_digit t
      then let (v, rest) := scan_digits_rest 0 t in Some (clamp_int (- v), rest)
      else None
  | String "+" t =>
      if starts_with_digit t
      then let (v, rest) := scan_digits_rest 0 t in Some (clamp_int v, rest)
      else None
  | t =>
      if starts_with_digit t
      then let (v, rest) := scan_digits_rest 0 t in Some (clamp_int v, rest)
      else None
  end.

(** [sscanf (line, "%d:%d", &channel, &rssi_val) == 2], with the two
    values. *)
Definition sscanf_d_colon_d (line : string) : option (Z * Z) :=
  match scan_d_rest line with
  | Some (channel, String ":" rest) =>
      match scan_d rest with
      | Some rssi_val => Some (channel, rssi_val)
      | None => None
      end
  | _ => None
  end.

(** [(int16_t) rssi_val] *)
Definition int16_of_int (z : Z) : Z := (z + 32768) mod 65536 - 32768.

(** [rssi_values[count] = v]; the caller's array holds at least the eight
    entries the driver writes, an index beyond it is outside C. *)
Fixpoint array_set (values : list Z) (i : nat) (v : Z) : list Z :=
  match values, i with
  | [], _ => []
  | _ :: t, O => v :: t
  | x :: t, S j => x :: array_set t j v
  end.

(** [line = strchr (line, '\n'); if (line) line++;] *)
Definition next_line (line : string) : option string :=
  match strchr line newline with
  | Some (String _ t) => Some t
  | _ => None
  end.

(** The loop [while (line && count < 8)].  Every turn moves [line] past a
    newline, so the length of the text bounds the number of turns
    ([rssi_loop_fuel_suffices]); [None] is "out of fuel". *)
Fixpoint rssi_loop (fuel : nat) (line : option string) (count : nat)
    (rssi_values : list Z) : option (nat * list Z) :=
  match line with
  | Some l =>
      if (count <? 8)%nat then
        match fuel with
        | O => None
        | S fuel' =>
            let '(count', rssi_values') :=
              match sscanf_d_colon_d l with
              | Some (channel, rssi_val) =>
                  if (0 <=? channel)%Z && (channel <=? 7)%Z
                     && (channel =? Z.of_nat count)%Z
                  then (S count, array_set rssi_values count (int16_of_int rssi_val))
                  else (count, rssi_values)
              | None => (count, rssi_values)
              end in
            rssi_loop fuel' (next_line l) count' rssi_values'
        end
      else Some (count, rssi_values)
  | None => Some (count, rssi_values)
  end.

(** [rssi_values] and [channel_count] are [None] for NULL pointers, else the
    content of the caller's array and of [*channel_count] before the call;
    the result carries their content after. *)
Definition unit_lorawan_get_channel_rssi (freq_band_idx : N)
    (rssi_values : option (list Z)) (channel_count : option N)
  : M (esp_err_t * (option (list Z) * option N)) :=
  match rssi_values, channel_count with
  | Some values, Some old_count =>
      let cmd := snprintf 32 ("CRSSI " ++ dec freq_band_idx ++ "?") in
      '(err, response) <- _unit_lorawan_send_at_command
                            cmd response_zero UNIT_LORAWAN_RESPONSE_TIMEOUT_MS ;;
      match (if is_ok err && success response then response_data response else None) with
      | Some data =>
          match strstr (c_str data) "+CRSSI:" with
          | Some line_start =>
              match rssi_loop (S (String.length line_start)) (next_line line_start)
                              0 values with
              | Some (count, values') =>
                  ret (err, (Some values', Some (N.of_nat count)))
              | None => ret (err, (Some values, Some old_count))
              end
          | None => ret (ESP_FAIL, (Some values, Some old_count))
          end
      | None => ret (err, (Some values, Some old_count))
      end
  | _, _ => ret (ESP_ERR_INVALID_ARG, (rssi_values, channel_count))
  end.

(* ===================================================================== *)
(** * The driver of version 0.0.1 *)
(* ===================================================================== *)

(** The second translation unit of [src/unit_lorawan.c] (2024-10-04): the
    framer and the status check that the later driver replaced. *)
Module Legacy.

(** [uint8_t at_cmd_str_len = 3 + strlen (cmd) + 2 + 1;] *)
Definition at_cmd_str_len (cmd : string) : nat := ((3 + strlen cmd + 2 + 1) mod 256)%nat.

(** [char at_cmd_str[at_cmd_str_len]] after the [snprintf], all
    [at_cmd_str_len] bytes of it: the text and the NUL that ends it.  A
    length of zero declares an array of no element, which is outside C; the
    model writes nothing then. *)
Definition at_cmd_str (cmd : string) : string :=
  match at_cmd_str_len cmd with
  | O => EmptyString
  | S _ => snprintf (at_cmd_str_len cmd) ("AT+" ++ c_str cmd ++ CRLF)
           ++ String zero EmptyString
  end.

(** [core2foraws_expports_uart_write (at_cmd_str, at_cmd_str_len, wrote)] *)
Definition _unit_lorawan_send_cmd (cmd : string) : M esp_err_t :=
  core2foraws_expports_uart_write (at_cmd_str cmd).

(** [message] is a C string. *)
Definition _unit_lorawan_check_received_status (read : N) (message : string)
  : esp_err_t :=
  if (read =? 0)%N then ESP_ERR_INVALID_SIZE
  else if found (c_str message) "ERROR" then ESP_FAIL
  else ESP_OK.

End Legacy.

(* ===================================================================== *)
(** * Further vocabulary *)
(* ===================================================================== *)

(** The events of a command that is answered at its first poll. *)
Definition exchange (at_cmd : string) : list event :=
  [EvFlush; EvWrite at_cmd; EvDelay 100; EvRead].

(** A read that brings bytes. *)
Definition has_data (r : esp_err_t * string) : bool :=
  is_ok (fst r) && (0 <? String.length (snd r))%nat.

(** Among the next [n] reads of the script, the index and the bytes of the
    first one that brings data. *)
Fixpoint first_data (n : nat) (script : list (esp_err_t * string))
  : option (nat * string) :=
  match n, script with
  | S n', r :: script' =>
      if has_data r then Some (O, snd r)
      else match first_data n' script' with
           | Some (k, bytes) => Some (S k, bytes)
           | None => None
           end
  | _, _ => None
  end.

(** [k] polls without data: a read and the 50 ms nap, [k] times. *)
Fixpoint idle_polls (k : nat) : list event :=
  match k with
  | O => []
  | S k' => EvRead :: EvDelay 50 :: idle_polls k'
  end.

(** The world once an attempt has napped (if it is a retry), flushed and
    written its frame. *)
Definition after_write (retry : nat) (at_cmd : string) (w : world) : world :=
  mk_world (clock w + (if (0 <? retry)%nat then 500 else 0)) (rx w) (tl (tx w))
           (trace w ++ backoff retry ++ [EvFlush; EvWrite at_cmd])%list (tasks w).

(** The world after a command that is answered at its first poll. *)
Definition exchanged (at_cmd : string) (w : world) : world :=
  mk_world (clock w + 100) (tl (rx w)) (tl (tx w))
           (trace w ++ exchange at_cmd)%list (tasks w).

Fixpoint exchanges (at_cmds : list string) (w : world) : world :=
  match at_cmds with
  | [] => w
  | at_cmd :: rest => exchanges rest (exchanged at_cmd w)
  end.

(** The transport accepts every write, and each of its reads brings a reply,
    at least [n] of them. *)
Definition fed (n : nat) (w : world) : Prop :=
  tx w = [] /\ (n <= List.length (rx w))%nat /\
  Forall (fun r => fst r = ESP_OK /\ snd r <> EmptyString) (rx w).

(** The next reply of the script. *)
Definition next_reply (w : world) : string :=
  match rx w with
  | r :: _ => snd r
  | [] => EmptyString
  end.

(** The captured text a caller finds in the response of a command that the
    modem answered with [text]. *)
Definition reply_data (text : string) : option string :=
  if accepted text && has_data_prefix (c_str text) then Some text else None.

(** A reply that lets a configuration step go on to the next. *)
Definition reply_passes (text : string) : bool :=
  success (snd (_unit_lorawan_parse_response text response_zero)).

Fixpoint leading_passes (texts : list string) : nat :=
  match texts with
  | text :: rest => if reply_passes text then S (leading_passes rest) else O
  | [] => O
  end.

(** A sequence of configuration steps, as [unit_lorawan_configOTTA] and
    [_configure_us915_frequency_plan] chain them. *)
Fixpoint at_chain (cmds : list string) (response : lorawan_response_t)
  : M esp_err_t :=
  match cmds with
  | [] => ret ESP_OK
  | cmd :: rest => at_step cmd response (fun response => at_chain rest response)
  end.

(** The commands of [unit_lorawan_configOTTA], in the order it sends them. *)
Definition otta_cmds (devEUI appEUI appKey : string) (mode : unit_lorwan_uldlmode)
  : list string :=
  [ "CJOINMODE=0";
    snprintf 64 ("CDEVEUI=" ++ c_str devEUI);
    snprintf 64 ("CAPPEUI=" ++ c_str appEUI);
    snprintf 80 ("CAPPKEY=" ++ c_str appKey);
    snprintf 32 ("CULDLMODE=" ++ _unit_lorawan_uldlmode_str mode);
    "CCLASS=0";
    "CWORKMODE=2" ].

(** [*state] of [unit_lorawan_attached] as a function of the reply. *)
Definition attached_of_reply (text : string) : bool :=
  match strstr (c_str text) "+CGMI=" with
  | Some cgmi_pos =>
      match sscanf_lit_s "+CGMI=" 15 cgmi_pos with
      | Some manufacturer => accepted text && found manufacturer UNIT_LORAWAN_MFG
      | None => false
      end
  | None => false
  end.

(** The commands of a complete run of [unit_lorawan_configure_ttn_us915]
    with a valid configuration. *)
Definition ttn_cmds (config : unit_lorawan_ttn_config_t) : list string :=
  [ "CGMI?";
    "CFREQBANDMASK=0001";
    "CFREQBANDMASK=" ++ _get_us915_sub_band_mask (sub_band config);
    "CJOINMODE=0";
    "CDEVEUI=" ++ c_str (dev_eui config);
    "CAPPEUI=" ++ c_str (app_eui config);
    "CAPPKEY=" ++ c_str (app_key config);
    "CULDLMODE=2";
    "CCLASS=0";
    "CWORKMODE=2";
    "CADR=" ++ (if adr_enabled config then "1" else "0");
    "CDATARATE=" ++ dec (data_rate config);
    "CSAVE";
    "CJOIN=1,1,10,8" ].

(** The world after a sequence of configuration steps whose commands are
    each answered at the first poll: the steps stop after the first reply
    that does not pass. *)
Definition chain_world (cmds : list string) (w : world) : world :=
  exchanges (map at_frame (firstn (S (leading_passes (map snd (rx w)))) cmds)) w.

(** What [_validate_ttn_config] asks of a configuration. *)
Definition valid_ttn_config (config : unit_lorawan_ttn_config_t) : Prop :=
  strlen (dev_eui config) = 16%nat /\ strlen (app_eui config) = 16%nat /\
  strlen (app_key config) = 32%nat /\
  (1 <= sub_band config <= 8)%N /\ (data_rate config <= 4)%N /\
  (rx2_data_rate config <= 15)%N.

(** The number that the digits of [u] denote when they follow digits worth
    [acc]. *)
Fixpoint uint_value (acc : Z) (u : Decimal.uint) : Z :=
  match u with
  | Decimal.Nil => acc
  | Decimal.D0 l => uint_value (10 * acc) l
  | Decimal.D1 l => uint_value (10 * acc + 1) l
  | Decimal.D2 l => uint_value (10 * acc + 2) l
  | Decimal.D3 l => uint_value (10 * acc + 3) l
  | Decimal.D4 l => uint_value (10 * acc + 4) l
  | Decimal.D5 l => uint_value (10 * acc + 5) l
  | Decimal.D6 l => uint_value (10 * acc + 6) l
  | Decimal.D7 l => uint_value (10 * acc + 7) l
  | Decimal.D8 l => uint_value (10 * acc + 8) l
  | Decimal.D9 l => uint_value (10 * acc + 9) l
  end.

(** No NUL among the characters. *)
Definition no_nul (s : string) : bool :=
  string_forallb (fun c => negb (Ascii.eqb c zero)) s.

(** The world once the receive buffer has been flushed. *)
Definition flushed (w : world) : world := snd (core2foraws_expports_uart_read_flush w).

(** Four upper-case hexadecimal digits. *)
Definition hex4 (n : N) : string :=
  String (hex_digit (n / 4096 mod 16))
    (String (hex_digit (n / 256 mod 16))
       (String (hex_digit (n / 16 mod 16))
          (String (hex_digit (n mod 16)) EmptyString))).

(** [%d] of a signed value, as the modem prints it. *)
Definition dec_int (z : Z) : string :=
  if (z <? 0)%Z then "-" ++ dec (Z.to_N (- z)) else dec (Z.to_N z).

(** The lines of an RSSI report for the channels [channel],
    [channel + 1], ...; [eol] ends a line. *)
Fixpoint rssi_lines (eol : string) (channel : nat) (levels : list Z) : string :=
  match levels with
  | [] => EmptyString
  | level :: rest =>
      dec (N.of_nat channel) ++ ":" ++ dec_int level ++ eol
      ++ rssi_lines eol (S channel) rest
  end.

(** The caller's array after the levels have been stored from [channel]
    on. *)
Fixpoint array_fill (values : list Z) (channel : nat) (levels : list Z) : list Z :=
  match levels with
  | [] => values
  | level :: rest => array_fill (array_set values channel level) (S channel) rest
  end.

(** The character [c] does not occur in [s]. *)
Definition lacks (c : ascii) (s : string) : bool :=
  string_forallb (fun x => negb (Ascii.eqb x c)) s.


(** The reply a command receives.  The command makes up to [attempts]
    attempts; [tx] holds the status of the writes to come and [rx] what the
    reads to come bring.  An attempt whose write is refused reads nothing;
    an attempt whose write is accepted polls [budget] times and receives the
    first packet of bytes these polls bring.  The result is the index of the
    first attempt that receives bytes, with the bytes; [None] when no
    attempt receives any. *)
Fixpoint received (attempts budget : nat) (tx : list esp_err_t)
    (rx : list (esp_err_t * string)) : option (nat * string) :=
  match attempts with
  | O => None
  | S attempts' =>
      let later rx' :=
        match received attempts' budget (tl tx) rx' with
        | Some (i, bytes) => Some (S i, bytes)
        | None => None
        end in
      if is_ok (hd ESP_OK tx) then
        match first_data budget rx with
        | Some (_, bytes) => Some (O, bytes)
        | None => later (skipn budget rx)
        end
      else later rx
  end.

(** The error a command is left with when none of its [attempts] attempts
    receives bytes: that of the last attempt, which is the status of its
    write when the transport refused it and [ESP_ERR_TIMEOUT] when not;
    [err] is the error so far. *)
Fixpoint final_error (attempts : nat) (err : esp_err_t) (tx : list esp_err_t)
  : esp_err_t :=
  match attempts with
  | O => err
  | S attempts' =>
      final_error attempts'
        (if is_ok (hd ESP_OK tx) then ESP_ERR_TIMEOUT else hd ESP_OK tx) (tl tx)
  end.

(** The number of attempts a command makes. *)
Definition attempts_made (attempts budget : nat) (tx : list esp_err_t)
    (rx : list (esp_err_t * string)) : nat :=
  match received attempts budget tx rx with
  | Some (i, _) => S i
  | None => attempts
  end.



(* ===================================================================== *)
(** * The model at work *)
(* ===================================================================== *)

Example parse_ok : _unit_lorawan_parse_response ("OK" ++ CRLF) response_zero
  = (ESP_OK, mk_response true None 0%N EmptyString).
Proof. reflexivity. Qed.

Example parse_error7 : _unit_lorawan_parse_response ("+CME ERROR:7" ++ CRLF) response_zero
  = (ESP_OK, mk_response false None 0 "7").
Proof. reflexivity. Qed.

Example hex_AB : hex_encode "AB" = "4142".
Proof. reflexivity. Qed.

Example dec_examples : dec 0%N = "0" /\ dec 5%N = "5" /\ dec 242%N = "242".
Proof. repeat split. Qed.

Example scan_d_examples :
  scan_d "2" = Some 2 /\ scan_d " -17x" = Some (-17) /\ scan_d "x" = None
  /\ scan_d "99999999999" = Some INT_MAX.
Proof. repeat split. Qed.

(* ===================================================================== *)
(** * Properties of the payload codec and validator *)
(* ===================================================================== *)

Section Codec.

Lemma fmt_02X_decodes (c : ascii) (rest : string) :
  hex_decode (fmt_02X c ++ rest) =
  match hex_decode rest with
  | Some r => Some (String c r)
  | None => None
  end.
Proof.
  destruct c as [[] [] [] [] [] [] [] []]; cbn; destruct (hex_decode rest); reflexivity.
Qed.

Lemma fmt_02X_upper (c : ascii) : string_forallb is_upper_hex (fmt_02X c) = true.
Proof. destruct c as [[] [] [] [] [] [] [] []]; reflexivity. Qed.

Lemma string_forallb_app p (a b : string) :
  string_forallb p (a ++ b) = string_forallb p a && string_forallb p b.
Proof.
  induction a as [|c a IH]; cbn; [reflexivity|].
  rewrite IH. now rewrite andb_assoc.
Qed.

Lemma string_length_app (a b : string) :
  String.length (a ++ b) = (String.length a + String.length b)%nat.
Proof. induction a as [|c a IH]; cbn; [reflexivity | now rewrite IH]. Qed.

Lemma hex_encode_length (message : string) :
  String.length (hex_encode message) = (2 * String.length message)%nat.
Proof.
  induction message as [|c t IH]; [reflexivity|].
  cbn [hex_encode]. rewrite string_length_app, IH. cbn. lia.
Qed.

Lemma hex_decode_encode (message : string) :
  hex_decode (hex_encode message) = Some message.
Proof.
  induction message as [|c t IH]; [reflexivity|].
  cbn [hex_encode]. now rewrite fmt_02X_decodes, IH.
Qed.

Lemma hex_encode_upper (message : string) :
  string_forallb is_upper_hex (hex_encode message) = true.
Proof.
  induction message as [|c t IH]; [reflexivity|].
  cbn [hex_encode]. now rewrite string_forallb_app, fmt_02X_upper, IH.
Qed.

Lemma hex_encode_injective (a b : string) :
  hex_encode a = hex_encode b -> a = b.
Proof.
  intros E. apply (f_equal hex_decode) in E.
  rewrite !hex_decode_encode in E. congruence.
Qed.

(** An upper-case hex digit is never NUL, so [strlen (hex_message)] is the
    whole text. *)
Lemma upper_hex_c_str (s : string) :
  string_forallb is_upper_hex s = true -> c_str s = s.
Proof.
  induction s as [|c t IH]; [reflexivity|]. cbn [string_forallb c_str].
  intros H. apply andb_prop in H as [Hc Ht].
  destruct (Ascii.eqb_spec c zero) as [->|_]; [discriminate Hc|].
  now rewrite IH.
Qed.

End Codec.

(** C6.  The codec turns every byte into two upper-case, zero-padded hex
    digits: the hex text is twice as long as the message, holds only
    [0-9A-F], and decodes back to the message. *)
Theorem hex_encode_roundtrip (message : string) :
  (forall c : ascii, String.length (fmt_02X c) = 2%nat) /\
  String.length (hex_encode message) = (2 * String.length message)%nat /\
  string_forallb is_upper_hex (hex_encode message) = true /\
  hex_decode (hex_encode message) = Some message.
Proof.
  split; [reflexivity|].
  split; [apply hex_encode_length|].
  split; [apply hex_encode_upper | apply hex_decode_encode].
Qed.

Section Validator.

Lemma data_rate_cases (dr : N) :
  (dr <= 4)%N -> dr = 0%N \/ dr = 1%N \/ dr = 2%N \/ dr = 3%N \/ dr = 4%N.
Proof. lia. Qed.

Lemma validate_payload_size_spec (payload_size dr : N) :
  (dr <= 4)%N ->
  _unit_lorawan_validate_payload_size payload_size dr =
  if (ceiling_of dr <? payload_size)%N then ESP_ERR_INVALID_SIZE else ESP_OK.
Proof.
  intros H. destruct (data_rate_cases dr H) as [->|[->|[->|[->| ->]]]]; reflexivity.
Qed.

(** Whatever the data rate byte, the ceiling in force is at least the DR0
    one. *)
Lemma validate_small_payload (payload_size dr : N) :
  (payload_size <= UNIT_LORAWAN_US915_MAX_PAYLOAD_DR0)%N ->
  _unit_lorawan_validate_payload_size payload_size dr = ESP_OK.
Proof.
  unfold _unit_lorawan_validate_payload_size, UNIT_LORAWAN_US915_MAX_PAYLOAD_DR0.
  intros H.
  assert (forall m, (11 <= m)%N -> (if (m <? payload_size)%N
                                    then ESP_ERR_INVALID_SIZE else ESP_OK) = ESP_OK) as K.
  { intros m Hm. destruct (N.ltb_spec m payload_size); [lia | reflexivity]. }
  destruct dr as [|[[[]|[]|]|[[]|[]|]|]]; apply K;
    unfold UNIT_LORAWAN_US915_MAX_PAYLOAD_DR0, UNIT_LORAWAN_US915_MAX_PAYLOAD_DR1,
      UNIT_LORAWAN_US915_MAX_PAYLOAD_DR2, UNIT_LORAWAN_US915_MAX_PAYLOAD_DR3,
      UNIT_LORAWAN_US915_MAX_PAYLOAD_DR4; lia.
Qed.

End Validator.

(** C5.  The ceiling table is {11, 53, 125, 242, 242}; it does not decrease
    from one data rate to a higher one; a payload of exactly the ceiling is
    accepted and one byte more is refused with ESP_ERR_INVALID_SIZE. *)
Theorem payload_ceiling_table (dr dr' : N) :
  (dr <= dr')%N -> (dr' <= 4)%N ->
  us915_max_payload_sizes = [11; 53; 125; 242; 242]%N /\
  (ceiling_of dr <= ceiling_of dr')%N /\
  _unit_lorawan_validate_payload_size (ceiling_of dr) dr = ESP_OK /\
  _unit_lorawan_validate_payload_size (ceiling_of dr + 1) dr = ESP_ERR_INVALID_SIZE.
Proof.
  intros Hle H4.
  assert (dr <= 4)%N as Hdr by lia.
  split; [reflexivity|].
  destruct (data_rate_cases dr Hdr) as [->|[->|[->|[->| ->]]]];
    destruct (data_rate_cases dr' H4) as [->|[->|[->|[->| ->]]]];
    try lia; repeat split; vm_compute; congruence.
Qed.

Lemma payload_ceiling_table_witness :
  us915_max_payload_sizes = [11; 53; 125; 242; 242]%N /\
  (ceiling_of 2 <= ceiling_of 3)%N /\
  _unit_lorawan_validate_payload_size (ceiling_of 2) 2 = ESP_OK /\
  _unit_lorawan_validate_payload_size (ceiling_of 2 + 1) 2 = ESP_ERR_INVALID_SIZE.
Proof. apply (payload_ceiling_table 2 3); lia. Defined.

(* ===================================================================== *)
(** * Properties of the response parser *)
(* ===================================================================== *)

Section Parser.

Lemma c_str_nonempty (raw : string) : c_str raw <> EmptyString -> raw <> EmptyString.
Proof. intros H ->. now apply H. Qed.

Lemma strstr_nonempty (hay needle pos : string) :
  needle <> EmptyString -> strstr hay needle = Some pos -> hay <> EmptyString.
Proof.
  intros Hn H ->. destruct needle; [now apply Hn | discriminate H].
Qed.

Lemma response_len_nonzero (raw : string) :
  raw <> EmptyString -> (N.of_nat (String.length raw) =? 0)%N = false.
Proof. destruct raw; [congruence | reflexivity]. Qed.

Lemma found_true_iff (hay needle : string) :
  found hay needle = true <-> exists pos, strstr hay needle = Some pos.
Proof.
  unfold found. destruct (strstr hay needle) as [pos|]; split; try congruence.
  - eauto.
  - intros [pos H]. discriminate H.
Qed.

Lemma found_false_iff (hay needle : string) :
  found hay needle = false <-> strstr hay needle = None.
Proof. unfold found. destruct (strstr hay needle); split; congruence. Qed.

(** Without an [OK] marker, an [ERROR] marker makes the response a failure;
    the code is what [ERROR:%15s] scans at the first marker. *)
Lemma parse_error_reply (raw error_pos : string) (old : lorawan_response_t) :
  found (c_str raw) "OK" = false ->
  strstr (c_str raw) "ERROR" = Some error_pos ->
  _unit_lorawan_parse_response raw old =
  (ESP_OK, mk_response false None 0
             match sscanf_lit_s "ERROR:" 15 error_pos with
             | Some c => c
             | None => EmptyString
             end).
Proof.
  intros Hok Herr. unfold _unit_lorawan_parse_response.
  rewrite response_len_nonzero.
  - cbv zeta. now rewrite Hok, Herr.
  - apply c_str_nonempty. eapply strstr_nonempty; [|exact Herr]. discriminate.
Qed.

Lemma scan_error_code_7 (rest : string) :
  token_end rest = true ->
  sscanf_lit_s "ERROR:" 15 ("ERROR:7" ++ rest) = Some "7".
Proof.
  intros H. destruct rest as [|c t]; [reflexivity|].
  cbn in H. cbn. unfold scan_s. cbn. now rewrite H.
Qed.

(** A response without any marker at all is a failure with nothing
    captured. *)
Lemma parse_unmarked_reply (raw : string) (old : lorawan_response_t) :
  raw <> EmptyString ->
  found (c_str raw) "OK" = false ->
  found (c_str raw) "ERROR" = false ->
  has_data_prefix (c_str raw) = false ->
  _unit_lorawan_parse_response raw old = (ESP_OK, mk_response false None 0 EmptyString).
Proof.
  intros Hne Hok Herr Hdata. unfold _unit_lorawan_parse_response.
  rewrite response_len_nonzero by assumption. cbv zeta.
  apply found_false_iff in Herr. now rewrite Hok, Herr, Hdata.
Qed.

(** A received (non-empty) text always parses with [ESP_OK]: the parser has
    no "unparseable" outcome of its own. *)
Lemma parse_nonempty_ok (raw : string) (old : lorawan_response_t) :
  raw <> EmptyString -> fst (_unit_lorawan_parse_response raw old) = ESP_OK.
Proof.
  intros Hne. unfold _unit_lorawan_parse_response.
  rewrite response_len_nonzero by assumption. cbv zeta.
  destruct (found (c_str raw) "OK").
  - now destruct (has_data_prefix (c_str raw)).
  - destruct (strstr (c_str raw) "ERROR"); [reflexivity|].
    now destruct (has_data_prefix (c_str raw)).
Qed.

(** ... and its result does not depend on the previous content of the
    response structure. *)
Lemma parse_nonempty_fresh (raw : string) (old old' : lorawan_response_t) :
  raw <> EmptyString ->
  _unit_lorawan_parse_response raw old = _unit_lorawan_parse_response raw old'.
Proof.
  intros Hne. unfold _unit_lorawan_parse_response.
  now rewrite response_len_nonzero by assumption.
Qed.

End Parser.

(** C3 as stated fails on the code: a text that holds neither an [OK] nor an
    [ERROR] marker but one of the data-bearing prefixes is a success, and
    an [OK] marker wins over [ERROR:7]. *)
Lemma parse_response_unmarked_data_is_success :
  found (c_str "+CSTATUS:04") "OK" = false /\
  found (c_str "+CSTATUS:04") "ERROR" = false /\
  success (snd (_unit_lorawan_parse_response "+CSTATUS:04" response_zero)) = true /\
  found (c_str "AT+LOOKUP ERROR:7") "ERROR:7" = true /\
  success (snd (_unit_lorawan_parse_response "AT+LOOKUP ERROR:7" response_zero)) = true.
Proof. repeat split. Qed.

(* ===================================================================== *)
(** * Properties of the response reader and the command framer *)
(* ===================================================================== *)

Local Open Scope list_scope.

Section Framer.

Lemma extends_quietly_refl w : extends_quietly w w.
Proof. exists []. now rewrite app_nil_r. Qed.

Lemma extends_quietly_trans w1 w2 w3 :
  extends_quietly w1 w2 -> extends_quietly w2 w3 -> extends_quietly w1 w3.
Proof.
  intros (p1 & T1 & Q1 & K1 & X1) (p2 & T2 & Q2 & K2 & X2). exists (p1 ++ p2).
  rewrite T2, T1, <- app_assoc, forallb_app, Q1, Q2, K2, K1, X2, X1. auto.
Qed.

Lemma extends_quietly_step w (evs : list event) w' :
  trace w' = trace w ++ evs -> forallb quiet evs = true -> tasks w' = tasks w ->
  tx w' = tx w -> extends_quietly w w'.
Proof. intros. exists evs. auto. Qed.

Lemma wait_loop_spec fuel start_time timeout_ms : forall w,
  extends_quietly w (snd (wait_loop fuel start_time timeout_ms w)) /\
  wait_result (fst (wait_loop fuel start_time timeout_ms w)).
Proof.
  induction fuel as [|fuel IH]; intros w; cbn [wait_loop].
  - destruct (_ <? _)%Z; cbn; (split; [apply extends_quietly_refl|]);
      unfold wait_result; auto.
  - destruct (_ <? _)%Z; cbn -[Nat.ltb is_ok];
      [|split; [apply extends_quietly_refl | unfold wait_result; auto]].
    destruct (hd (ESP_OK, EmptyString) (rx w)) as [err bytes].
    destruct (is_ok err && (0 <? String.length bytes)%nat) eqn:Hdata.
    + cbn. split.
      * eapply extends_quietly_step with (evs := [EvRead]); reflexivity.
      * right; right. exists bytes. split; [reflexivity|].
        apply andb_prop in Hdata as [_ Hlen]. destruct bytes; [discriminate | congruence].
    + match goal with |- context [wait_loop fuel _ _ ?w1] => specialize (IH w1) end.
      destruct IH as [Hq Hr]. split; [|exact Hr].
      eapply extends_quietly_trans; [|exact Hq].
      eapply extends_quietly_step with (evs := [EvRead; EvDelay 50]); cbn;
        [now rewrite <- app_assoc | reflexivity ..].
Qed.

(** The model of the polling loop does not run out of fuel: with the budget
    of [poll_budget] turns the loop always leaves through its own test.
    (The bound on the timeout is where the 32-bit tick arithmetic of the
    driver itself stops wrapping before the test can fail.) *)
Lemma wait_loop_fuel_suffices fuel timeout_ms c0 : forall w,
  timeout_ms <= 2 ^ 32 - 50 ->
  0 <= clock w - c0 < 2 ^ 32 ->
  timeout_ms <= clock w - c0 + 50 * Z.of_nat fuel ->
  fst (wait_loop fuel (uint32 c0) timeout_ms w) <> None.
Proof.
  induction fuel as [|fuel IH]; intros w Hmax He Hfuel; cbn [wait_loop];
    assert (uint32 (uint32 (clock w) - uint32 c0) = clock w - c0) as ->
      by (unfold uint32; rewrite <- Zminus_mod; apply Z.mod_small; lia).
  - destruct (Z.ltb_spec (clock w - c0) timeout_ms); [lia | discriminate].
  - destruct (Z.ltb_spec (clock w - c0) timeout_ms); [|discriminate].
    cbn -[Nat.ltb is_ok]. destruct (hd (ESP_OK, EmptyString) (rx w)) as [err bytes].
    destruct (is_ok err && _); [discriminate|].
    apply IH; cbn [clock snd vTaskDelay]; lia.
Qed.

Lemma poll_budget_enough timeout_ms :
  timeout_ms <= 50 * Z.of_nat (poll_budget timeout_ms).
Proof.
  unfold poll_budget. destruct (Z.le_gt_cases 0 timeout_ms).
  - rewrite Z2Nat.id by (apply Z.div_pos; lia).
    pose proof (Z.mul_div_le (timeout_ms + 49) 50 ltac:(lia)).
    pose proof (Z.mod_pos_bound (timeout_ms + 49) 50 ltac:(lia)).
    pose proof (Z.div_mod (timeout_ms + 49) 50 ltac:(lia)). lia.
  - lia.
Qed.

Lemma wait_for_response_total timeout_ms w :
  timeout_ms <= 2 ^ 32 - 50 ->
  fst (wait_loop (poll_budget timeout_ms) (uint32 (clock w)) timeout_ms w) <> None.
Proof.
  intros H. apply wait_loop_fuel_suffices; [exact H | lia |].
  pose proof (poll_budget_enough timeout_ms). lia.
Qed.

Lemma wait_for_response_spec timeout_ms w :
  extends_quietly w (snd (_unit_lorawan_wait_for_response timeout_ms w)) /\
  (fst (_unit_lorawan_wait_for_response timeout_ms w) = (ESP_ERR_TIMEOUT, EmptyString)
   \/ exists bytes,
       fst (_unit_lorawan_wait_for_response timeout_ms w) = (ESP_OK, bytes)
       /\ bytes <> EmptyString).
Proof.
  unfold _unit_lorawan_wait_for_response, bind, tick_ms, ret.
  destruct (wait_loop_spec (poll_budget timeout_ms) (uint32 (clock w)) timeout_ms w)
    as [Hq Hr].
  destruct (wait_loop _ _ _ w) as [r w1]. cbn in *.
  destruct Hr as [-> | [-> | (bytes & -> & Hne)]]; cbn; split; eauto.
Qed.

(** The modem has an answer ready at the first poll. *)
Lemma wait_for_response_data timeout_ms w bytes rest :
  0 < timeout_ms ->
  rx w = (ESP_OK, bytes) :: rest ->
  bytes <> EmptyString ->
  _unit_lorawan_wait_for_response timeout_ms w
  = ((ESP_OK, bytes),
     mk_world (clock w) rest (tx w) (trace w ++ [EvRead]) (tasks w)).
Proof.
  intros Ht Hrx Hne.
  unfold _unit_lorawan_wait_for_response, bind, tick_ms, ret.
  assert (exists k, poll_budget timeout_ms = S k) as [k ->].
  { pose proof (poll_budget_enough timeout_ms).
    destruct (poll_budget timeout_ms); [lia | eauto]. }
  cbn [wait_loop].
  assert (uint32 (uint32 (clock w) - uint32 (clock w)) = 0) as ->
    by (unfold uint32; now rewrite Z.sub_diag).
  destruct (Z.ltb_spec 0 timeout_ms); [|lia].
  cbn. rewrite Hrx. cbn.
  destruct bytes; [congruence | reflexivity].
Qed.


Lemma is_ok_false err : is_ok err = false -> err <> ESP_OK.
Proof. unfold is_ok. intros H. now apply Z.eqb_neq. Qed.

Lemma is_ok_true err : is_ok err = true -> err = ESP_OK.
Proof. unfold is_ok. intros H. now apply Z.eqb_eq. Qed.

Lemma send_attempt_spec retry at_cmd response timeout_ms w :
  exists polls,
    trace (snd (send_attempt retry at_cmd response timeout_ms w))
    = trace w ++ backoff retry ++ EvFlush :: EvWrite at_cmd :: polls /\
    forallb quiet polls = true /\
    tasks (snd (send_attempt retry at_cmd response timeout_ms w)) = tasks w /\
    tx (snd (send_attempt retry at_cmd response timeout_ms w)) = tl (tx w) /\
    ((exists bytes,
         bytes <> EmptyString /\
         fst (_unit_lorawan_parse_response bytes response) = ESP_OK /\
         fst (send_attempt retry at_cmd response timeout_ms w)
         = (LoopBreak, _unit_lorawan_parse_response bytes response))
     \/ (exists err,
           err <> ESP_OK /\
           (err = ESP_ERR_TIMEOUT \/ In err (tx w)) /\
           fst (send_attempt retry at_cmd response timeout_ms w)
           = (LoopContinue, (err, response)))).
Proof.
  unfold send_attempt, bind.
  set (w1 := snd ((if (0 <? retry)%nat then vTaskDelay 500 else ret tt) w)).
  assert (trace w1 = trace w ++ backoff retry /\ tasks w1 = tasks w
          /\ tx w1 = tx w) as (T1 & K1 & X1).
  { subst w1. unfold backoff. destruct (0 <? retry)%nat; cbn; [auto|].
    now rewrite app_nil_r. }
  replace ((if (0 <? retry)%nat then vTaskDelay 500 else ret tt) w) with (tt, w1)
    by (subst w1; now destruct ((if (0 <? retry)%nat then vTaskDelay 500 else ret tt) w) as [[] ?]).
  cbn -[_unit_lorawan_wait_for_response _unit_lorawan_parse_response is_ok].
  destruct (is_ok (hd ESP_OK (tx w1))) eqn:Hw;
    cbn -[_unit_lorawan_wait_for_response _unit_lorawan_parse_response is_ok].
  - match goal with
    | |- context [_unit_lorawan_wait_for_response timeout_ms ?w3] =>
        destruct (wait_for_response_spec timeout_ms w3) as [(polls & T & Q & K & X) R];
        destruct (_unit_lorawan_wait_for_response timeout_ms w3) as [[e b] w4]
    end.
    cbn [fst snd trace tasks tx] in *.
    exists (EvDelay 100 :: polls).
    assert (trace w4 = trace w ++ backoff retry ++ EvFlush :: EvWrite at_cmd :: EvDelay 100 :: polls) as T4.
    { rewrite T, T1. now rewrite <- !app_assoc. }
    destruct R as [R | (bytes & R & Hne)]; inversion R; subst e b; clear R.
    + cbn -[_unit_lorawan_parse_response].
      split; [exact T4|]. split; [exact Q|]. split; [congruence|].
      split; [congruence|].
      right. exists ESP_ERR_TIMEOUT. split; [discriminate | auto].
    + cbn [is_ok ESP_OK Z.eqb].
      pose proof (parse_nonempty_ok bytes response Hne) as Hp.
      destruct (_unit_lorawan_parse_response bytes response) as [e r] eqn:Ep.
      cbn [fst] in Hp. subst e. cbn [is_ok ESP_OK Z.eqb fst snd trace tasks ret].
      split; [exact T4|]. split; [exact Q|]. split; [congruence|].
      split; [congruence|].
      left. exists bytes. rewrite Ep. cbn [fst]. auto.
  - exists []. cbn [fst snd trace tasks tx]. rewrite T1, <- !app_assoc.
    split; [reflexivity|]. split; [reflexivity|]. split; [exact K1|].
    split; [now rewrite X1|]. right.
    exists (hd ESP_OK (tx w1)). apply is_ok_false in Hw.
    split; [exact Hw|]. split; [|reflexivity].
    right. rewrite X1 in *. destruct (tx w); [now elim Hw | now left].
Qed.


Lemma send_retry_loop_spec at_cmd timeout_ms : forall remaining retry err0 response w,
  exists n evs,
    trace (snd (send_retry_loop remaining retry at_cmd err0 response timeout_ms w))
    = trace w ++ evs /\
    attempts_trace at_cmd retry n evs /\
    (n <= remaining)%nat /\
    tasks (snd (send_retry_loop remaining retry at_cmd err0 response timeout_ms w))
    = tasks w /\
    (forall e, In e (tx (snd (send_retry_loop remaining retry at_cmd err0 response
                                               timeout_ms w))) -> In e (tx w)) /\
    match remaining with
    | O => fst (send_retry_loop remaining retry at_cmd err0 response timeout_ms w)
           = (err0, response)
    | S _ =>
        (1 <= n)%nat /\
        ((exists bytes,
             bytes <> EmptyString /\
             fst (_unit_lorawan_parse_response bytes response) = ESP_OK /\
             fst (send_retry_loop remaining retry at_cmd err0 response timeout_ms w)
             = _unit_lorawan_parse_response bytes response)
         \/ (exists err,
               err <> ESP_OK /\
               (err = ESP_ERR_TIMEOUT \/ In err (tx w)) /\
               fst (send_retry_loop remaining retry at_cmd err0 response timeout_ms w)
               = (err, response) /\
               n = remaining))
    end.
Proof.
  induction remaining as [|remaining IH]; intros retry err0 response w.
  - exists 0%nat, []. cbn. rewrite app_nil_r.
    repeat split; auto. constructor.
  - cbn [send_retry_loop]. unfold bind.
    destruct (send_attempt_spec retry at_cmd response timeout_ms w)
      as (polls & T & Q & K & X & R).
    destruct (send_attempt retry at_cmd response timeout_ms w) as [[ctl [e r]] w1].
    cbn [fst snd] in *.
    destruct R as [(bytes & Hne & Hok & R) | (err & Herr & Hsrc & R)];
      inversion R; subst; clear R.
    + exists 1%nat, (backoff retry ++ EvFlush :: EvWrite at_cmd :: polls ++ []).
      cbn [ret fst snd]. rewrite app_nil_r.
      split; [exact T|]. split.
      { rewrite <- (app_nil_r polls) at 1. constructor; [exact Q | constructor]. }
      split; [lia|]. split; [exact K|].
      split. { intros e' He'. rewrite X in He'. destruct (tx w); [elim He' | now right]. }
      split; [lia|]. left. exists bytes.
      rewrite <- H1. cbn [fst]. rewrite <- H1 in Hok. auto.
    + destruct (IH (S retry) err response w1)
        as (n & evs & T' & A' & Hn & K' & X' & R').
      exists (S n), (backoff retry ++ EvFlush :: EvWrite at_cmd :: polls ++ evs).
      split. { rewrite T', T. rewrite <- !app_assoc. cbn. reflexivity. }
      split; [now constructor|]. split; [lia|]. split; [congruence|].
      assert (forall e', In e' (tx w1) -> In e' (tx w)) as Xw.
      { intros e' He'. rewrite X in He'. destruct (tx w); [elim He' | now right]. }
      split; [auto|]. split; [lia|].
      destruct remaining as [|remaining'].
      * right. exists err. rewrite R'. assert (n = 0%nat) as -> by lia.
        repeat split; auto.
      * destruct R' as [Hn1 [(bytes & Hne & Hok & R') | (err' & Herr' & Hsrc' & R' & Hn')]].
        -- left. exists bytes. auto.
        -- right. exists err'. repeat split; auto.
           destruct Hsrc'; auto.
Qed.

Lemma send_attempt_replied at_cmd response timeout_ms w bytes rest :
  0 < timeout_ms ->
  hd ESP_OK (tx w) = ESP_OK ->
  rx w = (ESP_OK, bytes) :: rest ->
  bytes <> EmptyString ->
  send_attempt 0 at_cmd response timeout_ms w
  = ((LoopBreak, _unit_lorawan_parse_response bytes response),
     mk_world (clock w + 100) rest (tl (tx w))
              (trace w ++ [EvFlush; EvWrite at_cmd; EvDelay 100; EvRead])
              (tasks w)).
Proof.
  intros Ht Htx Hrx Hne. unfold send_attempt, bind.
  cbn -[_unit_lorawan_wait_for_response _unit_lorawan_parse_response is_ok].
  rewrite Htx.
  cbn -[_unit_lorawan_wait_for_response _unit_lorawan_parse_response].
  erewrite wait_for_response_data; [|exact Ht|cbn; exact Hrx|exact Hne].
  cbn -[_unit_lorawan_parse_response].
  pose proof (parse_nonempty_ok bytes response Hne) as Hp.
  destruct (_unit_lorawan_parse_response bytes response) as [e r].
  cbn in Hp. subst e. cbn. rewrite <- !app_assoc. reflexivity.
Qed.

(** A reply that is ready at the first poll ends the command after one
    attempt, whatever the reply says. *)
Lemma send_at_command_replied cmd response timeout_ms w bytes rest :
  0 < timeout_ms ->
  hd ESP_OK (tx w) = ESP_OK ->
  rx w = (ESP_OK, bytes) :: rest ->
  bytes <> EmptyString ->
  _unit_lorawan_send_at_command cmd response timeout_ms w
  = (_unit_lorawan_parse_response bytes response,
     mk_world (clock w + 100) rest (tl (tx w))
              (trace w ++ [EvFlush; EvWrite (at_frame cmd); EvDelay 100; EvRead])
              (tasks w)).
Proof.
  intros Ht Htx Hrx Hne.
  unfold _unit_lorawan_send_at_command, UNIT_LORAWAN_MAX_RETRIES.
  cbn [send_retry_loop]. unfold bind at 1.
  rewrite (send_attempt_replied _ _ _ _ _ _ Ht Htx Hrx Hne).
  now destruct (_unit_lorawan_parse_response bytes response).
Qed.

(** An attempt leaves the loop exactly when its status is ESP_OK. *)
Lemma send_attempt_exit retry at_cmd response timeout_ms w :
  fst (fst (send_attempt retry at_cmd response timeout_ms w))
  = if is_ok (fst (snd (fst (send_attempt retry at_cmd response timeout_ms w))))
    then LoopBreak else LoopContinue.
Proof.
  destruct (send_attempt_spec retry at_cmd response timeout_ms w)
    as (polls & _ & _ & _ & _ & R).
  destruct R as [(bytes & _ & Hok & ->) | (err & Herr & _ & ->)]; cbn [fst snd].
  - destruct (_unit_lorawan_parse_response bytes response) as [e r].
    cbn [fst snd] in *. now subst e.
  - destruct (is_ok err) eqn:E; [apply is_ok_true in E; contradiction | reflexivity].
Qed.

(** The command is the first of at most three attempts that ends with
    ESP_OK, or else the third attempt. *)
Lemma send_at_command_unrolled cmd response timeout_ms w :
  _unit_lorawan_send_at_command cmd response timeout_ms w
  = let first := send_attempt 0 (at_frame cmd) response timeout_ms w in
    if is_ok (fst (snd (fst first))) then (snd (fst first), snd first)
    else
      let second := send_attempt 1 (at_frame cmd) (snd (snd (fst first)))
                                 timeout_ms (snd first) in
      if is_ok (fst (snd (fst second))) then (snd (fst second), snd second)
      else
        let third := send_attempt 2 (at_frame cmd) (snd (snd (fst second)))
                                  timeout_ms (snd second) in
        (snd (fst third), snd third).
Proof.
  unfold _unit_lorawan_send_at_command, UNIT_LORAWAN_MAX_RETRIES.
  cbn [send_retry_loop]. unfold bind. cbv zeta.
  pose proof (send_attempt_exit 0 (at_frame cmd) response timeout_ms w) as E1.
  destruct (send_attempt 0 (at_frame cmd) response timeout_ms w) as [[c1 [e1 r1]] w1].
  cbn [fst snd] in *. subst c1. destruct (is_ok e1); [reflexivity|].
  pose proof (send_attempt_exit 1 (at_frame cmd) r1 timeout_ms w1) as E2.
  destruct (send_attempt 1 (at_frame cmd) r1 timeout_ms w1) as [[c2 [e2 r2]] w2].
  cbn [fst snd] in *. subst c2. destruct (is_ok e2); [reflexivity|].
  destruct (send_attempt 2 (at_frame cmd) r2 timeout_ms w2) as [[c3 [e3 r3]] w3].
  cbn [fst snd]. now destruct c3.
Qed.

End Framer.

(** C2 as stated fails on the code: a modem ERROR reply, and a reply without
    any marker, end the command after a single attempt with [ESP_OK] (and
    [success = false]), although the next attempt would have been answered
    with OK. *)
Lemma send_at_command_error_reply_not_retried :
  let run reply :=
    _unit_lorawan_send_at_command "CSAVE" response_zero
      UNIT_LORAWAN_RESPONSE_TIMEOUT_MS (answering [reply; "OK"]) in
  fst (run "ERROR:7") = (ESP_OK, mk_response false None 0 "7") /\
  count_events is_write (trace (snd (run "ERROR:7"))) = 1%nat /\
  rx (snd (run "ERROR:7")) = [(ESP_OK, "OK")] /\
  fst (run "@#!") = (ESP_OK, mk_response false None 0 EmptyString) /\
  count_events is_write (trace (snd (run "@#!"))) = 1%nat.
Proof. vm_compute. repeat split. Qed.

(* ===================================================================== *)
(** * What every operation leaves alone *)
(* ===================================================================== *)

Section Frame.

Lemma grows_refl w : grows w w.
Proof. split; [reflexivity | exists []; now rewrite app_nil_r]. Qed.

Lemma grows_trans w1 w2 w3 : grows w1 w2 -> grows w2 w3 -> grows w1 w3.
Proof.
  intros [K1 [e1 T1]] [K2 [e2 T2]]. split; [congruence|].
  exists (e1 ++ e2). now rewrite T2, T1, app_assoc.
Qed.

Lemma frame_ret {A} (a : A) : frame (ret a).
Proof. intros w. apply grows_refl. Qed.

Lemma frame_bind {A B} (m : M A) (k : A -> M B) :
  frame m -> (forall a, frame (k a)) -> frame (bind m k).
Proof.
  intros Hm Hk w. unfold bind. specialize (Hm w).
  destruct (m w) as [a w1]. eapply grows_trans; [exact Hm | apply Hk].
Qed.

Lemma frame_vTaskDelay ms : frame (vTaskDelay ms).
Proof. intros w. split; [reflexivity | now exists [EvDelay ms]]. Qed.

Lemma send_at_command_spec cmd response timeout_ms w :
  exists n evs,
    trace (snd (_unit_lorawan_send_at_command cmd response timeout_ms w))
    = trace w ++ evs /\
    attempts_trace (at_frame cmd) 0 n evs /\
    (1 <= n <= UNIT_LORAWAN_MAX_RETRIES)%nat /\
    tasks (snd (_unit_lorawan_send_at_command cmd response timeout_ms w)) = tasks w /\
    ((exists bytes,
         bytes <> EmptyString /\
         fst (_unit_lorawan_parse_response bytes response) = ESP_OK /\
         fst (_unit_lorawan_send_at_command cmd response timeout_ms w)
         = _unit_lorawan_parse_response bytes response)
     \/ (exists err,
           err <> ESP_OK /\
           (err = ESP_ERR_TIMEOUT \/ In err (tx w)) /\
           fst (_unit_lorawan_send_at_command cmd response timeout_ms w)
           = (err, response) /\
           n = UNIT_LORAWAN_MAX_RETRIES)).
Proof.
  unfold _unit_lorawan_send_at_command.
  destruct (send_retry_loop_spec (at_frame cmd) timeout_ms
              UNIT_LORAWAN_MAX_RETRIES 0 ESP_FAIL response w)
    as (n & evs & T & A & Hn & K & _ & Hn1 & R).
  exists n, evs. repeat split; auto.
Qed.

(** Every command starts with the flush and the write of its frame. *)
Lemma send_at_command_first_events cmd response timeout_ms w :
  exists evs,
    trace (snd (_unit_lorawan_send_at_command cmd response timeout_ms w))
    = trace w ++ EvFlush :: EvWrite (at_frame cmd) :: evs.
Proof.
  destruct (send_at_command_spec cmd response timeout_ms w)
    as (n & evs & T & A & [Hn _] & _).
  inversion A as [|? ? polls rest Q A' E1 E2]; subst; [lia|].
  exists (polls ++ rest). exact T.
Qed.

Lemma frame_send_at_command cmd response timeout_ms :
  frame (_unit_lorawan_send_at_command cmd response timeout_ms).
Proof.
  intros w. destruct (send_at_command_spec cmd response timeout_ms w)
    as (n & evs & T & _ & _ & K & _).
  split; [exact K | now exists evs].
Qed.

Lemma frame_at_step cmd response k :
  (forall r, frame (k r)) -> frame (at_step cmd response k).
Proof.
  intros Hk. unfold at_step. apply frame_bind; [apply frame_send_at_command|].
  intros [err r]. destruct (negb (is_ok err) || negb (success r));
    [apply frame_ret | apply Hk].
Qed.

Lemma at_step_first_events cmd response k w :
  (forall r, frame (k r)) ->
  exists evs,
    trace (snd (at_step cmd response k w))
    = trace w ++ EvFlush :: EvWrite (at_frame cmd) :: evs.
Proof.
  intros Hk. unfold at_step, bind.
  destruct (send_at_command_first_events cmd response
              UNIT_LORAWAN_RESPONSE_TIMEOUT_MS w) as [evs T].
  destruct (_unit_lorawan_send_at_command _ _ _ w) as [[err r] w1].
  cbn [snd] in T.
  destruct (negb (is_ok err) || negb (success r)); [now exists evs|].
  destruct (Hk (_unit_lorawan_cleanup_response r) w1) as [_ [evs2 T2]].
  exists (evs ++ evs2). rewrite T2, T. now rewrite <- app_assoc.
Qed.

End Frame.

Create HintDb drv.
#[local] Hint Resolve frame_ret frame_vTaskDelay frame_send_at_command
  frame_at_step : drv.

(** Discharges [frame] goals by following the structure of the code. *)
Ltac frame_tac :=
  repeat match goal with
    | |- frame (ret _) => apply frame_ret
    | |- frame (_unit_lorawan_send_at_command _ _ _) => apply frame_send_at_command
    | |- frame (vTaskDelay _) => apply frame_vTaskDelay
    | |- frame (at_step _ _ _) => apply frame_at_step; intro
    | |- frame (bind _ _) => apply frame_bind; [|intro]
    | |- frame (match ?x with _ => _ end) => destruct x
    | |- frame _ => solve [auto with drv]
    end.

Section Operations.

Lemma frame_configOTTA devEUI appEUI appKey mode :
  frame (unit_lorawan_configOTTA devEUI appEUI appKey mode).
Proof. unfold unit_lorawan_configOTTA. frame_tac. Qed.

Lemma frame_connected : frame unit_lorawan_connected.
Proof. unfold unit_lorawan_connected. frame_tac. Qed.

Lemma frame_attached : frame unit_lorawan_attached.
Proof. unfold unit_lorawan_attached. frame_tac. Qed.

Lemma frame_join : frame unit_lorawan_join.
Proof. unfold unit_lorawan_join. frame_tac. Qed.

Lemma frame_frequency_plan sub_band : frame (_configure_us915_frequency_plan sub_band).
Proof. unfold _configure_us915_frequency_plan. frame_tac. Qed.

Lemma frame_network_parameters config :
  frame (_configure_ttn_network_parameters config).
Proof. unfold _configure_ttn_network_parameters. frame_tac. Qed.

End Operations.

(* ===================================================================== *)
(** * Argument checks of the control operations *)
(* ===================================================================== *)

(** C9.  Set data rate above 4, set TX power above 7, set retries with a
    message type above 1 or a count outside 1..15, and link check with a
    mode above 2 return ESP_ERR_INVALID_ARG and leave the world as it is:
    nothing is flushed, written or read. *)
Theorem range_checks_fail_fast :
  (forall data_rate w,
      (4 < data_rate)%N ->
      unit_lorawan_set_data_rate data_rate w = (ESP_ERR_INVALID_ARG, w)) /\
  (forall power_index w,
      (7 < power_index)%N ->
      unit_lorawan_set_tx_power power_index w = (ESP_ERR_INVALID_ARG, w)) /\
  (forall message_type retries w,
      (1 < message_type)%N \/ (retries < 1)%N \/ (15 < retries)%N ->
      unit_lorawan_set_retries message_type retries w = (ESP_ERR_INVALID_ARG, w)) /\
  (forall mode w,
      (2 < mode)%N ->
      unit_lorawan_link_check mode w = (ESP_ERR_INVALID_ARG, w)).
Proof.
  repeat split.
  - intros data_rate w H. unfold unit_lorawan_set_data_rate, UNIT_LORAWAN_US915_DATA_RATE_MAX.
    now destruct (N.ltb_spec 4 data_rate); [|lia].
  - intros power_index w H. unfold unit_lorawan_set_tx_power.
    now destruct (N.ltb_spec 7 power_index); [|lia].
  - intros message_type retries w H. unfold unit_lorawan_set_retries.
    destruct (N.ltb_spec 1 message_type); [reflexivity|].
    destruct (N.ltb_spec retries 1); [reflexivity|].
    destruct (N.ltb_spec 15 retries); [reflexivity | lia].
  - intros mode w H. unfold unit_lorawan_link_check.
    now destruct (N.ltb_spec 2 mode); [|lia].
Qed.

Lemma range_checks_fail_fast_witness :
  unit_lorawan_set_data_rate 5 world0 = (ESP_ERR_INVALID_ARG, world0) /\
  unit_lorawan_set_tx_power 8 world0 = (ESP_ERR_INVALID_ARG, world0) /\
  unit_lorawan_set_retries 2 3 world0 = (ESP_ERR_INVALID_ARG, world0) /\
  unit_lorawan_set_retries 1 0 world0 = (ESP_ERR_INVALID_ARG, world0) /\
  unit_lorawan_set_retries 1 16 world0 = (ESP_ERR_INVALID_ARG, world0) /\
  unit_lorawan_link_check 3 world0 = (ESP_ERR_INVALID_ARG, world0) /\
  trace world0 = [].
Proof.
  destruct range_checks_fail_fast as (Hdr & Htxp & Hret & Hlc).
  split; [apply Hdr; lia|].
  split; [apply Htxp; lia|].
  split; [apply Hret; lia|].
  split; [apply Hret; lia|].
  split; [apply Hret; lia|].
  split; [apply Hlc; lia | reflexivity].
Defined.

(** C10.  A log level above 5 is clamped, not refused: the call is the call
    with level 5, it flushes and writes the frame [AT+ILOGLVL=5], and the
    status it returns is the framer's (ESP_OK, ESP_ERR_TIMEOUT or what the
    transport answered to a write), not one made up for the argument. *)
Theorem log_level_is_clamped (level : N) (w : world) :
  (UNIT_LORAWAN_LOG_LEVEL_MAX < level)%N ->
  unit_lorawan_log level w = unit_lorawan_log UNIT_LORAWAN_LOG_LEVEL_MAX w /\
  (exists evs,
      trace (snd (unit_lorawan_log level w))
      = trace w ++ EvFlush :: EvWrite ("AT+ILOGLVL=5" ++ CRLF)%string :: evs) /\
  (fst (unit_lorawan_log level w) = ESP_OK
   \/ fst (unit_lorawan_log level w) = ESP_ERR_TIMEOUT
   \/ In (fst (unit_lorawan_log level w)) (tx w)).
Proof.
  intros H.
  assert (unit_lorawan_log level w
          = let '((err, _), w') :=
              _unit_lorawan_send_at_command "ILOGLVL=5" response_zero
                UNIT_LORAWAN_RESPONSE_TIMEOUT_MS w in (err, w')) as E.
  { unfold unit_lorawan_log, bind.
    destruct (N.ltb_spec UNIT_LORAWAN_LOG_LEVEL_MAX level); [|lia].
    change (snprintf 32 ("ILOGLVL=" ++ dec UNIT_LORAWAN_LOG_LEVEL_MAX)) with "ILOGLVL=5".
    now destruct (_unit_lorawan_send_at_command _ _ _ w) as [[err r] w']. }
  split; [|rewrite E; clear E].
  - rewrite E. unfold unit_lorawan_log, bind. cbn [N.ltb N.compare].
    change (snprintf 32 ("ILOGLVL=" ++ dec UNIT_LORAWAN_LOG_LEVEL_MAX)) with "ILOGLVL=5".
    now destruct (_unit_lorawan_send_at_command _ _ _ w) as [[err r] w'].
  - destruct (send_at_command_first_events "ILOGLVL=5" response_zero
                UNIT_LORAWAN_RESPONSE_TIMEOUT_MS w) as [evs T].
    destruct (send_at_command_spec "ILOGLVL=5" response_zero
                UNIT_LORAWAN_RESPONSE_TIMEOUT_MS w)
      as (n & evs' & _ & _ & _ & _ & R).
    destruct (_unit_lorawan_send_at_command _ _ _ w) as [[err r] w'].
    cbn [fst snd] in *. split; [now exists evs|].
    destruct R as [(bytes & _ & Hok & R) | (e & _ & Hsrc & R & _)].
    + left. rewrite <- R in Hok. exact Hok.
    + injection R as -> _. destruct Hsrc; auto.
Qed.

Lemma log_level_is_clamped_witness :
  unit_lorawan_log 9 world0 = unit_lorawan_log UNIT_LORAWAN_LOG_LEVEL_MAX world0 /\
  (exists evs,
      trace (snd (unit_lorawan_log 9 world0))
      = trace world0 ++ EvFlush :: EvWrite ("AT+ILOGLVL=5" ++ CRLF)%string :: evs) /\
  (fst (unit_lorawan_log 9 world0) = ESP_OK
   \/ fst (unit_lorawan_log 9 world0) = ESP_ERR_TIMEOUT
   \/ In (fst (unit_lorawan_log 9 world0)) (tx world0)).
Proof. apply (log_level_is_clamped 9 world0). reflexivity. Defined.

(* ===================================================================== *)
(** * Configure-OTAA *)
(* ===================================================================== *)

(** The orchestrator, for its part, checks the lengths before it touches the
    transport. *)
Lemma configure_ttn_rejects_short_dev_eui config join_callback user_data w :
  strlen (dev_eui config) <> UNIT_LORAWAN_EUI_LENGTH ->
  unit_lorawan_configure_ttn_us915 (Some config) join_callback user_data w
  = (ESP_ERR_INVALID_ARG, w).
Proof.
  intros H. unfold unit_lorawan_configure_ttn_us915, _validate_ttn_config.
  apply Nat.eqb_neq in H. now rewrite H.
Qed.

(** C1, evaluated on the code.  [unit_lorawan_configOTTA] checks its three
    strings against NULL only.  With any non-NULL strings its first act is
    to flush the transport and write [AT+CJOINMODE=0]; with a 15-character
    device identifier and a modem that answers OK it writes the short
    identifier to the modem and returns ESP_OK. *)
Theorem configOTTA_sends_without_length_check :
  strlen "012345678901234" = 15%nat /\
  (forall devEUI appEUI appKey mode w,
      exists evs,
        trace (snd (unit_lorawan_configOTTA (Some devEUI) (Some appEUI)
                      (Some appKey) mode w))
        = trace w ++ EvFlush :: EvWrite (at_frame "CJOINMODE=0") :: evs) /\
  (let r := unit_lorawan_configOTTA
              (Some "012345678901234") (Some "0000000000000000")
              (Some "00000000000000000000000000000000") DIFFERENT_FREQ_MODE
              (answering (repeat "OK" 7)) in
   fst r = ESP_OK /\
   written (snd r)
   = [ at_frame "CJOINMODE=0"; at_frame "CDEVEUI=012345678901234";
       at_frame "CAPPEUI=0000000000000000";
       at_frame "CAPPKEY=00000000000000000000000000000000";
       at_frame "CULDLMODE=2"; at_frame "CCLASS=0"; at_frame "CWORKMODE=2" ]).
Proof.
  split; [reflexivity|]. split.
  - intros devEUI appEUI appKey mode w. unfold unit_lorawan_configOTTA.
    apply at_step_first_events. intro. frame_tac.
  - vm_compute. split; reflexivity.
Qed.

(* ===================================================================== *)
(** * Connected-check *)
(* ===================================================================== *)

Section Connected.

Lemma status_code_found (text status_code : string) :
  status_code_of text = Some status_code -> found (c_str text) "+CSTATUS:" = true.
Proof.
  unfold status_code_of, found.
  destruct (strstr (c_str text) "+CSTATUS:"); [reflexivity | discriminate].
Qed.


Lemma cstatus_is_data_prefix (text : string) :
  found text "+CSTATUS:" = true -> has_data_prefix text = true.
Proof.
  intros H. unfold has_data_prefix. rewrite H.
  now rewrite orb_true_r.
Qed.

(** When the reply is ready at the first poll, connected-check returns
    ESP_OK and the state read from the reply. *)
Lemma connected_replied (text : string) rest (w : world) :
  hd ESP_OK (tx w) = ESP_OK ->
  rx w = (ESP_OK, text) :: rest ->
  text <> EmptyString ->
  unit_lorawan_connected w
  = ((ESP_OK, state_of_reply text),
     mk_world (clock w + 100) rest (tl (tx w))
              (trace w ++ [EvFlush; EvWrite (at_frame "CSTATUS?"); EvDelay 100; EvRead])
              (tasks w)).
Proof.
  intros Htx Hrx Hne. unfold unit_lorawan_connected, bind.
  rewrite (send_at_command_replied "CSTATUS?" response_zero
             UNIT_LORAWAN_RESPONSE_TIMEOUT_MS w text rest)
    by (auto; reflexivity).
  unfold _unit_lorawan_parse_response.
  rewrite response_len_nonzero by assumption. cbv zeta.
  unfold ret, state_of_reply, accepted. f_equal. f_equal.
  destruct (found (c_str text) "OK") eqn:Hok.
  - destruct (has_data_prefix (c_str text)) eqn:Hdata; cbn [is_ok ESP_OK Z.eqb andb success response_data orb].
    + reflexivity.
    + destruct (status_code_of text) as [code|] eqn:Hcode; [|reflexivity].
      apply status_code_found, cstatus_is_data_prefix in Hcode. congruence.
  - destruct (strstr (c_str text) "ERROR") as [pos|] eqn:Hs;
      [ assert (found (c_str text) "ERROR" = true) as ->
          by (unfold found; now rewrite Hs)
      | assert (found (c_str text) "ERROR" = false) as ->
          by (unfold found; now rewrite Hs) ];
      cbn [is_ok ESP_OK Z.eqb andb success response_data orb negb].
    + now destruct (status_code_of text).
    + destruct (has_data_prefix (c_str text)) eqn:Hdata;
        cbn [is_ok ESP_OK Z.eqb andb success response_data orb].
      * reflexivity.
      * destruct (status_code_of text) as [code|] eqn:Hcode; [|reflexivity].
        apply status_code_found, cstatus_is_data_prefix in Hcode. congruence.
Qed.

End Connected.


(* ===================================================================== *)
(** * Send *)
(* ===================================================================== *)

Section Send.

Lemma substring_all (s : string) (n : nat) :
  (String.length s <= n)%nat -> substring 0 n s = s.
Proof.
  revert n. induction s as [|c t IH]; intros n H.
  - now destruct n.
  - destruct n as [|n]; cbn in *; [lia|]. rewrite IH by lia. reflexivity.
Qed.

Lemma substring_length_le (s : string) (n : nat) :
  (String.length (substring 0 n s) <= n)%nat.
Proof.
  revert s. induction n as [|n IH]; intros [|c t]; cbn; try lia.
  specialize (IH t). lia.
Qed.

Lemma dec_length_small (n : N) : (n <= 242)%N -> (String.length (dec n) <= 3)%nat.
Proof.
  intros H.
  assert (forallb (fun k => String.length (dec (N.of_nat k)) <=? 3)%nat (seq 0 243)
          = true) as A by (vm_compute; reflexivity).
  rewrite forallb_forall in A.
  specialize (A (N.to_nat n)). rewrite N2Nat.id in A.
  apply Nat.leb_le, A, in_seq. lia.
Qed.

Lemma validate_result (payload_size dr : N) :
  _unit_lorawan_validate_payload_size payload_size dr = ESP_OK /\ (payload_size <= 242)%N
  \/ _unit_lorawan_validate_payload_size payload_size dr = ESP_ERR_INVALID_SIZE.
Proof.
  unfold _unit_lorawan_validate_payload_size.
  match goal with |- context [(?m <? payload_size)%N] => set (max_payload := m) end.
  assert (max_payload <= 242)%N as Hmax.
  { subst max_payload. destruct dr as [|[[[]|[]|]|[[]|[]|]|]]; vm_compute; congruence. }
  destruct (N.ltb_spec max_payload payload_size); [now right | left; split; [reflexivity | lia]].
Qed.

(** The frame of a payload that passed validation is never cut by the
    [snprintf] and never exceeds the hex ceiling. *)
Lemma send_cmd_fits (message : string) (length : N) :
  (length <= 242)%N ->
  let hex_message := hex_encode (message_bytes message length) in
  let hex_len := N.of_nat (String.length hex_message) in
  (UNIT_LORAWAN_HEX_MESSAGE_MAX_SIZE <? hex_len)%N = false /\
  snprintf (9 + 10 + N.to_nat hex_len + 1)
           ("DTRX=1,2," ++ dec length ++ "," ++ hex_message)%string
  = ("DTRX=1,2," ++ dec length ++ "," ++ hex_message)%string.
Proof.
  intros H hex_message hex_len.
  assert (String.length hex_message <= 2 * N.to_nat length)%nat as Hlen.
  { subst hex_message. rewrite hex_encode_length. unfold message_bytes.
    pose proof (substring_length_le message (N.to_nat length)). lia. }
  split.
  - apply N.ltb_ge. subst hex_len. unfold UNIT_LORAWAN_HEX_MESSAGE_MAX_SIZE. lia.
  - unfold snprintf. apply substring_all. subst hex_len. rewrite Nat2N.id.
    pose proof (dec_length_small length H).
    change ("DTRX=1,2," ++ dec length ++ "," ++ hex_message)%string
      with ("DTRX=1,2," ++ (dec length ++ "," ++ hex_message))%string.
    rewrite !string_length_app. cbn [String.length]. lia.
Qed.

Lemma send_unfold (message : string) (length stack_dr stack_max : N) (w : world) :
  length <> 0%N ->
  unit_lorawan_send (Some message) length stack_dr stack_max w
  = let (query, w1) := unit_lorawan_get_data_rate_info stack_dr stack_max w in
    if is_ok (_unit_lorawan_validate_payload_size length (rate_in_force query))
    then
      let '((err, _), w2) :=
        _unit_lorawan_send_at_command
          ("DTRX=1,2," ++ dec length ++ "," ++ hex_encode (message_bytes message length))
          response_zero 30000 w1 in
      (err, w2)
    else (ESP_ERR_INVALID_SIZE, w1).
Proof.
  intros Hlen. unfold unit_lorawan_send.
  destruct (N.eqb_spec length 0); [contradiction|]. unfold bind at 1.
  destruct (unit_lorawan_get_data_rate_info stack_dr stack_max w)
    as [[dr_err [dr max]] w1].
  unfold rate_in_force. cbn [fst snd].
  destruct (is_ok dr_err); cbn [negb];
    match goal with
    | |- context [_unit_lorawan_validate_payload_size length ?d] =>
        destruct (validate_result length d) as [[-> Hmax] | ->]
    end;
    cbn [is_ok ESP_OK ESP_ERR_INVALID_SIZE Z.eqb negb ret]; try reflexivity;
    destruct (send_cmd_fits message length Hmax) as [-> ->]; unfold bind;
    now destruct (_unit_lorawan_send_at_command _ _ _ w1) as [[err r] w2].
Qed.



Lemma frame_get_data_rate_info dr max : frame (unit_lorawan_get_data_rate_info dr max).
Proof. unfold unit_lorawan_get_data_rate_info. frame_tac. Qed.


Lemma parse_ok_reply (raw : string) (old : lorawan_response_t) :
  found (c_str raw) "OK" = true ->
  fst (_unit_lorawan_parse_response raw old) = ESP_OK /\
  success (snd (_unit_lorawan_parse_response raw old)) = true.
Proof.
  intros Hok. unfold _unit_lorawan_parse_response.
  rewrite response_len_nonzero.
  - cbv zeta. rewrite Hok. now destruct (has_data_prefix (c_str raw)).
  - apply c_str_nonempty. apply found_true_iff in Hok as [pos Hpos].
    eapply strstr_nonempty; [|exact Hpos]. discriminate.
Qed.

(** The modem reports a data rate of the table. *)
Lemma get_data_rate_info_reported (k dr max : N) rest (w : world) :
  (k <= 4)%N ->
  hd ESP_OK (tx w) = ESP_OK ->
  rx w = (ESP_OK, "+CDATARATE:" ++ dec k ++ CRLF ++ "OK")%string :: rest ->
  fst (unit_lorawan_get_data_rate_info dr max w) = (ESP_OK, (k, ceiling_of k)).
Proof.
  intros Hk Htx Hrx. unfold unit_lorawan_get_data_rate_info, bind.
  assert (("+CDATARATE:" ++ dec k ++ CRLF ++ "OK")%string <> EmptyString) as Hne
    by discriminate.
  rewrite (send_at_command_replied "CDATARATE?" response_zero
             UNIT_LORAWAN_RESPONSE_TIMEOUT_MS w _ rest eq_refl Htx Hrx Hne).
  destruct (data_rate_cases k Hk) as [->|[->|[->|[->| ->]]]]; reflexivity.
Qed.

(** The data-rate query is answered with an ERROR reply, the status probe
    that follows with OK: the default DR2 stands in. *)
Lemma get_data_rate_info_default (t1 t2 : string) (dr max : N) rest (w : world) :
  tx w = [] ->
  rx w = (ESP_OK, t1) :: (ESP_OK, t2) :: rest ->
  found (c_str t1) "OK" = false ->
  found (c_str t1) "ERROR" = true ->
  found (c_str t2) "OK" = true ->
  fst (unit_lorawan_get_data_rate_info dr max w)
  = (ESP_OK, (UNIT_LORAWAN_TTN_US915_DATA_RATE_DEFAULT,
              UNIT_LORAWAN_US915_MAX_PAYLOAD_DR2)).
Proof.
  intros Htx Hrx Hok1 Herr1 Hok2.
  apply found_true_iff in Herr1 as [pos Hpos].
  assert (t1 <> EmptyString) as Hne1.
  { apply c_str_nonempty. eapply strstr_nonempty; [|exact Hpos]. discriminate. }
  assert (t2 <> EmptyString) as Hne2.
  { apply c_str_nonempty. pose proof Hok2 as H2. apply found_true_iff in H2 as [p Hp].
    eapply strstr_nonempty; [|exact Hp]. discriminate. }
  unfold unit_lorawan_get_data_rate_info. unfold bind at 1.
  assert (hd ESP_OK (tx w) = ESP_OK) as Htx1 by now rewrite Htx.
  rewrite (send_at_command_replied "CDATARATE?" response_zero
             UNIT_LORAWAN_RESPONSE_TIMEOUT_MS w t1 ((ESP_OK, t2) :: rest)
             eq_refl Htx1 Hrx Hne1).
  rewrite (parse_error_reply t1 pos response_zero Hok1 Hpos).
  cbn [is_ok ESP_OK Z.eqb success andb _unit_lorawan_cleanup_response response_data].
  unfold bind.
  rewrite (send_at_command_replied "CSTATUS?" _
             UNIT_LORAWAN_RESPONSE_TIMEOUT_MS _ t2 rest eq_refl)
    by (auto; cbn; now rewrite Htx).
  destruct (parse_ok_reply t2
              (mk_response false None 0
                 match sscanf_lit_s "ERROR:" 15 pos with Some c => c | None => EmptyString end)
              Hok2) as [He Hs].
  destruct (_unit_lorawan_parse_response t2 _) as [e r]. cbn [fst snd] in *.
  subst e. rewrite Hs. reflexivity.
Qed.

End Send.

(** A slip of the lookup: when the modem answers both the data-rate query
    and the status probe with a failure reply,
    [unit_lorawan_get_data_rate_info] logs that all attempts failed but
    returns ESP_OK without having stored to its outputs, so that
    [unit_lorawan_send] validates against whatever its uninitialised
    [current_dr] holds. *)
Lemma get_data_rate_info_unset_outputs (dr max : N) :
  fst (unit_lorawan_get_data_rate_info dr max (answering ["ERROR"; "ERROR"]%string))
  = (ESP_OK, (dr, max)).
Proof. reflexivity. Qed.


(* ===================================================================== *)
(** * Join watcher *)
(* ===================================================================== *)

Section Watcher.

(** Connected-check reports "joined" only together with ESP_OK. *)
Lemma connected_state_ok (w : world) :
  snd (fst (unit_lorawan_connected w)) = true ->
  fst (fst (unit_lorawan_connected w)) = ESP_OK.
Proof.
  unfold unit_lorawan_connected, bind.
  destruct (_unit_lorawan_send_at_command _ _ _ w) as [[err r] w1]. cbn.
  destruct (is_ok err) eqn:E; [intros _; now apply is_ok_true | discriminate].
Qed.

Lemma monitor_loop_spec (monitor_params : join_monitor_params_t) :
  forall remaining w,
  exists n joined w1,
    polls n w joined w1 /\
    (n <= remaining)%nat /\
    (joined = false -> n = remaining) /\
    tasks w1 = tasks w /\
    monitor_loop remaining monitor_params false w
    = (joined,
       if joined
       then with_tasks w1 (tasks w ++ [CallbackCall (callback monitor_params) true 0
                                                    (user_data monitor_params)])
       else w1).
Proof.
  induction remaining as [|remaining IH]; intros w.
  - exists 0%nat, false, w. repeat split; auto. constructor.
  - cbn [monitor_loop]. unfold bind.
    change (vTaskDelay 1000 w) with (tt, nap w).
    pose proof (frame_connected (nap w)) as [K _].
    pose proof (connected_state_ok (nap w)) as Hok.
    destruct (unit_lorawan_connected (nap w)) as [[err state] w1] eqn:E.
    cbn [fst snd] in *. change (tasks (nap w)) with (tasks w) in K.
    destruct (is_ok err && state) eqn:Hjoined.
    + apply andb_prop in Hjoined as [He ->]. apply is_ok_true in He. subst err.
      exists 1%nat, true, w1. split; [now constructor|].
      split; [lia|]. split; [discriminate|]. split; [exact K|].
      unfold log_task, ret, with_tasks. cbn. now rewrite K.
    + assert (state = false) as ->.
      { destruct state; [|reflexivity]. rewrite Hok in Hjoined by reflexivity.
        discriminate Hjoined. }
      destruct (IH w1) as (n & joined & w2 & P & Hn & Ht & K2 & R).
      exists (S n), joined, w2. split; [econstructor; eauto|].
      split; [lia|]. split; [intros H; rewrite Ht by exact H; reflexivity|].
      split; [congruence|]. rewrite R, K. reflexivity.
Qed.

(** A step of the orchestrator that leaves the task log alone can be
    skipped when only the task log is looked at. *)
Lemma tasks_after_bind {A B} (m : M A) (k : A -> M B) (t0 : list task_event)
    (P : B * world -> Prop) (w : world) :
  frame m ->
  (forall a w1, tasks w1 = t0 -> P (k a w1)) ->
  tasks w = t0 -> P (bind m k w).
Proof.
  intros Hm Hk Hw. unfold bind. destruct (Hm w) as [K _].
  destruct (m w) as [a w1]. apply Hk. cbn in K. congruence.
Qed.

Lemma spawned_error config join_callback user_data err :
  negb (is_ok err) = true -> spawned config join_callback user_data err = [].
Proof.
  unfold spawned. intros H. destruct join_callback; [|reflexivity].
  now destruct (is_ok err).
Qed.

Lemma configure_ttn_spawns (config : unit_lorawan_ttn_config_t)
    (join_callback : option N) (user_data : N) (w : world) :
  tasks (snd (unit_lorawan_configure_ttn_us915 (Some config) join_callback user_data w))
  = tasks w
    ++ spawned config join_callback user_data
         (fst (unit_lorawan_configure_ttn_us915 (Some config) join_callback user_data w)).
Proof.
  unfold unit_lorawan_configure_ttn_us915.
  set (P := fun r : esp_err_t * world =>
              tasks (snd r) = tasks w ++ spawned config join_callback user_data (fst r)).
  change (P (unit_lorawan_configure_ttn_us915 (Some config) join_callback user_data w)).
  unfold unit_lorawan_configure_ttn_us915.
  assert (forall err w1, negb (is_ok err) = true -> tasks w1 = tasks w -> P (ret err w1)) as Hfail.
  { intros err w1 H K. unfold P. cbn. rewrite spawned_error by exact H.
    now rewrite app_nil_r. }
  destruct (negb (is_ok (_validate_ttn_config (Some config)))) eqn:Hv;
    [now apply Hfail|].
  apply tasks_after_bind with (t0 := tasks w); [apply frame_attached | | reflexivity].
  intros [err attached] w1 K1.
  destruct (negb (is_ok err) || negb attached); [now apply Hfail|].
  apply tasks_after_bind with (t0 := tasks w); [apply frame_frequency_plan | | exact K1].
  intros err2 w2 K2.
  destruct (negb (is_ok err2)) eqn:H2; [now apply Hfail|].
  apply tasks_after_bind with (t0 := tasks w); [apply frame_configOTTA | | exact K2].
  intros err3 w3 K3.
  destruct (negb (is_ok err3)) eqn:H3; [now apply Hfail|].
  apply tasks_after_bind with (t0 := tasks w); [apply frame_network_parameters | | exact K3].
  intros err4 w4 K4.
  destruct (negb (is_ok err4)) eqn:H4; [now apply Hfail|].
  apply tasks_after_bind with (t0 := tasks w); [apply frame_send_at_command | | exact K4].
  intros _ w5 K5.
  apply tasks_after_bind with (t0 := tasks w); [apply frame_join | | exact K5].
  intros err6 w6 K6.
  destruct (negb (is_ok err6)) eqn:H6; [now apply Hfail|].
  unfold P, spawned, bind. destruct join_callback as [cb|]; cbn.
  - now rewrite K6.
  - now rewrite K6, app_nil_r.
Qed.

End Watcher.

(** C8 fails on the code, and the code on its own words: [timeout_sec] is
    "join timeout in seconds" in the header and the watcher logs "join
    timeout after %d seconds", but its loop counts polls ([elapsed_sec] is
    incremented once per turn), not seconds.  With a 2-second timeout and a
    modem that never answers, every connected-check runs its three 5-second
    attempts, and the one callback (false, 1) comes after 34.6 s of delays,
    not within 2 to 3 seconds. *)
Lemma join_watcher_timeout_counts_polls :
  let monitor_params := mk_params 1 0 2 in
  let w' := snd (ttn_join_monitor_task monitor_params world0) in
  tasks w' = [CallbackCall 1 false 1 0; ParamsFree; TaskDelete] /\
  written w' = repeat (at_frame "CSTATUS?") 6 /\
  clock w' - clock world0 = 34600 /\
  ~ (clock w' - clock world0 <= 3000).
Proof.
  intros monitor_params w'.
  assert (clock w' - clock world0 = 34600) as E by (vm_compute; reflexivity).
  split; [vm_compute; reflexivity|].
  split; [vm_compute; reflexivity|].
  split; [exact E | lia].
Qed.

(** With a modem that answers each check at once, the same watcher is done
    after 2.2 s. *)
Example join_watcher_answered_at_once :
  let monitor_params := mk_params 1 0 2 in
  let w' := snd (ttn_join_monitor_task monitor_params
                   (answering ["+CSTATUS:03"; "+CSTATUS:03"]%string)) in
  tasks w' = [CallbackCall 1 false 1 0; ParamsFree; TaskDelete] /\
  clock w' = 2200.
Proof. vm_compute. repeat split. Qed.

(* ===================================================================== *)
(** * The response reader against the script of the transport *)
(* ===================================================================== *)

Section Reader.

Lemma uint32_elapsed (c c0 : Z) :
  0 <= c - c0 < 2 ^ 32 -> uint32 (uint32 c - uint32 c0) = c - c0.
Proof.
  intros H. unfold uint32. rewrite <- Zminus_mod. now apply Z.mod_small.
Qed.

Lemma skipn_tl {A} (n : nat) (l : list A) : skipn n (tl l) = skipn (S n) l.
Proof. destruct l; [now destruct n | reflexivity]. Qed.

Lemma wait_loop_step (fuel : nat) (start_time timeout_ms : Z) (w : world) :
  wait_loop (S fuel) start_time timeout_ms w
  = if (uint32 (uint32 (clock w) - start_time) <? timeout_ms)%Z then
      if has_data (hd (ESP_OK, EmptyString) (rx w))
      then (Some (ESP_OK, snd (hd (ESP_OK, EmptyString) (rx w))),
            mk_world (clock w) (tl (rx w)) (tx w) (trace w ++ [EvRead]) (tasks w))
      else wait_loop fuel start_time timeout_ms
             (mk_world (clock w + 50) (tl (rx w)) (tx w)
                       (trace w ++ [EvRead; EvDelay 50]) (tasks w))
    else (Some (ESP_ERR_TIMEOUT, EmptyString), w).
Proof.
  cbn [wait_loop]. destruct (_ <? _)%Z; [|reflexivity].
  unfold core2foraws_expports_uart_read, has_data.
  destruct (hd (ESP_OK, EmptyString) (rx w)) as [err bytes]. cbn [fst snd].
  destruct (is_ok err && (0 <? String.length bytes)%nat); [reflexivity|].
  unfold vTaskDelay. cbn [snd clock rx tx trace tasks].
  now rewrite <- app_assoc.
Qed.

Lemma first_data_step (n : nat) (script : list (esp_err_t * string)) :
  has_data (hd (ESP_OK, EmptyString) script) = false ->
  first_data (S n) script
  = match first_data n (tl script) with
    | Some (k, bytes) => Some (S k, bytes)
    | None => None
    end.
Proof.
  destruct script as [|r script]; cbn [hd tl first_data].
  - intros _. now destruct n.
  - now intros ->.
Qed.

Lemma first_data_here (n : nat) (script : list (esp_err_t * string)) :
  has_data (hd (ESP_OK, EmptyString) script) = true ->
  first_data (S n) script = Some (O, snd (hd (ESP_OK, EmptyString) script)).
Proof.
  destruct script as [|r script]; cbn [hd tl first_data].
  - discriminate.
  - now intros ->.
Qed.

Lemma wait_loop_script (timeout_ms c0 : Z) : forall fuel w,
  timeout_ms <= 2 ^ 32 - 50 ->
  0 <= clock w - c0 ->
  timeout_ms <= clock w - c0 + 50 * Z.of_nat fuel < timeout_ms + 50 ->
  wait_loop fuel (uint32 c0) timeout_ms w
  = match first_data fuel (rx w) with
    | Some (k, bytes) =>
        (Some (ESP_OK, bytes),
         mk_world (clock w + 50 * Z.of_nat k) (skipn (S k) (rx w)) (tx w)
                  (trace w ++ idle_polls k ++ [EvRead]) (tasks w))
    | None =>
        (Some (ESP_ERR_TIMEOUT, EmptyString),
         mk_world (clock w + 50 * Z.of_nat fuel) (skipn fuel (rx w)) (tx w)
                  (trace w ++ idle_polls fuel) (tasks w))
    end.
Proof.
  induction fuel as [|fuel IH]; intros w Hmax He Hfuel.
  - cbn [wait_loop]. rewrite uint32_elapsed by lia.
    destruct (Z.ltb_spec (clock w - c0) timeout_ms); [lia|].
    cbn [first_data idle_polls skipn]. change (Z.of_nat 0) with 0.
    rewrite Z.mul_0_r, Z.add_0_r, app_nil_r. now destruct w.
  - rewrite wait_loop_step, uint32_elapsed by lia.
    destruct (Z.ltb_spec (clock w - c0) timeout_ms); [|lia].
    destruct (has_data (hd (ESP_OK, EmptyString) (rx w))) eqn:Hd.
    + rewrite first_data_here by exact Hd.
      change (Z.of_nat 0) with 0. rewrite Z.mul_0_r, Z.add_0_r.
      cbn [idle_polls app]. now destruct (rx w).
    + rewrite first_data_step by exact Hd.
      rewrite IH; cbn [clock rx tx trace tasks]; try lia.
      destruct (first_data fuel (tl (rx w))) as [[k b]|]; f_equal; f_equal;
        rewrite ?skipn_tl; try lia; cbn [idle_polls];
        rewrite <- ?app_assoc; reflexivity.
Qed.

Lemma poll_budget_tight (timeout_ms : Z) :
  0 <= timeout_ms ->
  timeout_ms <= 50 * Z.of_nat (poll_budget timeout_ms) < timeout_ms + 50.
Proof.
  intros H. unfold poll_budget. rewrite Z2Nat.id by (apply Z.div_pos; lia).
  pose proof (Z.div_mod (timeout_ms + 49) 50 ltac:(lia)).
  pose proof (Z.mod_pos_bound (timeout_ms + 49) 50 ltac:(lia)). lia.
Qed.

Lemma wait_for_response_script (timeout_ms : Z) (w : world) :
  0 <= timeout_ms <= 2 ^ 32 - 50 ->
  _unit_lorawan_wait_for_response timeout_ms w
  = match first_data (poll_budget timeout_ms) (rx w) with
    | Some (k, bytes) =>
        ((ESP_OK, bytes),
         mk_world (clock w + 50 * Z.of_nat k) (skipn (S k) (rx w)) (tx w)
                  (trace w ++ idle_polls k ++ [EvRead]) (tasks w))
    | None =>
        ((ESP_ERR_TIMEOUT, EmptyString),
         mk_world (clock w + 50 * Z.of_nat (poll_budget timeout_ms))
                  (skipn (poll_budget timeout_ms) (rx w)) (tx w)
                  (trace w ++ idle_polls (poll_budget timeout_ms)) (tasks w))
    end.
Proof.
  intros [H0 Hmax]. unfold _unit_lorawan_wait_for_response, bind, tick_ms.
  pose proof (poll_budget_tight timeout_ms H0).
  rewrite wait_loop_script by lia.
  now destruct (first_data (poll_budget timeout_ms) (rx w)) as [[k bytes]|].
Qed.

Lemma first_data_nonempty (n : nat) (script : list (esp_err_t * string)) k bytes :
  first_data n script = Some (k, bytes) -> bytes <> EmptyString.
Proof.
  revert script k. induction n as [|n IH]; intros [|r script] k; cbn; try discriminate.
  destruct (has_data r) eqn:Hd.
  - intros E. injection E as <- <-. unfold has_data in Hd.
    apply andb_prop in Hd as [_ Hd]. destruct (snd r); [discriminate | congruence].
  - destruct (first_data n script) as [[k' b]|] eqn:E; [|discriminate].
    intros E'. injection E' as <- <-. eapply IH. exact E.
Qed.

Lemma send_attempt_refused retry at_cmd response timeout_ms w :
  is_ok (hd ESP_OK (tx w)) = false ->
  send_attempt retry at_cmd response timeout_ms w
  = ((LoopContinue, (hd ESP_OK (tx w), response)), after_write retry at_cmd w).
Proof.
  intros H. unfold send_attempt, bind, after_write, backoff.
  destruct (0 <? retry)%nat; cbn -[is_ok]; rewrite H; cbn;
    rewrite <- ?app_assoc, ?Z.add_0_r; reflexivity.
Qed.

Lemma send_attempt_accepted retry at_cmd response timeout_ms w :
  0 <= timeout_ms <= 2 ^ 32 - 50 ->
  is_ok (hd ESP_OK (tx w)) = true ->
  send_attempt retry at_cmd response timeout_ms w
  = match first_data (poll_budget timeout_ms) (rx w) with
    | Some (k, bytes) =>
        ((LoopBreak, _unit_lorawan_parse_response bytes response),
         mk_world (clock (after_write retry at_cmd w) + 100 + 50 * Z.of_nat k)
                  (skipn (S k) (rx w)) (tl (tx w))
                  (trace (after_write retry at_cmd w)
                   ++ EvDelay 100 :: idle_polls k ++ [EvRead])
                  (tasks w))
    | None =>
        ((LoopContinue, (ESP_ERR_TIMEOUT, response)),
         mk_world (clock (after_write retry at_cmd w) + 100
                   + 50 * Z.of_nat (poll_budget timeout_ms))
                  (skipn (poll_budget timeout_ms) (rx w)) (tl (tx w))
                  (trace (after_write retry at_cmd w)
                   ++ EvDelay 100 :: idle_polls (poll_budget timeout_ms))
                  (tasks w))
    end.
Proof.
  intros Ht H. unfold send_attempt, bind.
  assert ((if (0 <? retry)%nat then vTaskDelay 500 else ret tt) w
          = (tt, mk_world (clock w + (if (0 <? retry)%nat then 500 else 0)) (rx w)
                          (tx w) (trace w ++ backoff retry) (tasks w))) as ->.
  { unfold backoff. destruct (0 <? retry)%nat; cbn;
      rewrite ?Z.add_0_r, ?app_nil_r; [reflexivity | now destruct w]. }
  cbn -[is_ok _unit_lorawan_wait_for_response _unit_lorawan_parse_response
        poll_budget Z.add Z.mul].
  rewrite H. cbn [negb].
  rewrite wait_for_response_script by exact Ht.
  cbn [rx clock tx trace tasks].
  unfold after_write. cbn [clock trace].
  destruct (first_data (poll_budget timeout_ms) (rx w)) as [[k bytes]|] eqn:E.
  - pose proof (parse_nonempty_ok bytes response (first_data_nonempty _ _ _ _ E)) as Hp.
    cbn [is_ok ESP_OK Z.eqb].
    destruct (_unit_lorawan_parse_response bytes response) as [e r].
    cbn [fst] in Hp. subst e. cbn [is_ok ESP_OK Z.eqb ret].
    f_equal. f_equal. rewrite <- !app_assoc. reflexivity.
  - cbn [is_ok ESP_ERR_TIMEOUT ESP_OK Z.eqb ret]. f_equal. f_equal.
    rewrite <- !app_assoc. reflexivity.
Qed.

End Reader.

(** X1.  The reader returns the first packet of bytes that a successful read
    brings within its budget of polls, as ESP_OK, and ESP_ERR_TIMEOUT when
    none does; a read that fails or brings nothing only costs a 50 ms nap,
    and its status is never passed on. *)
Theorem reader_returns_first_data (timeout_ms : Z) (w : world) :
  0 <= timeout_ms <= 2 ^ 32 - 50 ->
  _unit_lorawan_wait_for_response timeout_ms w
  = match first_data (poll_budget timeout_ms) (rx w) with
    | Some (k, bytes) =>
        ((ESP_OK, bytes),
         mk_world (clock w + 50 * Z.of_nat k) (skipn (S k) (rx w)) (tx w)
                  (trace w ++ idle_polls k ++ [EvRead]) (tasks w))
    | None =>
        ((ESP_ERR_TIMEOUT, EmptyString),
         mk_world (clock w + 50 * Z.of_nat (poll_budget timeout_ms))
                  (skipn (poll_budget timeout_ms) (rx w)) (tx w)
                  (trace w ++ idle_polls (poll_budget timeout_ms)) (tasks w))
    end.
Proof. exact (wait_for_response_script timeout_ms w). Qed.

Lemma reader_returns_first_data_witness :
  _unit_lorawan_wait_for_response 200
    (mk_world 0 [(ESP_FAIL, "lost"%string); (ESP_OK, EmptyString); (ESP_OK, "OK"%string)]
              [] [] [])
  = ((ESP_OK, "OK"%string),
     mk_world 100 [] [] [EvRead; EvDelay 50; EvRead; EvDelay 50; EvRead] []).
Proof.
  rewrite reader_returns_first_data by lia. reflexivity.
Defined.

(* ===================================================================== *)
(** * The command framer against the script of the transport *)
(* ===================================================================== *)

Section FramerScript.

Lemma first_data_lt (n : nat) (script : list (esp_err_t * string)) k bytes :
  first_data n script = Some (k, bytes) -> (k < n)%nat.
Proof.
  revert script k bytes. induction n as [|n IH]; intros [|r script] k bytes; cbn;
    try discriminate.
  destruct (has_data r).
  - intros E. injection E as <- _. lia.
  - destruct (first_data n script) as [[k' b]|] eqn:E; [|discriminate].
    intros E'. injection E' as <- _. apply IH in E. lia.
Qed.

Lemma first_data_app (a b : nat) (script : list (esp_err_t * string)) :
  first_data (a + b) script
  = match first_data a script with
    | Some r => Some r
    | None =>
        match first_data b (skipn a script) with
        | Some (k, bytes) => Some ((a + k)%nat, bytes)
        | None => None
        end
    end.
Proof.
  revert script. induction a as [|a IH]; intros script.
  - cbn. now destruct (first_data b script) as [[k x]|].
  - destruct script as [|r script].
    + cbn. now destruct b.
    + cbn [Nat.add first_data skipn]. destruct (has_data r); [reflexivity|].
      rewrite IH. destruct (first_data a script) as [[k x]|]; [reflexivity|].
      now destruct (first_data b (skipn a script)) as [[k x]|].
Qed.

Lemma frames_idle_polls (k : nat) :
  flat_map (fun e => match e with EvWrite b => [b] | _ => [] end) (idle_polls k) = [].
Proof. induction k as [|k IH]; [reflexivity | exact IH]. Qed.

Local Ltac frames_tac :=
  repeat (rewrite ?flat_map_app, ?frames_idle_polls; cbn [flat_map app]);
  rewrite <- ?app_assoc; cbn [app repeat].

Local Ltac finish_tac :=
  split; [reflexivity
         | split; [now rewrite ?app_nil_r
                  | split; [lia | first [reflexivity | f_equal; lia]]]].

Lemma skipn_skipn {A} (a b : nat) (l : list A) : skipn a (skipn b l) = skipn (b + a) l.
Proof.
  revert l. induction b as [|b IH]; intros l; [reflexivity|].
  destruct l; [now destruct a | apply IH].
Qed.

(** The command when the transport accepts every write. *)
Lemma send_at_command_script cmd response timeout_ms w :
  0 <= timeout_ms <= 2 ^ 32 - 50 ->
  tx w = [] ->
  let budget := poll_budget timeout_ms in
  let run := _unit_lorawan_send_at_command cmd response timeout_ms w in
  match first_data (3 * budget) (rx w) with
  | Some (j, bytes) =>
      fst run = _unit_lorawan_parse_response bytes response /\
      written (snd run) = written w ++ repeat (at_frame cmd) (S (j / budget)) /\
      clock (snd run)
      = clock w + 100 * Z.of_nat (S (j / budget)) + 500 * Z.of_nat (j / budget)
        + 50 * Z.of_nat j /\
      rx (snd run) = skipn (S j) (rx w)
  | None =>
      fst run = (ESP_ERR_TIMEOUT, response) /\
      written (snd run) = written w ++ repeat (at_frame cmd) 3 /\
      clock (snd run) = clock w + 3 * (100 + 50 * Z.of_nat budget) + 1000 /\
      rx (snd run) = skipn (3 * budget) (rx w)
  end.
Proof.
  intros Ht Htx budget run. subst run.
  rewrite send_at_command_unrolled. cbv zeta.
  replace (3 * budget)%nat with (budget + (budget + budget))%nat by lia.
  rewrite !first_data_app.
  assert (forall l : list esp_err_t, l = [] -> is_ok (hd ESP_OK l) = true) as Hacc
    by (now intros l ->).
  rewrite (send_attempt_accepted 0) by (auto using Hacc).
  fold budget.
  destruct (first_data budget (rx w)) as [[k bytes]|] eqn:E1.
  { pose proof (first_data_lt _ _ _ _ E1) as Hk.
    pose proof (parse_nonempty_ok bytes response (first_data_nonempty _ _ _ _ E1)) as Hp.
    destruct (_unit_lorawan_parse_response bytes response) as [e r].
    cbn [fst snd] in *. subst e. cbn [is_ok ESP_OK Z.eqb fst snd].
    rewrite Nat.div_small by exact Hk.
    unfold written, after_write, backoff. cbn [trace clock rx Nat.ltb Nat.leb app].
    frames_tac.
    finish_tac. }
  cbn [fst snd is_ok ESP_ERR_TIMEOUT ESP_OK Z.eqb].
  rewrite (send_attempt_accepted 1) by (cbn [tx]; auto using Hacc; now rewrite Htx).
  cbn [rx]. fold budget.
  destruct (first_data budget (skipn budget (rx w))) as [[k bytes]|] eqn:E2.
  { pose proof (first_data_lt _ _ _ _ E2) as Hk.
    pose proof (parse_nonempty_ok bytes response (first_data_nonempty _ _ _ _ E2)) as Hp.
    destruct (_unit_lorawan_parse_response bytes response) as [e r].
    cbn [fst snd] in *. subst e. cbn [is_ok ESP_OK Z.eqb fst snd].
    assert (((budget + k) / budget = 1)%nat) as ->.
    { symmetry. apply (Nat.div_unique _ _ 1%nat k); lia. }
    unfold written, after_write, backoff. cbn [trace clock rx Nat.ltb Nat.leb app].
    frames_tac.
    rewrite skipn_skipn.
    finish_tac. }
  cbn [fst snd is_ok ESP_ERR_TIMEOUT ESP_OK Z.eqb].
  rewrite (send_attempt_accepted 2) by (cbn [tx]; auto using Hacc; now rewrite Htx).
  cbn [rx]. fold budget. rewrite skipn_skipn.
  destruct (first_data budget (skipn (budget + budget) (rx w))) as [[k bytes]|] eqn:E3.
  { pose proof (first_data_lt _ _ _ _ E3) as Hk.
    destruct (_unit_lorawan_parse_response bytes response) as [e r].
    cbn [fst snd].
    assert (((budget + (budget + k)) / budget = 2)%nat) as ->.
    { symmetry. apply (Nat.div_unique _ _ 2%nat k); lia. }
    unfold written, after_write, backoff. cbn [trace clock rx Nat.ltb Nat.leb app].
    frames_tac.
    rewrite skipn_skipn.
    finish_tac. }
  cbn [fst snd].
  unfold written, after_write, backoff. cbn [trace clock rx Nat.ltb Nat.leb app].
  frames_tac.
  rewrite skipn_skipn.
  finish_tac.
Qed.

End FramerScript.

Lemma send_at_command_refused cmd response timeout_ms w e1 e2 e3 rest :
  tx w = e1 :: e2 :: e3 :: rest ->
  is_ok e1 = false -> is_ok e2 = false -> is_ok e3 = false ->
  _unit_lorawan_send_at_command cmd response timeout_ms w
  = ((e3, response),
     mk_world (clock w + 1000) (rx w) rest
              (trace w ++ [EvFlush; EvWrite (at_frame cmd); EvDelay 500;
                           EvFlush; EvWrite (at_frame cmd); EvDelay 500;
                           EvFlush; EvWrite (at_frame cmd)])
              (tasks w)).
Proof.
  intros Htx H1 H2 H3. rewrite send_at_command_unrolled. cbv zeta.
  rewrite (send_attempt_refused 0) by (rewrite Htx; exact H1).
  rewrite Htx. cbn [hd fst snd]. rewrite H1.
  rewrite (send_attempt_refused 1)
    by (unfold after_write; cbn [tx]; rewrite Htx; exact H2).
  unfold after_write at 1 3. cbn [tx hd fst snd]. rewrite Htx. cbn [tl hd]. rewrite H2.
  rewrite (send_attempt_refused 2)
    by (unfold after_write; cbn [tx]; rewrite Htx; exact H3).
  unfold after_write, backoff.
  cbn [tx hd tl fst snd clock rx trace tasks Nat.ltb Nat.leb]. rewrite Htx. cbn [hd tl].
  f_equal. f_equal; [lia|]. rewrite <- !app_assoc. reflexivity.
Qed.

(** X2.  With a transport that accepts every write and a timeout of at most
    2^32 - 50 ms, a command is decided by the first packet of bytes that any of the next 3 x budget reads brings (budget
    being the polls of one attempt): its parse is returned, after one frame
    per attempt begun, and the time slept is 100 ms per frame written, 500 ms
    per retry and 50 ms per empty poll; when none of these reads brings bytes
    the command returns ESP_ERR_TIMEOUT with the response untouched, after
    three frames and 3 x (100 + 50 x budget) + 1000 ms. *)
Theorem command_decided_by_first_data cmd response (timeout_ms : Z) (w : world) :
  0 <= timeout_ms <= 2 ^ 32 - 50 ->
  tx w = [] ->
  let budget := poll_budget timeout_ms in
  let run := _unit_lorawan_send_at_command cmd response timeout_ms w in
  match first_data (3 * budget) (rx w) with
  | Some (j, bytes) =>
      fst run = _unit_lorawan_parse_response bytes response /\
      written (snd run) = written w ++ repeat (at_frame cmd) (S (j / budget)) /\
      clock (snd run)
      = clock w + 100 * Z.of_nat (S (j / budget)) + 500 * Z.of_nat (j / budget)
        + 50 * Z.of_nat j /\
      rx (snd run) = skipn (S j) (rx w)
  | None =>
      fst run = (ESP_ERR_TIMEOUT, response) /\
      written (snd run) = written w ++ repeat (at_frame cmd) 3 /\
      clock (snd run) = clock w + 3 * (100 + 50 * Z.of_nat budget) + 1000 /\
      rx (snd run) = skipn (3 * budget) (rx w)
  end.
Proof. exact (send_at_command_script cmd response timeout_ms w). Qed.

(** A modem that stays silent during the whole first attempt of a 200 ms
    command and answers on the first poll of the second. *)
Lemma command_decided_by_first_data_witness :
  let w := mk_world 0 [(ESP_OK, EmptyString); (ESP_OK, EmptyString);
                       (ESP_OK, EmptyString); (ESP_OK, EmptyString);
                       (ESP_OK, "OK")] [] [] [] in
  let run := _unit_lorawan_send_at_command "CSAVE" response_zero 200 w in
  fst (fst run) = ESP_OK /\
  written (snd run) = ["AT+CSAVE" ++ String "013" (String "010" EmptyString);
                       "AT+CSAVE" ++ String "013" (String "010" EmptyString)]%string /\
  clock (snd run) = 900.
Proof.
  intros w run.
  pose proof (command_decided_by_first_data "CSAVE" response_zero 200 w
                ltac:(lia) eq_refl) as H.
  cbv zeta in H.
  change (first_data (3 * poll_budget 200) (rx w)) with (Some (4%nat, "OK")) in H.
  destruct H as (H1 & H2 & H3 & _). fold run in H1, H2, H3.
  split; [rewrite H1; reflexivity | split; [rewrite H2; reflexivity | rewrite H3; reflexivity]].
Defined.

(** X3.  When the transport refuses the write of all three attempts, the command
    returns the status of the third write with the response untouched; the
    framer has flushed and written three times with the two back-off naps
    between, and has not read once -- whatever the timeout. *)
Theorem command_refused_is_never_read cmd response (timeout_ms : Z) (w : world)
        (e1 e2 e3 : esp_err_t) (rest : list esp_err_t) :
  tx w = e1 :: e2 :: e3 :: rest ->
  e1 <> ESP_OK -> e2 <> ESP_OK -> e3 <> ESP_OK ->
  _unit_lorawan_send_at_command cmd response timeout_ms w
  = ((e3, response),
     mk_world (clock w + 1000) (rx w) rest
              (trace w ++ [EvFlush; EvWrite (at_frame cmd); EvDelay 500;
                           EvFlush; EvWrite (at_frame cmd); EvDelay 500;
                           EvFlush; EvWrite (at_frame cmd)])
              (tasks w)).
Proof.
  intros Htx H1 H2 H3.
  apply send_at_command_refused with (e1 := e1) (e2 := e2); trivial;
    unfold is_ok; now apply Z.eqb_neq.
Qed.

Lemma command_refused_is_never_read_witness :
  fst (fst (_unit_lorawan_send_at_command "CJOIN=1,1,10,8" response_zero 5000
              (mk_world 0 [(ESP_OK, "OK")] [ESP_FAIL; ESP_ERR_TIMEOUT; ESP_ERR_NO_MEM] [] [])))
  = ESP_ERR_NO_MEM.
Proof.
  rewrite (command_refused_is_never_read _ _ _ _ ESP_FAIL ESP_ERR_TIMEOUT ESP_ERR_NO_MEM [])
    by (reflexivity || discriminate).
  reflexivity.
Defined.

(* ===================================================================== *)
(** * The shape of a parsed response *)
(* ===================================================================== *)

Section ParsedResponse.

Lemma take_token_length (width : nat) (s : string) :
  (String.length (take_token width s) <= width)%nat.
Proof.
  revert s. induction width as [|k IH]; intros [|c t]; cbn; try lia.
  destruct (isspace c); cbn; [lia|]. specialize (IH t). lia.
Qed.

Lemma take_token_no_space (width : nat) (s : string) :
  string_forallb (fun c => negb (isspace c)) (take_token width s) = true.
Proof.
  revert s. induction width as [|k IH]; intros [|c t]; cbn; try reflexivity.
  destruct (isspace c) eqn:E; cbn; [reflexivity|]. now rewrite E, IH.
Qed.

Lemma sscanf_lit_s_token (lit : string) (width : nat) (input tok : string) :
  sscanf_lit_s lit width input = Some tok ->
  (String.length tok <= width)%nat /\
  string_forallb (fun c => negb (isspace c)) tok = true /\
  tok <> EmptyString.
Proof.
  unfold sscanf_lit_s, scan_s. destruct (strip_prefix lit input) as [rest|]; [|discriminate].
  pose proof (take_token_length width (skip_space rest)) as L.
  pose proof (take_token_no_space width (skip_space rest)) as S.
  destruct (take_token width (skip_space rest)) as [|c t]; [discriminate|].
  intros E. injection E as <-. repeat split; [exact L | exact S | discriminate].
Qed.

(** The classification and the captured data, in closed form. *)
Lemma parse_response_shape (raw : string) (old : lorawan_response_t) :
  raw <> EmptyString ->
  let text := c_str raw in
  let r := snd (_unit_lorawan_parse_response raw old) in
  success r = found text "OK" || (negb (found text "ERROR") && has_data_prefix text) /\
  response_data r = (if accepted raw && has_data_prefix text then Some raw else None) /\
  data_length r
  = (if accepted raw && has_data_prefix text then N.of_nat (String.length raw) else 0%N) /\
  (success r = true -> error_code r = EmptyString) /\
  (String.length (error_code r) <= 15)%nat /\
  string_forallb (fun c => negb (isspace c)) (error_code r) = true.
Proof.
  intros Hraw text r. subst r. unfold _unit_lorawan_parse_response, accepted.
  rewrite (response_len_nonzero raw Hraw). fold text.
  destruct (found text "OK") eqn:Hok.
  - cbn [orb andb]. destruct (has_data_prefix text); cbn; repeat split; auto; lia.
  - cbn [orb]. unfold found at 1 2 3. 
    destruct (strstr text "ERROR") as [error_pos|] eqn:Herr.
    + cbn [negb andb snd success response_data data_length error_code].
      split; [reflexivity|]. split; [reflexivity|]. split; [reflexivity|].
      split; [discriminate|].
      destruct (sscanf_lit_s "ERROR:" 15 error_pos) as [c|] eqn:Hc.
      * apply sscanf_lit_s_token in Hc. destruct Hc as (L & S & _). now split.
      * cbn. split; [lia | reflexivity].
    + cbn [negb andb]. destruct (has_data_prefix text); cbn; repeat split; auto; lia.
Qed.

End ParsedResponse.

(** X4.  The result of the response parser on a received text is well formed:
    success means an OK marker, or a data-bearing prefix without ERROR marker;
    the text is captured -- whole, bytes after an embedded NUL included in
    data_length -- exactly when the text is accepted and has a data-bearing
    prefix, so an OK reply with none carries no data; a success has no error
    code; and the error code is a token of at most 15 characters without
    white space. *)
Theorem parse_response_well_formed (raw : string) (old : lorawan_response_t) :
  raw <> EmptyString ->
  let text := c_str raw in
  let r := snd (_unit_lorawan_parse_response raw old) in
  success r = found text "OK" || (negb (found text "ERROR") && has_data_prefix text) /\
  response_data r = (if accepted raw && has_data_prefix text then Some raw else None) /\
  data_length r
  = (if accepted raw && has_data_prefix text then N.of_nat (String.length raw) else 0%N) /\
  (success r = true -> error_code r = EmptyString) /\
  (String.length (error_code r) <= 15)%nat /\
  string_forallb (fun c => negb (isspace c)) (error_code r) = true.
Proof. exact (parse_response_shape raw old). Qed.

Lemma parse_response_well_formed_witness :
  let r := snd (_unit_lorawan_parse_response
                  ("+CME ERROR:0123456789abcdefXYZ" ++ CRLF)%string response_zero) in
  success r = false /\ response_data r = None /\ error_code r = "0123456789abcde"%string.
Proof.
  pose proof (parse_response_well_formed
                ("+CME ERROR:0123456789abcdefXYZ" ++ CRLF)%string response_zero
                ltac:(discriminate)) as H.
  cbv zeta in H. destruct H as (H1 & H2 & _).
  split; [rewrite H1; reflexivity | split; [rewrite H2; reflexivity | reflexivity]].
Defined.

(* ===================================================================== *)
(** * Commands against a modem that answers at the first poll *)
(* ===================================================================== *)

Section Fed.

Lemma fed_next n w :
  fed (S n) w ->
  hd ESP_OK (tx w) = ESP_OK /\
  rx w = (ESP_OK, next_reply w) :: tl (rx w) /\
  next_reply w <> EmptyString.
Proof.
  intros (Htx & Hlen & Hall). unfold next_reply. rewrite Htx.
  destruct (rx w) as [|[e t] rest]; [cbn in Hlen; lia|].
  inversion Hall as [|? ? [He Ht] _]; subst. cbn in *. subst e. auto.
Qed.

Lemma fed_weaken n m w : fed n w -> (m <= n)%nat -> fed m w.
Proof. intros (Htx & Hlen & Hall) Hm. repeat split; auto; lia. Qed.

Lemma fed_exchanged n w at_cmd : fed (S n) w -> fed n (exchanged at_cmd w).
Proof.
  intros (Htx & Hlen & Hall). unfold fed, exchanged. cbn [tx rx]. rewrite Htx.
  destruct (rx w) as [|r rest]; [cbn in Hlen; lia|].
  cbn in *. inversion Hall; subst. repeat split; auto; lia.
Qed.

Lemma fed_exchanges at_cmds : forall n w,
  fed (List.length at_cmds + n) w -> fed n (exchanges at_cmds w).
Proof.
  induction at_cmds as [|c cs IH]; intros n w H; [exact H|].
  cbn [exchanges]. apply IH. now apply fed_exchanged.
Qed.

Lemma written_exchanged at_cmd w : written (exchanged at_cmd w) = written w ++ [at_cmd].
Proof. unfold written, exchanged, exchange. cbn [trace]. now rewrite flat_map_app. Qed.

Lemma written_exchanges at_cmds : forall w,
  written (exchanges at_cmds w) = written w ++ at_cmds.
Proof.
  induction at_cmds as [|c cs IH]; intros w; cbn [exchanges].
  - now rewrite app_nil_r.
  - now rewrite IH, written_exchanged, <- app_assoc.
Qed.

Lemma tasks_exchanges at_cmds : forall w, tasks (exchanges at_cmds w) = tasks w.
Proof. induction at_cmds as [|c cs IH]; intros w; cbn [exchanges]; [|rewrite IH]; reflexivity. Qed.

Lemma clock_exchanges at_cmds : forall w,
  clock (exchanges at_cmds w) = clock w + 100 * Z.of_nat (List.length at_cmds).
Proof.
  induction at_cmds as [|c cs IH]; intros w; cbn [exchanges List.length].
  - lia.
  - rewrite IH. unfold exchanged. cbn [clock]. lia.
Qed.

Lemma rx_exchanges at_cmds : forall w,
  rx (exchanges at_cmds w) = skipn (List.length at_cmds) (rx w).
Proof.
  induction at_cmds as [|c cs IH]; intros w; cbn [exchanges List.length]; [reflexivity|].
  rewrite IH. unfold exchanged. cbn [rx]. now destruct (rx w); [destruct (List.length cs)|].
Qed.

Lemma send_at_command_fed cmd response timeout_ms n w :
  0 < timeout_ms -> fed (S n) w ->
  _unit_lorawan_send_at_command cmd response timeout_ms w
  = (_unit_lorawan_parse_response (next_reply w) response, exchanged (at_frame cmd) w).
Proof.
  intros Ht H. destruct (fed_next _ _ H) as (Htx & Hrx & Hne).
  now rewrite (send_at_command_replied cmd response timeout_ms w _ _ Ht Htx Hrx Hne).
Qed.

Lemma reply_passes_any (text : string) (old : lorawan_response_t) :
  text <> EmptyString ->
  success (snd (_unit_lorawan_parse_response text old)) = reply_passes text.
Proof.
  intros H. unfold reply_passes. now rewrite (parse_nonempty_fresh text old response_zero H).
Qed.

Lemma leading_passes_rx n w :
  fed (S n) w ->
  leading_passes (map snd (rx w))
  = if reply_passes (next_reply w)
    then S (leading_passes (map snd (rx (exchanged EmptyString w)))) else O.
Proof.
  intros H. destruct (fed_next _ _ H) as (_ & Hrx & _).
  unfold exchanged. cbn [rx]. rewrite Hrx at 1. reflexivity.
Qed.

Lemma chain_world_cons cmd cmds n w :
  fed (S n) w ->
  chain_world (cmd :: cmds) w
  = if reply_passes (next_reply w)
    then chain_world cmds (exchanged (at_frame cmd) w)
    else exchanged (at_frame cmd) w.
Proof.
  intros H. unfold chain_world. rewrite (leading_passes_rx n w H).
  destruct (reply_passes (next_reply w)); reflexivity.
Qed.

Lemma at_step_fed cmd response k n w :
  fed (S n) w ->
  at_step cmd response k w
  = if reply_passes (next_reply w)
    then k (_unit_lorawan_cleanup_response
              (snd (_unit_lorawan_parse_response (next_reply w) response)))
           (exchanged (at_frame cmd) w)
    else (ESP_OK, exchanged (at_frame cmd) w).
Proof.
  intros H. destruct (fed_next _ _ H) as (_ & _ & Hne).
  unfold at_step, bind.
  rewrite (send_at_command_fed cmd response UNIT_LORAWAN_RESPONSE_TIMEOUT_MS n w)
    by (auto; reflexivity).
  pose proof (parse_nonempty_ok (next_reply w) response Hne) as Hok.
  pose proof (reply_passes_any (next_reply w) response Hne) as Hs.
  destruct (_unit_lorawan_parse_response (next_reply w) response) as [e r].
  cbn [fst snd] in *. subst e. rewrite Hs.
  destruct (reply_passes (next_reply w)); reflexivity.
Qed.

(** A chain of configuration steps returns ESP_OK whatever the replies: it
    stops without a word after the first reply that does not pass. *)
Lemma at_chain_fed cmds : forall response n w,
  fed (List.length cmds + n) w ->
  at_chain cmds response w = (ESP_OK, chain_world cmds w).
Proof.
  induction cmds as [|c cs IH]; intros response n w H.
  - unfold chain_world. now rewrite firstn_nil.
  - cbn [at_chain]. cbn [List.length Nat.add] in H.
    rewrite (at_step_fed _ _ _ _ _ H), (chain_world_cons _ _ _ _ H).
    destruct (reply_passes (next_reply w)); [|reflexivity].
    apply (IH _ n). now apply fed_exchanged.
Qed.

Lemma chain_world_frames cmds w :
  exists k, (k <= List.length cmds)%nat /\
            chain_world cmds w = exchanges (map at_frame (firstn k cmds)) w.
Proof.
  unfold chain_world.
  exists (Nat.min (S (leading_passes (map snd (rx w)))) (List.length cmds)).
  split; [lia|]. f_equal. f_equal.
  destruct (Nat.le_ge_cases (S (leading_passes (map snd (rx w)))) (List.length cmds)).
  - now rewrite Nat.min_l.
  - rewrite Nat.min_r by assumption. now rewrite !firstn_all2.
Qed.

Lemma fed_chain_world cmds n w :
  fed (List.length cmds + n) w -> fed n (chain_world cmds w).
Proof.
  intros H. destruct (chain_world_frames cmds w) as (k & Hk & ->).
  apply fed_exchanges. rewrite length_map, length_firstn.
  apply (fed_weaken _ _ _ H). lia.
Qed.

Lemma chain_world_all cmds w :
  (List.length cmds <= S (leading_passes (map snd (rx w))))%nat ->
  chain_world cmds w = exchanges (map at_frame cmds) w.
Proof. intros H. unfold chain_world. now rewrite firstn_all2. Qed.

Lemma leading_passes_skipn k : forall texts,
  (k <= leading_passes texts)%nat ->
  leading_passes (skipn k texts) = (leading_passes texts - k)%nat.
Proof.
  induction k as [|k IH]; intros texts H; [cbn; lia|].
  destruct texts as [|t ts]; [cbn in H; lia|].
  cbn in *. destruct (reply_passes t); [|lia]. apply IH. lia.
Qed.

Lemma leading_passes_exchanges at_cmds w :
  (List.length at_cmds <= leading_passes (map snd (rx w)))%nat ->
  leading_passes (map snd (rx (exchanges at_cmds w)))
  = (leading_passes (map snd (rx w)) - List.length at_cmds)%nat.
Proof.
  intros H. rewrite rx_exchanges, <- skipn_map. now apply leading_passes_skipn.
Qed.

End Fed.

(* ===================================================================== *)
(** * Attachment probe, OTAA configuration and the TTN orchestrator *)
(* ===================================================================== *)

Section Orchestrator.

Lemma cgmi_is_data_prefix (text : string) :
  found text "+CGMI=" = true -> has_data_prefix text = true.
Proof. intros H. unfold has_data_prefix. now rewrite H. Qed.

(** What a caller finds in the response of an answered command. *)
Lemma command_data (text : string) (old : lorawan_response_t) :
  text <> EmptyString ->
  (let (err, response) := _unit_lorawan_parse_response text old in
   if is_ok err && success response then response_data response else None)
  = reply_data text.
Proof.
  intros Hne. pose proof (parse_nonempty_ok text old Hne) as Hok.
  destruct (parse_response_shape text old Hne) as (Hs & Hd & _).
  destruct (_unit_lorawan_parse_response text old) as [e r].
  cbn [fst snd] in *. subst e. cbn [is_ok ESP_OK Z.eqb andb].
  unfold reply_data. rewrite Hd, Hs. unfold accepted.
  destruct (found (c_str text) "OK"), (found (c_str text) "ERROR"),
    (has_data_prefix (c_str text)); reflexivity.
Qed.

Lemma attached_replied (text : string) rest (w : world) :
  hd ESP_OK (tx w) = ESP_OK ->
  rx w = (ESP_OK, text) :: rest ->
  text <> EmptyString ->
  unit_lorawan_attached w
  = ((ESP_OK, attached_of_reply text),
     mk_world (clock w + 100) rest (tl (tx w))
              (trace w ++ exchange (at_frame "CGMI?")) (tasks w)).
Proof.
  intros Htx Hrx Hne. unfold unit_lorawan_attached, bind.
  rewrite (send_at_command_replied "CGMI?" response_zero
             UNIT_LORAWAN_RESPONSE_TIMEOUT_MS w text rest)
    by (auto; reflexivity).
  pose proof (command_data text response_zero Hne) as Hd.
  pose proof (parse_nonempty_ok text response_zero Hne) as Hok.
  destruct (_unit_lorawan_parse_response text response_zero) as [e r].
  cbn [fst] in Hok. subst e. unfold ret, exchange. f_equal. f_equal.
  unfold attached_of_reply, reply_data in *.
  destruct (is_ok ESP_OK && success r) eqn:Hs.
  - rewrite Hd.
    destruct (accepted text) eqn:Ha; cbn [andb].
    + destruct (has_data_prefix (c_str text)) eqn:Hp; [reflexivity|].
      destruct (strstr (c_str text) "+CGMI=") as [pos|] eqn:Hpos; [|reflexivity].
      assert (found (c_str text) "+CGMI=" = true) as Hf by (unfold found; now rewrite Hpos).
      apply cgmi_is_data_prefix in Hf. congruence.
    + destruct (strstr (c_str text) "+CGMI="); [|reflexivity].
      now destruct (sscanf_lit_s "+CGMI=" 15 s).
  - destruct (accepted text) eqn:Ha; cbn [andb] in *.
    + destruct (has_data_prefix (c_str text)) eqn:Hp.
      * (* data captured means success *)
        exfalso. cbn [is_ok ESP_OK Z.eqb andb] in Hs.
        destruct (success r); [discriminate|].
        destruct (response_data r); discriminate.
      * destruct (strstr (c_str text) "+CGMI=") as [pos|] eqn:Hpos; [|reflexivity].
        assert (found (c_str text) "+CGMI=" = true) as Hf by (unfold found; now rewrite Hpos).
        apply cgmi_is_data_prefix in Hf. congruence.
    + destruct (strstr (c_str text) "+CGMI="); [|reflexivity].
      now destruct (sscanf_lit_s "+CGMI=" 15 s).
Qed.

Lemma attached_fed n w :
  fed (S n) w ->
  unit_lorawan_attached w
  = ((ESP_OK, attached_of_reply (next_reply w)), exchanged (at_frame "CGMI?") w).
Proof.
  intros H. destruct (fed_next _ _ H) as (Htx & Hrx & Hne).
  now rewrite (attached_replied _ _ _ Htx Hrx Hne).
Qed.

Lemma validate_ttn_config_cases (config : unit_lorawan_ttn_config_t) :
  _validate_ttn_config (Some config)
  = if ((strlen (dev_eui config) =? 16) && (strlen (app_eui config) =? 16)
        && (strlen (app_key config) =? 32))%nat
       && ((1 <=? sub_band config) && (sub_band config <=? 8)
           && (data_rate config <=? 4) && (rx2_data_rate config <=? 15))%N
    then ESP_OK else ESP_ERR_INVALID_ARG.
Proof.
  unfold _validate_ttn_config, UNIT_LORAWAN_EUI_LENGTH, UNIT_LORAWAN_APP_KEY_LENGTH,
    UNIT_LORAWAN_US915_SUB_BAND_MIN, UNIT_LORAWAN_US915_SUB_BAND_MAX,
    UNIT_LORAWAN_US915_DATA_RATE_MAX.
  destruct (strlen (dev_eui config) =? 16)%nat; [|reflexivity].
  destruct (strlen (app_eui config) =? 16)%nat; [|reflexivity].
  destruct (strlen (app_key config) =? 32)%nat; [|reflexivity].
  cbn [negb andb].
  rewrite !N.ltb_antisym.
  destruct (1 <=? sub_band config)%N; [|reflexivity].
  destruct (sub_band config <=? 8)%N; [|reflexivity].
  destruct (data_rate config <=? 4)%N; [|reflexivity].
  destruct (rx2_data_rate config <=? 15)%N; reflexivity.
Qed.


Lemma validate_ttn_config_valid (config : unit_lorawan_ttn_config_t) :
  _validate_ttn_config (Some config) = ESP_OK <-> valid_ttn_config config.
Proof.
  rewrite validate_ttn_config_cases. unfold valid_ttn_config. split.
  - destruct (_ && _) eqn:E; [|discriminate]. intros _.
    rewrite !andb_true_iff, !Nat.eqb_eq, !N.leb_le in E. tauto.
  - intros (A & B & C & [D1 D2] & E & F).
    rewrite A, B, C. cbn [Nat.eqb andb].
    apply N.leb_le in D1, D2, E, F. now rewrite D1, D2, E, F.
Qed.

Lemma validate_ttn_config_codes (config : option unit_lorawan_ttn_config_t) :
  _validate_ttn_config config = ESP_OK \/ _validate_ttn_config config = ESP_ERR_INVALID_ARG.
Proof.
  destruct config as [config|]; [|now right].
  rewrite validate_ttn_config_cases. destruct (_ && _); auto.
Qed.

Lemma frequency_plan_fed sub_band n w :
  fed (2 + n) w ->
  _configure_us915_frequency_plan sub_band w
  = (ESP_OK,
     chain_world [ "CFREQBANDMASK=0001";
                   snprintf 32 ("CFREQBANDMASK=" ++ _get_us915_sub_band_mask sub_band) ]%string
                 w).
Proof. intros H. exact (at_chain_fed [_; _] response_zero n w H). Qed.

Lemma configOTTA_fed devEUI appEUI appKey mode n w :
  fed (7 + n) w ->
  unit_lorawan_configOTTA (Some devEUI) (Some appEUI) (Some appKey) mode w
  = (ESP_OK, chain_world (otta_cmds devEUI appEUI appKey mode) w).
Proof.
  intros H. exact (at_chain_fed (otta_cmds devEUI appEUI appKey mode) response_zero n w H).
Qed.

Lemma chain_world_nil w : chain_world [] w = w.
Proof. unfold chain_world. now rewrite firstn_nil. Qed.

Lemma network_parameters_fed config n w :
  fed (2 + n) w ->
  _configure_ttn_network_parameters config w
  = (ESP_OK,
     chain_world [ snprintf 16 ("CADR=" ++ (if adr_enabled config then "1" else "0"));
                   snprintf 32 ("CDATARATE=" ++ dec (data_rate config)) ]%string w).
Proof.
  intros H. unfold _configure_ttn_network_parameters.
  rewrite (at_step_fed _ _ _ _ _ H), (chain_world_cons _ _ _ _ H).
  destruct (reply_passes (next_reply w)); [|reflexivity].
  assert (fed (S n) (exchanged
            (at_frame (snprintf 16 ("CADR=" ++ (if adr_enabled config then "1" else "0"))))
            w)) as H1 by now apply fed_exchanged.
  unfold bind.
  rewrite (send_at_command_fed _ _ UNIT_LORAWAN_RESPONSE_TIMEOUT_MS n _ eq_refl H1).
  rewrite (chain_world_cons _ _ _ _ H1), !chain_world_nil.
  destruct (fed_next _ _ H1) as (_ & _ & Hne).
  pose proof (parse_nonempty_ok (next_reply (exchanged
     (at_frame (snprintf 16 ("CADR=" ++ (if adr_enabled config then "1" else "0")))) w))
     (_unit_lorawan_cleanup_response
        (snd (_unit_lorawan_parse_response (next_reply w) response_zero))) Hne) as Hok.
  destruct (_unit_lorawan_parse_response _ _) as [e r] in Hok |- *.
  cbn [fst] in Hok. subst e.
  destruct (reply_passes _); cbn [is_ok ESP_OK Z.eqb negb orb];
    destruct (success r); reflexivity.
Qed.

Lemma join_fed n w :
  fed (S n) w ->
  unit_lorawan_join w = (ESP_OK, exchanged (at_frame "CJOIN=1,1,10,8") w).
Proof.
  intros H. unfold unit_lorawan_join, bind.
  rewrite (send_at_command_fed _ _ 30000 n w eq_refl H).
  destruct (fed_next _ _ H) as (_ & _ & Hne).
  pose proof (parse_nonempty_ok (next_reply w) response_zero Hne) as Hok.
  destruct (_unit_lorawan_parse_response _ _) as [e r]. cbn [fst] in Hok. now subst e.
Qed.

Lemma with_tasks_same w ts : tasks w = ts -> with_tasks w (ts ++ []) = w.
Proof. intros <-. rewrite app_nil_r. now destruct w. Qed.

(** The orchestrator against a modem that answers every command at the
    first poll and identifies itself. *)
Lemma configure_ttn_fed config join_callback user_data w :
  valid_ttn_config config ->
  fed 14 w ->
  attached_of_reply (next_reply w) = true ->
  unit_lorawan_configure_ttn_us915 (Some config) join_callback user_data w
  = (ESP_OK,
     with_tasks
       (exchanges [at_frame "CSAVE"; at_frame "CJOIN=1,1,10,8"]
          (chain_world
             [ snprintf 16 ("CADR=" ++ (if adr_enabled config then "1" else "0"));
               snprintf 32 ("CDATARATE=" ++ dec (data_rate config)) ]%string
             (chain_world
                (otta_cmds (dev_eui config) (app_eui config) (app_key config)
                           DIFFERENT_FREQ_MODE)
                (chain_world
                   [ "CFREQBANDMASK=0001";
                     snprintf 32 ("CFREQBANDMASK="
                                  ++ _get_us915_sub_band_mask (sub_band config)) ]%string
                   (exchanged (at_frame "CGMI?") w)))))
       (tasks w ++ spawned config join_callback user_data ESP_OK)).
Proof.
  intros Hv H Hatt. apply validate_ttn_config_valid in Hv.
  unfold unit_lorawan_configure_ttn_us915. rewrite Hv.
  cbn [is_ok ESP_OK Z.eqb negb]. unfold bind at 1.
  rewrite (attached_fed 13 w H), Hatt. cbn [is_ok ESP_OK Z.eqb negb orb].
  assert (fed 13 (exchanged (at_frame "CGMI?") w)) as H1 by now apply fed_exchanged.
  set (w1 := exchanged (at_frame "CGMI?") w) in *.
  unfold bind at 1. rewrite (frequency_plan_fed _ 11 w1 H1).
  cbn [is_ok ESP_OK Z.eqb negb].
  set (w2 := chain_world _ w1).
  assert (fed 11 w2) as H2 by (apply (fed_chain_world _ 11 w1); exact H1).
  unfold bind at 1. rewrite (configOTTA_fed _ _ _ _ 4 w2 H2).
  cbn [is_ok ESP_OK Z.eqb negb].
  set (w3 := chain_world _ w2).
  assert (fed 4 w3) as H3 by (apply (fed_chain_world _ 4 w2); exact H2).
  unfold bind at 1. rewrite (network_parameters_fed _ 2 w3 H3).
  cbn [is_ok ESP_OK Z.eqb negb].
  set (w4 := chain_world _ w3).
  assert (fed 2 w4) as H4 by (apply (fed_chain_world _ 2 w3); exact H3).
  unfold bind at 1.
  rewrite (send_at_command_fed _ _ UNIT_LORAWAN_RESPONSE_TIMEOUT_MS 1 w4 eq_refl H4).
  assert (fed 1 (exchanged (at_frame "CSAVE") w4)) as H5 by now apply fed_exchanged.
  unfold bind at 1. rewrite (join_fed 0 _ H5).
  cbn [is_ok ESP_OK Z.eqb negb exchanges].
  set (w6 := exchanged _ (exchanged _ w4)).
  assert (tasks w6 = tasks w) as Ht.
  { subst w6 w4 w3 w2 w1. unfold chain_world, exchanged. cbn [tasks].
    rewrite !tasks_exchanges. reflexivity. }
  unfold spawned. destruct join_callback as [cb|]; cbn [is_ok ESP_OK Z.eqb].
  - unfold bind, log_task, ret, with_tasks. now rewrite Ht.
  - unfold bind, ret. now rewrite with_tasks_same.
Qed.

End Orchestrator.

(** X5.  The TTN orchestrator touches the transport only with a configuration
    that passes its check.  A configuration in which an EUI is not 16
    characters long, the key not 32, the sub-band outside 1..8, the data
    rate above 4 or the RX2 data rate above 15 -- or a NULL one -- returns
    ESP_ERR_INVALID_ARG with nothing sent and no watcher created (lengths
    only are checked: the characters, the RX2 frequency, ADR and the join
    timeout are not looked at).  With a configuration that meets these
    conditions, whatever keeps the attachment probe from answering ESP_OK
    and true -- a time-out or a refused write as much as a foreign modem --
    is returned as ESP_ERR_INVALID_STATE, after the probe's own traffic and
    nothing else. *)
Theorem configure_ttn_gate (config : unit_lorawan_ttn_config_t)
        (join_callback : option N) (user_data : N) (w : world) :
  (~ valid_ttn_config config ->
   unit_lorawan_configure_ttn_us915 (Some config) join_callback user_data w
   = (ESP_ERR_INVALID_ARG, w)) /\
  unit_lorawan_configure_ttn_us915 None join_callback user_data w
  = (ESP_ERR_INVALID_ARG, w) /\
  (valid_ttn_config config ->
   fst (unit_lorawan_attached w) <> (ESP_OK, true) ->
   unit_lorawan_configure_ttn_us915 (Some config) join_callback user_data w
   = (ESP_ERR_INVALID_STATE, snd (unit_lorawan_attached w))).
Proof.
  split; [|split; [reflexivity|]].
  - intros Hv. unfold unit_lorawan_configure_ttn_us915.
    destruct (validate_ttn_config_codes (Some config)) as [E|E].
    + apply validate_ttn_config_valid in E. contradiction.
    + now rewrite E.
  - intros Hv Ha. apply validate_ttn_config_valid in Hv.
    unfold unit_lorawan_configure_ttn_us915. rewrite Hv.
    cbn [is_ok ESP_OK Z.eqb negb]. unfold bind at 1.
    destruct (unit_lorawan_attached w) as [[err attached] w1]. cbn [fst snd] in *.
    unfold is_ok. destruct (Z.eqb_spec err ESP_OK) as [->|]; [|reflexivity].
    destruct attached; [contradiction | reflexivity].
Qed.

Lemma configure_ttn_gate_witness :
  let config := mk_config "0123456789ABCDEF" "0000000000000000"
                          "00000000000000000000000000000000" 2 2 true 0 8 30 in
  unit_lorawan_configure_ttn_us915
    (Some (mk_config "0123456789ABCDE" "0000000000000000"
                     "00000000000000000000000000000000" 2 2 true 0 8 30))
    (Some 1%N) 0 world0 = (ESP_ERR_INVALID_ARG, world0) /\
  fst (unit_lorawan_configure_ttn_us915 (Some config) (Some 1%N) 0 world0)
  = ESP_ERR_INVALID_STATE /\
  written (snd (unit_lorawan_configure_ttn_us915 (Some config) (Some 1%N) 0 world0))
  = repeat (at_frame "CGMI?") 3 /\
  tasks (snd (unit_lorawan_configure_ttn_us915 (Some config) (Some 1%N) 0 world0)) = [].
Proof.
  intros config.
  split.
  - apply (proj1 (configure_ttn_gate _ _ _ _)).
    intros (H & _). vm_compute in H. discriminate H.
  - rewrite (proj2 (proj2 (configure_ttn_gate config (Some 1%N) 0%N world0)));
      [split; [reflexivity | split; vm_compute; reflexivity]
      | repeat split; first [reflexivity | vm_compute; discriminate]
      | vm_compute; discriminate].
Defined.

Section CompleteRun.

Lemma snprintf_fits (size : nat) (formatted : string) :
  (String.length formatted < size)%nat -> snprintf size formatted = formatted.
Proof. intros H. unfold snprintf. apply substring_all. lia. Qed.

Lemma sub_band_mask_length (sub_band : N) :
  String.length (_get_us915_sub_band_mask sub_band) = 4%nat.
Proof.
  unfold _get_us915_sub_band_mask.
  repeat match goal with
         | |- context [match ?x with _ => _ end] => is_var x; destruct x
         end; reflexivity.
Qed.

Lemma ttn_cmds_fit (config : unit_lorawan_ttn_config_t) :
  valid_ttn_config config ->
  "CGMI?"%string
  :: [ "CFREQBANDMASK=0001";
       snprintf 32 ("CFREQBANDMASK=" ++ _get_us915_sub_band_mask (sub_band config)) ]%string
  ++ otta_cmds (dev_eui config) (app_eui config) (app_key config) DIFFERENT_FREQ_MODE
  ++ [ snprintf 16 ("CADR=" ++ (if adr_enabled config then "1" else "0"));
       snprintf 32 ("CDATARATE=" ++ dec (data_rate config)) ]%string
  ++ ["CSAVE"; "CJOIN=1,1,10,8"]%string
  = ttn_cmds config.
Proof.
  intros (A & B & C & _ & E & _). unfold ttn_cmds, otta_cmds, strlen in *.
  rewrite (snprintf_fits 32 ("CFREQBANDMASK=" ++ _))
    by (rewrite string_length_app, sub_band_mask_length; cbn; lia).
  rewrite (snprintf_fits 64 ("CDEVEUI=" ++ _)) by (rewrite string_length_app, A; cbn; lia).
  rewrite (snprintf_fits 64 ("CAPPEUI=" ++ _)) by (rewrite string_length_app, B; cbn; lia).
  rewrite (snprintf_fits 80 ("CAPPKEY=" ++ _)) by (rewrite string_length_app, C; cbn; lia).
  rewrite (snprintf_fits 16 ("CADR=" ++ _)) by (destruct (adr_enabled config); cbn; lia).
  rewrite (snprintf_fits 32 ("CDATARATE=" ++ _))
    by (destruct (data_rate_cases _ E) as [->|[->|[->|[->| ->]]]]; cbn; lia).
  reflexivity.
Qed.

Lemma written_with_tasks w ts : written (with_tasks w ts) = written w.
Proof. reflexivity. Qed.

Lemma clock_with_tasks w ts : clock (with_tasks w ts) = clock w.
Proof. reflexivity. Qed.

Lemma rx_with_tasks w ts : rx (with_tasks w ts) = rx w.
Proof. reflexivity. Qed.

Lemma tasks_with_tasks w ts : tasks (with_tasks w ts) = ts.
Proof. reflexivity. Qed.

Lemma run_parts {A} (run : A * world) (a : A) (w : world) :
  run = (a, w) -> fst run = a /\ snd run = w.
Proof. now intros ->. Qed.

Lemma configure_ttn_all_pass config join_callback user_data w :
  valid_ttn_config config ->
  fed 14 w ->
  attached_of_reply (next_reply w) = true ->
  (10 <= leading_passes (map snd (tl (rx w))))%nat ->
  unit_lorawan_configure_ttn_us915 (Some config) join_callback user_data w
  = (ESP_OK,
     with_tasks (exchanges (map at_frame (ttn_cmds config)) w)
                (tasks w ++ spawned config join_callback user_data ESP_OK)).
Proof.
  intros Hv H Hatt Hlp. rewrite (configure_ttn_fed _ _ _ _ Hv H Hatt).
  rewrite <- (ttn_cmds_fit config Hv).
  set (w1 := exchanged (at_frame "CGMI?") w).
  assert (rx w1 = tl (rx w)) as Hrx1 by reflexivity.
  rewrite (chain_world_all [_; _] w1) by (rewrite Hrx1; cbn [List.length]; lia).
  set (w2 := exchanges _ w1).
  assert (leading_passes (map snd (rx w2)) = leading_passes (map snd (tl (rx w))) - 2)%nat
    as Hlp2.
  { subst w2. rewrite leading_passes_exchanges; rewrite Hrx1; cbn [List.length map]; lia. }
  rewrite (chain_world_all (otta_cmds _ _ _ _) w2)
    by (rewrite Hlp2; cbn [List.length otta_cmds]; lia).
  set (w3 := exchanges _ w2).
  assert (leading_passes (map snd (rx w3)) = leading_passes (map snd (tl (rx w))) - 9)%nat
    as Hlp3.
  { subst w3. rewrite leading_passes_exchanges; rewrite Hlp2;
      cbn [List.length map otta_cmds]; lia. }
  rewrite (chain_world_all [_; _] w3) by (rewrite Hlp3; cbn [List.length]; lia).
  subst w3 w2 w1. reflexivity.
Qed.

End CompleteRun.

(** X6.  When the identification query is answered at the first poll, the
    attachment probe returns ESP_OK, and reports the module attached exactly
    when the parser accepts the reply and the token of at most 15 characters
    after the first +CGMI= contains ASR; a reply without +CGMI=, or one
    with an ERROR marker and no OK, reports it absent. *)
Theorem attached_reads_manufacturer (text : string) rest (w : world) :
  hd ESP_OK (tx w) = ESP_OK ->
  rx w = (ESP_OK, text) :: rest ->
  text <> EmptyString ->
  unit_lorawan_attached w
  = ((ESP_OK, attached_of_reply text),
     mk_world (clock w + 100) rest (tl (tx w))
              (trace w ++ exchange (at_frame "CGMI?")) (tasks w)) /\
  (found (c_str text) "+CGMI=" = false -> attached_of_reply text = false) /\
  (accepted text = false -> attached_of_reply text = false).
Proof.
  intros Htx Hrx Hne. split; [exact (attached_replied text rest w Htx Hrx Hne)|].
  unfold attached_of_reply, found. split.
  - destruct (strstr (c_str text) "+CGMI="); [discriminate | reflexivity].
  - intros ->. destruct (strstr (c_str text) "+CGMI=") as [pos|]; [|reflexivity].
    now destruct (sscanf_lit_s "+CGMI=" 15 pos).
Qed.

Lemma attached_reads_manufacturer_witness :
  fst (unit_lorawan_attached (answering ["+CGMI=ASR" ++ CRLF ++ "OK"]%string))
  = (ESP_OK, true) /\
  fst (unit_lorawan_attached (answering ["+CGMI=SEMTECH" ++ CRLF ++ "OK"]%string))
  = (ESP_OK, false).
Proof.
  split.
  - rewrite (proj1 (attached_reads_manufacturer ("+CGMI=ASR" ++ CRLF ++ "OK")%string []
                      (answering ["+CGMI=ASR" ++ CRLF ++ "OK"]%string)
                      eq_refl eq_refl ltac:(discriminate))).
    reflexivity.
  - rewrite (proj1 (attached_reads_manufacturer ("+CGMI=SEMTECH" ++ CRLF ++ "OK")%string []
                      (answering ["+CGMI=SEMTECH" ++ CRLF ++ "OK"]%string)
                      eq_refl eq_refl ltac:(discriminate))).
    reflexivity.
Defined.

(** X7.  A complete run of the TTN orchestrator.  With an accepted
    configuration, a modem that answers every command at the first poll,
    identifies itself, and lets the ten configuration steps after the probe
    pass, the orchestrator writes fourteen frames -- the probe, the two
    channel masks, the seven OTAA commands with the credentials as given,
    ADR, the data rate, CSAVE and the join -- in this order, takes 1.4 s of
    settle delays, returns ESP_OK and leaves one watcher when a callback is
    given. *)
Theorem configure_ttn_complete_run (config : unit_lorawan_ttn_config_t)
        (join_callback : option N) (user_data : N) (w : world) :
  valid_ttn_config config ->
  fed 14 w ->
  attached_of_reply (next_reply w) = true ->
  (10 <= leading_passes (map snd (tl (rx w))))%nat ->
  let run := unit_lorawan_configure_ttn_us915 (Some config) join_callback user_data w in
  fst run = ESP_OK /\
  written (snd run) = written w ++ map at_frame (ttn_cmds config) /\
  clock (snd run) = clock w + 1400 /\
  tasks (snd run) = tasks w ++ spawned config join_callback user_data ESP_OK /\
  rx (snd run) = skipn 14 (rx w).
Proof.
  intros Hv H Hatt Hlp run.
  destruct (run_parts run _ _ (configure_ttn_all_pass _ join_callback user_data _
                                 Hv H Hatt Hlp)) as [E1 E2].
  rewrite E1, E2.
  rewrite written_with_tasks, clock_with_tasks, rx_with_tasks, tasks_with_tasks.
  rewrite written_exchanges, clock_exchanges, rx_exchanges, length_map.
  assert (List.length (ttn_cmds config) = 14%nat) as -> by reflexivity.
  split; [reflexivity|]. split; [reflexivity|]. split; [lia|].
  split; reflexivity.
Qed.

Lemma configure_ttn_complete_run_witness :
  let config := mk_config "70B3D57ED0000001" "0000000000000000"
                          "000102030405060708090A0B0C0D0E0F" 2 3 true 0 8 30 in
  let w := answering (("+CGMI=ASR" ++ CRLF ++ "OK") :: repeat "OK" 13)%string in
  let run := unit_lorawan_configure_ttn_us915 (Some config) (Some 7%N) 9 w in
  fst run = ESP_OK /\
  written (snd run)
  = map at_frame
      [ "CGMI?"; "CFREQBANDMASK=0001"; "CFREQBANDMASK=0002"; "CJOINMODE=0";
        "CDEVEUI=70B3D57ED0000001"; "CAPPEUI=0000000000000000";
        "CAPPKEY=000102030405060708090A0B0C0D0E0F"; "CULDLMODE=2"; "CCLASS=0";
        "CWORKMODE=2"; "CADR=1"; "CDATARATE=3"; "CSAVE"; "CJOIN=1,1,10,8" ]%string /\
  tasks (snd run) = [TaskCreate (mk_params 7 9 30)].
Proof.
  intros config w run.
  assert (valid_ttn_config config) as Hv
    by (repeat split; first [reflexivity | vm_compute; discriminate]).
  assert (fed 14 w) as Hf.
  { split; [reflexivity|]. split; [cbn; lia|].
    repeat (constructor; [split; [reflexivity | discriminate]|]). constructor. }
  destruct (configure_ttn_complete_run config (Some 7%N) 9%N w Hv Hf eq_refl
              ltac:(vm_compute; lia)) as (H1 & H2 & _ & H4 & _).
  fold run in H1, H2, H4.
  split; [exact H1 | split; [rewrite H2; reflexivity | rewrite H4; reflexivity]].
Defined.

(** X8.  The status of the TTN orchestrator does not tell whether the modem
    took the configuration.  With an accepted configuration and a modem
    that identifies itself and answers every command at the first poll with
    any text at all, the orchestrator returns ESP_OK, saves, issues the join
    and leaves its watcher: each of the three groups of steps (channel
    masks, OTAA commands, network parameters) stops after its first reply
    that does not pass, and the next group starts all the same. *)
Theorem configure_ttn_ok_whatever_the_replies (config : unit_lorawan_ttn_config_t)
        (join_callback : option N) (user_data : N) (w : world) :
  valid_ttn_config config ->
  fed 14 w ->
  attached_of_reply (next_reply w) = true ->
  unit_lorawan_configure_ttn_us915 (Some config) join_callback user_data w
  = (ESP_OK,
     with_tasks
       (exchanges [at_frame "CSAVE"; at_frame "CJOIN=1,1,10,8"]
          (chain_world
             [ snprintf 16 ("CADR=" ++ (if adr_enabled config then "1" else "0"));
               snprintf 32 ("CDATARATE=" ++ dec (data_rate config)) ]%string
             (chain_world
                (otta_cmds (dev_eui config) (app_eui config) (app_key config)
                           DIFFERENT_FREQ_MODE)
                (chain_world
                   [ "CFREQBANDMASK=0001";
                     snprintf 32 ("CFREQBANDMASK="
                                  ++ _get_us915_sub_band_mask (sub_band config)) ]%string
                   (exchanged (at_frame "CGMI?") w)))))
       (tasks w ++ spawned config join_callback user_data ESP_OK)).
Proof. exact (configure_ttn_fed config join_callback user_data w). Qed.

(** A modem that answers ERROR to every command after the probe: no
    credential is sent, and the orchestrator joins and returns ESP_OK. *)
Lemma configure_ttn_ok_whatever_the_replies_witness :
  let config := mk_config "70B3D57ED0000001" "0000000000000000"
                          "000102030405060708090A0B0C0D0E0F" 2 3 true 0 8 30 in
  let w := answering (("+CGMI=ASR" ++ CRLF ++ "OK") :: repeat "ERROR" 13)%string in
  let run := unit_lorawan_configure_ttn_us915 (Some config) (Some 7%N) 9 w in
  fst run = ESP_OK /\
  written (snd run)
  = map at_frame [ "CGMI?"; "CFREQBANDMASK=0001"; "CJOINMODE=0"; "CADR=1"; "CSAVE";
                   "CJOIN=1,1,10,8" ]%string /\
  tasks (snd run) = [TaskCreate (mk_params 7 9 30)].
Proof.
  intros config w run.
  assert (valid_ttn_config config) as Hv
    by (repeat split; first [reflexivity | vm_compute; discriminate]).
  assert (fed 14 w) as Hf.
  { split; [reflexivity|]. split; [cbn; lia|].
    repeat (constructor; [split; [reflexivity | discriminate]|]). constructor. }
  subst run.
  rewrite (configure_ttn_ok_whatever_the_replies config (Some 7%N) 9%N w Hv Hf eq_refl).
  split; [reflexivity | split; reflexivity].
Defined.

(** X9.  OTAA configuration against a modem that answers every command at the
    first poll: the seven commands are sent in order up to and including the
    first whose reply does not pass (neither an OK marker, nor a data-bearing
    prefix without ERROR), the rest is not sent, and the call returns ESP_OK
    in every case -- a rejected credential is not reported. *)
Theorem configOTTA_stops_silently (devEUI appEUI appKey : string)
        (mode : unit_lorwan_uldlmode) (w : world) :
  fed 7 w ->
  let run := unit_lorawan_configOTTA (Some devEUI) (Some appEUI) (Some appKey) mode w in
  fst run = ESP_OK /\
  written (snd run)
  = written w
    ++ map at_frame (firstn (S (leading_passes (map snd (rx w))))
                            (otta_cmds devEUI appEUI appKey mode)) /\
  tasks (snd run) = tasks w.
Proof.
  intros H run. subst run. rewrite (configOTTA_fed _ _ _ _ 0 w H). cbn [fst snd].
  unfold chain_world. now rewrite written_exchanges, tasks_exchanges.
Qed.

Lemma configOTTA_stops_silently_witness :
  let w := answering ["OK"; "OK"; "+CME ERROR:1"; "OK"; "OK"; "OK"; "OK"]%string in
  let run := unit_lorawan_configOTTA (Some "70B3D57ED0000001"%string)
               (Some "0000000000000000"%string)
               (Some "000102030405060708090A0B0C0D0E0F"%string) DIFFERENT_FREQ_MODE w in
  fst run = ESP_OK /\
  written (snd run)
  = map at_frame [ "CJOINMODE=0"; "CDEVEUI=70B3D57ED0000001";
                   "CAPPEUI=0000000000000000" ]%string.
Proof.
  intros w run.
  assert (fed 7 w) as Hf.
  { split; [reflexivity|]. split; [cbn; lia|].
    repeat (constructor; [split; [reflexivity | discriminate]|]). constructor. }
  destruct (configOTTA_stops_silently "70B3D57ED0000001" "0000000000000000"
              "000102030405060708090A0B0C0D0E0F" DIFFERENT_FREQ_MODE w Hf)
    as (H1 & H2 & _).
  fold run in H1, H2. split; [exact H1 | rewrite H2; reflexivity].
Defined.

(* ===================================================================== *)
(** * Decimal numbers in replies *)
(* ===================================================================== *)

Section Decimal.

Lemma of_uint_acc_value (u : Decimal.uint) : forall p : positive,
  Z.pos (Pos.of_uint_acc u p) = uint_value (Z.pos p) u.
Proof.
  induction u as [|u IH|u IH|u IH|u IH|u IH|u IH|u IH|u IH|u IH|u IH]; intros p;
    cbn [Pos.of_uint_acc uint_value]; [reflexivity|..]; rewrite IH; f_equal; lia.
Qed.

Lemma of_uint_value (u : Decimal.uint) : Z.of_N (Pos.of_uint u) = uint_value 0 u.
Proof.
  induction u as [|u IH|u IH|u IH|u IH|u IH|u IH|u IH|u IH|u IH|u IH];
    cbn [Pos.of_uint uint_value Z.of_N]; [reflexivity | exact IH |..];
    apply of_uint_acc_value.
Qed.

Lemma to_uint_value (n : N) : uint_value 0 (N.to_uint n) = Z.of_N n.
Proof.
  rewrite <- of_uint_value. change (Pos.of_uint (N.to_uint n)) with (N.of_uint (N.to_uint n)).
  now rewrite DecimalN.Unsigned.of_to.
Qed.

Lemma scan_digits_stop (acc : Z) (rest : string) :
  starts_with_digit rest = false -> scan_digits acc rest = acc.
Proof.
  destruct rest as [|c t]; [reflexivity|]. cbn. now destruct (digit_of c).
Qed.

Lemma scan_digits_uint (u : Decimal.uint) : forall (acc : Z) (rest : string),
  scan_digits acc (NilEmpty.string_of_uint u ++ rest)
  = scan_digits (uint_value acc u) rest.
Proof.
  induction u as [|u IH|u IH|u IH|u IH|u IH|u IH|u IH|u IH|u IH|u IH]; intros acc rest;
    [reflexivity|..];
    cbn [NilEmpty.string_of_uint append scan_digits uint_value];
    match goal with
    | |- context [digit_of ?c] =>
        let d := eval vm_compute in (digit_of c) in
        change (digit_of c) with d
    end; cbv iota; rewrite IH; f_equal; f_equal; lia.
Qed.

Lemma to_uint_digits (n : N) :
  exists c t, NilEmpty.string_of_uint (N.to_uint n) = String c t /\
              (exists d, digit_of c = Some d).
Proof.
  destruct (N.to_uint n) as [|u|u|u|u|u|u|u|u|u|u] eqn:E;
    [|cbn [NilEmpty.string_of_uint]; eexists; eexists; split;
        [reflexivity | vm_compute; eexists; reflexivity] ..].
  exfalso. destruct n as [|p]; [discriminate|].
  now apply (DecimalPos.Unsigned.to_uint_nonnil p).
Qed.

(** [%d] reads back what [%d] printed. *)
Lemma scan_d_dec (n : N) (rest : string) :
  starts_with_digit rest = false ->
  scan_d (dec n ++ rest) = Some (clamp_int (Z.of_N n)).
Proof.
  intros Hrest. unfold dec.
  pose proof (scan_digits_uint (N.to_uint n) 0 rest) as Hs.
  rewrite (scan_digits_stop _ _ Hrest), to_uint_value in Hs.
  destruct (to_uint_digits n) as (c & t & E & d & Hd).
  rewrite E in *. unfold scan_d. cbn [append skip_space].
  assert (isspace c = false) as ->.
  { unfold digit_of in Hd. unfold isspace.
    destruct ((48 <=? N_of_ascii c) && (N_of_ascii c <=? 57))%N eqn:B; [|discriminate].
    apply andb_true_iff in B. destruct B as [B1 B2].
    apply N.leb_le in B1, B2.
    destruct (N.eqb_spec (N_of_ascii c) 32); [lia|].
    destruct (N.leb_spec 9 (N_of_ascii c)); destruct (N.leb_spec (N_of_ascii c) 13);
      cbn; try reflexivity; lia. }
  assert (starts_with_digit (String c (t ++ rest)) = true) as Hsd
    by (cbn; now rewrite Hd).
  assert (c <> "-"%char /\ c <> "+"%char) as [Hm Hp].
  { split; intros ->; vm_compute in Hd; discriminate. }
  cbn [append] in Hs.
  destruct c as [[] [] [] [] [] [] [] []]; try (exfalso; now (apply Hm || apply Hp));
    rewrite Hsd, Hs; reflexivity.
Qed.

Lemma dec_digits (n : N) : string_forallb (fun c => match digit_of c with Some _ => true | None => false end) (dec n) = true.
Proof.
  unfold dec. induction (N.to_uint n); cbn; auto.
Qed.

Lemma dec_no_nul (n : N) : no_nul (dec n) = true.
Proof.
  unfold dec, no_nul. induction (N.to_uint n); cbn; auto.
Qed.

Lemma c_str_app (a b : string) : no_nul a = true -> c_str (a ++ b) = (a ++ c_str b)%string.
Proof.
  unfold no_nul. induction a as [|c a IH]; cbn; [reflexivity|].
  destruct (Ascii.eqb c zero); cbn; [discriminate|]. intros H. now rewrite IH.
Qed.

Lemma found_app_r (a b needle : string) :
  found b needle = true -> found (a ++ b) needle = true.
Proof.
  unfold found. induction a as [|c a IH]; intros H; [exact H|].
  cbn [append strstr].
  destruct (String.prefix needle (String c (a ++ b))); [reflexivity|].
  now apply IH.
Qed.

End Decimal.

(* ===================================================================== *)
(** * Queries that read a number, the raw command, and the size of a send *)
(* ===================================================================== *)

Section Queries.

Lemma strstr_prefix (hay needle : string) :
  String.prefix needle hay = true -> strstr hay needle = Some hay.
Proof.
  intros H. destruct hay as [|c t].
  - destruct needle; [reflexivity | discriminate].
  - cbn [strstr]. now rewrite H.
Qed.

Lemma prefix_app (a b : string) : String.prefix a (a ++ b) = true.
Proof.
  induction a as [|c a IH]; cbn; [now destruct b|].
  destruct (ascii_dec c c); [exact IH | congruence].
Qed.

Lemma strip_prefix_app (lit rest : string) : strip_prefix lit (lit ++ rest) = Some rest.
Proof.
  induction lit as [|c lit IH]; cbn; [reflexivity|]. now rewrite Ascii.eqb_refl.
Qed.

(** A reply that carries a number after a literal, as the modem prints it. *)
Lemma numeric_reply (lit : string) (n : N) :
  no_nul lit = true ->
  let text := (lit ++ dec n ++ CRLF ++ "OK")%string in
  c_str text = text /\ found text "OK" = true /\ strstr text lit = Some text /\
  sscanf_lit_d lit text = Some (clamp_int (Z.of_N n)).
Proof.
  intros Hlit text. subst text. split; [|split; [|split]].
  - rewrite (c_str_app lit _ Hlit), (c_str_app (dec n) _ (dec_no_nul n)). reflexivity.
  - apply found_app_r, found_app_r. reflexivity.
  - apply strstr_prefix, prefix_app.
  - unfold sscanf_lit_d. rewrite strip_prefix_app. now apply scan_d_dec.
Qed.

Lemma data_seen (text : string) :
  text <> EmptyString ->
  response_data (snd (_unit_lorawan_parse_response text response_zero)) = reply_data text.
Proof.
  intros Hne. destruct (parse_response_shape text response_zero Hne) as (_ & Hd & _).
  exact Hd.
Qed.

Lemma get_tx_power_replied (old : N) (text : string) rest (w : world) :
  hd ESP_OK (tx w) = ESP_OK ->
  rx w = (ESP_OK, text) :: rest ->
  text <> EmptyString ->
  unit_lorawan_get_tx_power (Some old) w
  = (match reply_data text with
     | Some data =>
         match strstr (c_str data) "+CTXP:" with
         | Some txp_pos =>
             match sscanf_lit_d "+CTXP:" txp_pos with
             | Some power_value => (ESP_OK, Some (uint8_of_int power_value))
             | None => (ESP_FAIL, Some old)
             end
         | None => (ESP_FAIL, Some old)
         end
     | None => (ESP_OK, Some old)
     end,
     mk_world (clock w + 100) rest (tl (tx w))
              (trace w ++ exchange (at_frame "CTXP?")) (tasks w)).
Proof.
  intros Htx Hrx Hne. unfold unit_lorawan_get_tx_power, bind.
  rewrite (send_at_command_replied "CTXP?" response_zero
             UNIT_LORAWAN_RESPONSE_TIMEOUT_MS w text rest eq_refl Htx Hrx Hne).
  pose proof (command_data text response_zero Hne) as Hd.
  pose proof (parse_nonempty_ok text response_zero Hne) as Hok.
  destruct (_unit_lorawan_parse_response text response_zero) as [e r].
  cbn [fst] in Hok. subst e. rewrite Hd. unfold ret, exchange.
  destruct (reply_data text) as [data|]; [|reflexivity].
  destruct (strstr (c_str data) "+CTXP:") as [pos|]; [|reflexivity].
  now destruct (sscanf_lit_d "+CTXP:" pos).
Qed.

Lemma reply_data_ok (text : string) :
  found (c_str text) "OK" = true -> has_data_prefix (c_str text) = true ->
  reply_data text = Some text.
Proof. intros H1 H2. unfold reply_data, accepted. now rewrite H1, H2. Qed.

Lemma clamp_int_small (n : N) : (n < 2 ^ 31)%N -> clamp_int (Z.of_N n) = Z.of_N n.
Proof.
  intros H. unfold clamp_int, INT_MAX, INT_MIN.
  assert (Z.of_N n < 2 ^ 31) by (change (2 ^ 31) with (Z.of_N (2 ^ 31)); lia).
  lia.
Qed.

Lemma uint8_of_N (n : N) : uint8_of_int (Z.of_N n) = (n mod 256)%N.
Proof.
  unfold uint8_of_int. change 256 with (Z.of_N 256).
  rewrite <- N2Z.inj_mod. apply N2Z.id.
Qed.

Lemma get_data_rate_info_replied (dr max : N) (text data pos : string) (dr_value : Z)
      rest (w : world) :
  hd ESP_OK (tx w) = ESP_OK ->
  rx w = (ESP_OK, text) :: rest ->
  text <> EmptyString ->
  reply_data text = Some data ->
  strstr (c_str data) "+CDATARATE:" = Some pos ->
  sscanf_lit_d "+CDATARATE:" pos = Some dr_value ->
  fst (unit_lorawan_get_data_rate_info dr max w)
  = (ESP_OK, (uint8_of_int dr_value,
              if (0 <=? dr_value)%Z && (dr_value <=? 4)%Z
              then nth (Z.to_nat dr_value) us915_max_payload_sizes 0%N
              else UNIT_LORAWAN_US915_MAX_PAYLOAD_DR0)).
Proof.
  intros Htx Hrx Hne Hdata Hpos Hscan. unfold unit_lorawan_get_data_rate_info.
  unfold bind at 1.
  rewrite (send_at_command_replied "CDATARATE?" response_zero
             UNIT_LORAWAN_RESPONSE_TIMEOUT_MS w text rest eq_refl Htx Hrx Hne).
  pose proof (command_data text response_zero Hne) as Hd.
  pose proof (parse_nonempty_ok text response_zero Hne) as Hok.
  destruct (_unit_lorawan_parse_response text response_zero) as [e r].
  cbn [fst] in Hok. subst e. rewrite Hd, Hdata, Hpos, Hscan. reflexivity.
Qed.

End Queries.

Section QueryTheorems.

Lemma data_prefix_ctxp (text : string) :
  found text "+CTXP:" = true -> has_data_prefix text = true.
Proof. intros H. unfold has_data_prefix. rewrite H, orb_true_r. reflexivity. Qed.

Lemma data_prefix_cdatarate (text : string) :
  found text "+CDATARATE:" = true -> has_data_prefix text = true.
Proof. intros H. unfold has_data_prefix. rewrite H, orb_true_r. reflexivity. Qed.

Lemma found_of_strstr (hay needle pos : string) :
  strstr hay needle = Some pos -> found hay needle = true.
Proof. intros H. unfold found. now rewrite H. Qed.

Lemma validate_beyond_table (payload_size dr : N) :
  (4 < dr)%N ->
  _unit_lorawan_validate_payload_size payload_size dr
  = if (UNIT_LORAWAN_US915_MAX_PAYLOAD_DR0 <? payload_size)%N
    then ESP_ERR_INVALID_SIZE else ESP_OK.
Proof.
  intros H. unfold _unit_lorawan_validate_payload_size.
  repeat match goal with
         | |- context [match ?x with _ => _ end] => is_var x; destruct x
         end; first [reflexivity | lia].
Qed.

Lemma get_data_rate_info_reported_any (k dr max : N) rest (w : world) :
  (k < 2 ^ 31)%N ->
  hd ESP_OK (tx w) = ESP_OK ->
  rx w = (ESP_OK, "+CDATARATE:" ++ dec k ++ CRLF ++ "OK")%string :: rest ->
  fst (unit_lorawan_get_data_rate_info dr max w)
  = (ESP_OK, ((k mod 256)%N,
              if (k <=? 4)%N then ceiling_of k else UNIT_LORAWAN_US915_MAX_PAYLOAD_DR0)).
Proof.
  intros Hk Htx Hrx.
  destruct (numeric_reply "+CDATARATE:" k eq_refl) as (Hc & Hok & Hpos & Hscan).
  cbv zeta in *.
  set (text := ("+CDATARATE:" ++ dec k ++ CRLF ++ "OK")%string) in *.
  rewrite (get_data_rate_info_replied dr max text text text (clamp_int (Z.of_N k))
             rest w Htx Hrx).
  - rewrite (clamp_int_small k Hk), uint8_of_N. f_equal. f_equal.
    unfold ceiling_of.
    replace (Z.to_nat (Z.of_N k)) with (N.to_nat k) by lia.
    replace (0 <=? Z.of_N k)%Z with true by (symmetry; apply Z.leb_le; lia).
    cbn [andb]. change 4%Z with (Z.of_N 4).
    destruct (N.leb_spec k 4); destruct (Z.leb_spec (Z.of_N k) (Z.of_N 4));
      try reflexivity; lia.
  - discriminate.
  - apply reply_data_ok; rewrite Hc; [exact Hok|].
    apply data_prefix_cdatarate. now apply found_of_strstr in Hpos.
  - rewrite Hc. exact Hpos.
  - exact Hscan.
Qed.

End QueryTheorems.

(** X10.  Reading the transmit power.  When the query is answered at the first
    poll with +CTXP:<p> and OK, the call stores p modulo 256 (the cast to
    uint8_t) and returns ESP_OK.  When the reply carries no data for the
    caller -- an ERROR reply, or a bare OK -- the call still returns ESP_OK,
    with the output left as it was; a data reply without +CTXP: gives
    ESP_FAIL. *)
Theorem get_tx_power_reads_reply (old : N) (text : string) rest (w : world) :
  hd ESP_OK (tx w) = ESP_OK ->
  rx w = (ESP_OK, text) :: rest ->
  text <> EmptyString ->
  (forall p, (p < 2 ^ 31)%N -> text = ("+CTXP:" ++ dec p ++ CRLF ++ "OK")%string ->
             fst (unit_lorawan_get_tx_power (Some old) w) = (ESP_OK, Some (p mod 256)%N)) /\
  (reply_data text = None ->
   fst (unit_lorawan_get_tx_power (Some old) w) = (ESP_OK, Some old)) /\
  (reply_data text = Some text -> found (c_str text) "+CTXP:" = false ->
   fst (unit_lorawan_get_tx_power (Some old) w) = (ESP_FAIL, Some old)).
Proof.
  intros Htx Hrx Hne. rewrite (get_tx_power_replied old text rest w Htx Hrx Hne).
  cbn [fst]. split; [|split].
  - intros p Hp ->.
    destruct (numeric_reply "+CTXP:" p eq_refl) as (Hc & Hok & Hpos & Hscan).
    cbv zeta in *.
    rewrite reply_data_ok, Hc, Hpos, Hscan.
    + now rewrite (clamp_int_small p Hp), uint8_of_N.
    + rewrite Hc. exact Hok.
    + rewrite Hc. apply data_prefix_ctxp. now apply found_of_strstr in Hpos.
  - now intros ->.
  - intros -> Hf. apply found_false_iff in Hf. now rewrite Hf.
Qed.

Lemma get_tx_power_reads_reply_witness :
  fst (unit_lorawan_get_tx_power (Some 3%N) (answering ["+CTXP:261" ++ CRLF ++ "OK"]%string))
  = (ESP_OK, Some 5%N) /\
  fst (unit_lorawan_get_tx_power (Some 3%N) (answering ["+CME ERROR:1"]%string))
  = (ESP_OK, Some 3%N).
Proof.
  split.
  - apply (proj1 (get_tx_power_reads_reply 3 ("+CTXP:261" ++ CRLF ++ "OK")%string []
                    (answering ["+CTXP:261" ++ CRLF ++ "OK"]%string)
                    eq_refl eq_refl ltac:(discriminate)) 261%N);
      [vm_compute | ]; reflexivity.
  - apply (proj1 (proj2 (get_tx_power_reads_reply 3 "+CME ERROR:1"%string []
                           (answering ["+CME ERROR:1"]%string)
                           eq_refl eq_refl ltac:(discriminate)))).
    reflexivity.
Defined.

(** X11.  The data-rate lookup and the size check agree on every rate a byte
    can hold.  When the query is answered with +CDATARATE:<k> and OK, the
    lookup returns ESP_OK with the rate k modulo 256 and the ceiling of the
    table for k up to 4, the DR0 ceiling (11) otherwise; and for k below
    256 the size check that send runs against the returned rate accepts a
    length exactly when it is within the returned ceiling. *)
Theorem lookup_agrees_with_size_check (k dr max : N) rest (w : world) :
  (k < 2 ^ 31)%N ->
  hd ESP_OK (tx w) = ESP_OK ->
  rx w = (ESP_OK, "+CDATARATE:" ++ dec k ++ CRLF ++ "OK")%string :: rest ->
  let query := fst (unit_lorawan_get_data_rate_info dr max w) in
  query = (ESP_OK, ((k mod 256)%N,
                    if (k <=? 4)%N then ceiling_of k
                    else UNIT_LORAWAN_US915_MAX_PAYLOAD_DR0)) /\
  ((k < 256)%N ->
   forall length : N,
     _unit_lorawan_validate_payload_size length (fst (snd query)) = ESP_OK
     <-> (length <= snd (snd query))%N).
Proof.
  intros Hk Htx Hrx query. subst query.
  rewrite (get_data_rate_info_reported_any k dr max rest w Hk Htx Hrx).
  split; [reflexivity|]. intros Hb length. cbn [fst snd].
  rewrite (N.mod_small k 256 Hb).
  destruct (N.leb_spec k 4) as [H4|H4].
  - rewrite (validate_payload_size_spec length k H4).
    destruct (N.ltb_spec (ceiling_of k) length); split; intros; try lia; try discriminate;
      reflexivity.
  - rewrite (validate_beyond_table length k H4).
    destruct (N.ltb_spec UNIT_LORAWAN_US915_MAX_PAYLOAD_DR0 length); split; intros;
      try lia; try discriminate; reflexivity.
Qed.

Lemma lookup_agrees_with_size_check_witness :
  fst (unit_lorawan_get_data_rate_info 0 0
         (answering ["+CDATARATE:7" ++ CRLF ++ "OK"]%string)) = (ESP_OK, (7%N, 11%N)) /\
  (_unit_lorawan_validate_payload_size 11 7 = ESP_OK <-> (11 <= 11)%N).
Proof.
  destruct (lookup_agrees_with_size_check 7 0 0 []
              (answering ["+CDATARATE:7" ++ CRLF ++ "OK"]%string)
              ltac:(vm_compute; reflexivity) eq_refl eq_refl) as [H1 H2].
  cbv zeta in H1, H2. split; [rewrite H1; reflexivity|].
  specialize (H2 ltac:(vm_compute; reflexivity) 11%N). rewrite H1 in H2. exact H2.
Defined.

(** X12.  The raw command.  The command is framed like any other (AT+ before,
    CR LF after).  When it is answered at the first poll, the call returns
    ESP_OK and the caller's buffer holds a C string that fits it: the reply
    cut to response_size - 1 characters when the parser captured it (an
    accepted reply with a data-bearing prefix), the empty string otherwise
    -- a bare OK or an ERROR reply leaves an empty buffer. *)
Theorem send_raw_command_fills_buffer (command old text : string)
        (response_size : N) (timeout_ms : Z) rest (w : world) :
  0 < timeout_ms ->
  hd ESP_OK (tx w) = ESP_OK ->
  rx w = (ESP_OK, text) :: rest ->
  text <> EmptyString ->
  (0 < response_size)%N ->
  let run := unit_lorawan_send_raw_command (Some command) (Some old)
                                           response_size timeout_ms w in
  let buffer := if accepted text && has_data_prefix (c_str text)
                then substring 0 (N.to_nat response_size - 1) (c_str text)
                else EmptyString in
  fst run = (ESP_OK, Some buffer) /\
  (String.length buffer < N.to_nat response_size)%nat /\
  written (snd run) = written w ++ [at_frame command].
Proof.
  intros Ht Htx Hrx Hne Hsize run buffer. subst run.
  unfold unit_lorawan_send_raw_command, bind.
  rewrite (send_at_command_replied command response_zero timeout_ms w text rest
             Ht Htx Hrx Hne).
  pose proof (data_seen text Hne) as Hd.
  pose proof (parse_nonempty_ok text response_zero Hne) as Hok.
  destruct (_unit_lorawan_parse_response text response_zero) as [e r].
  cbn [fst snd] in *. subst e. cbn [is_ok ESP_OK Z.eqb andb].
  apply N.ltb_lt in Hsize. rewrite Hsize, Hd. apply N.ltb_lt in Hsize.
  unfold reply_data. fold buffer.
  assert (written (mk_world (clock w + 100) rest (tl (tx w))
                            (trace w ++ [EvFlush; EvWrite (at_frame command);
                                         EvDelay 100; EvRead]) (tasks w))
          = written w ++ [at_frame command]) as Hw.
  { unfold written. cbn [trace]. now rewrite flat_map_app. }
  assert (String.length buffer < N.to_nat response_size)%nat as Hlen.
  { subst buffer. destruct (accepted text && has_data_prefix (c_str text)).
    - pose proof (substring_length_le (c_str text) (N.to_nat response_size - 1)). lia.
    - cbn. lia. }
  subst buffer.
  destruct (accepted text && has_data_prefix (c_str text)); cbn [ret fst snd];
    unfold ret; cbn [fst snd]; auto.
Qed.

Lemma send_raw_command_fills_buffer_witness :
  fst (unit_lorawan_send_raw_command (Some "CGMI?"%string) (Some "stale"%string) 8 5000
         (answering ["+CGMI=ASR6501" ++ CRLF ++ "OK"]%string))
  = (ESP_OK, Some "+CGMI=A"%string) /\
  fst (unit_lorawan_send_raw_command (Some "CSAVE"%string) (Some "stale"%string) 8 5000
         (answering ["OK"]%string))
  = (ESP_OK, Some EmptyString).
Proof.
  split.
  - apply (send_raw_command_fills_buffer "CGMI?" "stale" ("+CGMI=ASR6501" ++ CRLF ++ "OK")
             8 5000 [] (answering ["+CGMI=ASR6501" ++ CRLF ++ "OK"]%string));
      try reflexivity; discriminate.
  - apply (send_raw_command_fills_buffer "CSAVE" "stale" "OK" 8 5000 []
             (answering ["OK"]%string));
      try reflexivity; discriminate.
Defined.

(** X13.  The size window of a send, for every state of the modem and of the
    transport.  A payload longer than 242 bytes is always refused with
    ESP_ERR_INVALID_SIZE once the rate lookup is over, and nothing more is
    written; a payload of 1 to 11 bytes always passes the size check, so the
    DTRX frame with its length and its hex text is the next thing flushed
    and written after the lookup. *)
Theorem send_size_window (message : string) (length stack_dr stack_max : N) (w : world) :
  let lookup := unit_lorawan_get_data_rate_info stack_dr stack_max w in
  let run := unit_lorawan_send (Some message) length stack_dr stack_max w in
  ((242 < length)%N -> run = (ESP_ERR_INVALID_SIZE, snd lookup)) /\
  ((0 < length <= 11)%N ->
   exists evs,
     trace (snd run)
     = trace (snd lookup)
       ++ EvFlush
          :: EvWrite (at_frame ("DTRX=1,2," ++ dec length ++ ","
                                ++ hex_encode (message_bytes message length)))
          :: evs).
Proof.
  intros lookup run. subst lookup run. split.
  - intros H. rewrite send_unfold by lia.
    destruct (unit_lorawan_get_data_rate_info stack_dr stack_max w) as [query w1].
    destruct (validate_result length (rate_in_force query)) as [[E Hle]|E]; [lia|].
    now rewrite E.
  - intros H. rewrite send_unfold by lia.
    destruct (unit_lorawan_get_data_rate_info stack_dr stack_max w) as [query w1].
    rewrite validate_small_payload by (unfold UNIT_LORAWAN_US915_MAX_PAYLOAD_DR0; lia).
    cbn [is_ok ESP_OK Z.eqb snd].
    destruct (send_at_command_first_events
                ("DTRX=1,2," ++ dec length ++ "," ++ hex_encode (message_bytes message length))
                response_zero 30000 w1) as [evs Hevs].
    destruct (_unit_lorawan_send_at_command _ _ _ w1) as [[err r] w2].
    exists evs. exact Hevs.
Qed.

Lemma send_size_window_witness :
  unit_lorawan_send (Some (hex_encode (hex_encode (hex_encode
                             "0123456789012345678901234567890"))))
                    243 0 0 (answering ["+CDATARATE:4" ++ CRLF ++ "OK"]%string)
  = (ESP_ERR_INVALID_SIZE,
     snd (unit_lorawan_get_data_rate_info 0 0
            (answering ["+CDATARATE:4" ++ CRLF ++ "OK"]%string))).
Proof.
  apply (proj1 (send_size_window _ 243 0 0 _)). reflexivity.
Defined.

(* ===================================================================== *)
(** * A send, end to end *)
(* ===================================================================== *)

Section SendEndToEnd.

Lemma get_data_rate_info_fed (k dr max : N) n (w : world) :
  (k <= 4)%N ->
  fed (S n) w ->
  next_reply w = ("+CDATARATE:" ++ dec k ++ CRLF ++ "OK")%string ->
  unit_lorawan_get_data_rate_info dr max w
  = ((ESP_OK, (k, ceiling_of k)), exchanged (at_frame "CDATARATE?") w).
Proof.
  intros Hk H Hreply. destruct (fed_next _ _ H) as (Htx & Hrx & Hne).
  assert (fst (unit_lorawan_get_data_rate_info dr max w) = (ESP_OK, (k, ceiling_of k)))
    as Hq.
  { rewrite Hreply in Hrx. exact (get_data_rate_info_reported k dr max _ w Hk Htx Hrx). }
  assert (snd (unit_lorawan_get_data_rate_info dr max w)
          = exchanged (at_frame "CDATARATE?") w) as Hw.
  { clear Hq. unfold unit_lorawan_get_data_rate_info. unfold bind at 1.
    rewrite (send_at_command_fed _ _ UNIT_LORAWAN_RESPONSE_TIMEOUT_MS n w eq_refl H).
    pose proof (command_data (next_reply w) response_zero Hne) as Hd.
    destruct (_unit_lorawan_parse_response (next_reply w) response_zero) as [e r].
    cbv beta iota in Hd |- *. rewrite Hd, Hreply.
    destruct (numeric_reply "+CDATARATE:" k eq_refl) as (Hc & Hok & Hpos & Hscan).
    cbv zeta in *.
    rewrite reply_data_ok, Hc, Hpos, Hscan; [reflexivity | |].
    - rewrite Hc. exact Hok.
    - rewrite Hc. apply data_prefix_cdatarate. now apply found_of_strstr in Hpos. }
  destruct (unit_lorawan_get_data_rate_info dr max w) as [q w1].
  cbn [fst snd] in *. now subst.
Qed.

Lemma message_bytes_length (message : string) (length : N) :
  (N.to_nat length <= String.length message)%nat ->
  String.length (message_bytes message length) = N.to_nat length.
Proof.
  unfold message_bytes. generalize (N.to_nat length) as n. clear length.
  intros n. revert message. induction n as [|n IH]; intros [|c t] H; cbn in *;
    try reflexivity; try lia.
  rewrite IH by lia. reflexivity.
Qed.

End SendEndToEnd.

(** X14.  A send, end to end.  When the modem answers the rate query at the
    first poll with +CDATARATE:<k> and OK for a rate k up to 4, and then
    answers the data command with any text, a send of 1 to ceiling(k) bytes
    writes two frames -- the query and DTRX=1,2,<length>,<hex> -- and
    returns ESP_OK; the hex text has two digits for each of the first length
    bytes of the message, and decodes back to exactly these bytes. *)
Theorem send_frames_the_payload (message : string) (length k stack_dr stack_max : N)
        (w : world) :
  (k <= 4)%N ->
  (0 < length <= ceiling_of k)%N ->
  (N.to_nat length <= String.length message)%nat ->
  fed 2 w ->
  next_reply w = ("+CDATARATE:" ++ dec k ++ CRLF ++ "OK")%string ->
  let hex := hex_encode (message_bytes message length) in
  unit_lorawan_send (Some message) length stack_dr stack_max w
  = (ESP_OK,
     exchanges [at_frame "CDATARATE?";
                at_frame ("DTRX=1,2," ++ dec length ++ "," ++ hex)] w) /\
  String.length hex = (2 * N.to_nat length)%nat /\
  hex_decode hex = Some (message_bytes message length).
Proof.
  intros Hk Hlen Hbuf H Hreply hex. subst hex.
  split; [|split].
  - rewrite send_unfold by lia.
    rewrite (get_data_rate_info_fed k stack_dr stack_max 1 w Hk H Hreply).
    unfold rate_in_force. cbn [fst snd is_ok ESP_OK Z.eqb].
    rewrite (validate_payload_size_spec length k Hk).
    destruct (N.ltb_spec (ceiling_of k) length); [lia|].
    cbn [is_ok ESP_OK Z.eqb].
    assert (fed 1 (exchanged (at_frame "CDATARATE?") w)) as H1 by now apply fed_exchanged.
    rewrite (send_at_command_fed _ _ 30000 0 _ eq_refl H1).
    destruct (fed_next _ _ H1) as (_ & _ & Hne).
    pose proof (parse_nonempty_ok _ response_zero Hne) as Hok.
    destruct (_unit_lorawan_parse_response _ response_zero) as [e r].
    cbn [fst] in Hok. now subst e.
  - now rewrite hex_encode_length, message_bytes_length.
  - apply hex_decode_encode.
Qed.

Lemma send_frames_the_payload_witness :
  unit_lorawan_send (Some "Hello, gateway"%string) 5 0 0
    (answering ["+CDATARATE:0" ++ CRLF ++ "OK"; "ERROR"]%string)
  = (ESP_OK,
     exchanges [at_frame "CDATARATE?"; at_frame "DTRX=1,2,5,48656C6C6F"]
               (answering ["+CDATARATE:0" ++ CRLF ++ "OK"; "ERROR"]%string)).
Proof.
  apply (send_frames_the_payload "Hello, gateway" 5 0 0 0);
    [lia | split; [reflexivity | vm_compute; discriminate] | cbn; lia | | reflexivity].
  split; [reflexivity|]. split; [cbn; lia|].
  repeat (constructor; [split; [reflexivity | discriminate]|]). constructor.
Defined.

(* ===================================================================== *)
(** * Setters, initialisation, and two tables *)
(* ===================================================================== *)

Section Setters.

(** An operation that returns the status of its one command. *)
Lemma command_status_fed cmd timeout_ms n w :
  0 < timeout_ms -> fed (S n) w ->
  ('(err, _) <- _unit_lorawan_send_at_command cmd response_zero timeout_ms ;; ret err) w
  = (ESP_OK, exchanged (at_frame cmd) w).
Proof.
  intros Ht H. unfold bind. rewrite (send_at_command_fed cmd _ timeout_ms n w Ht H).
  destruct (fed_next _ _ H) as (_ & _ & Hne).
  pose proof (parse_nonempty_ok (next_reply w) response_zero Hne) as Hok.
  destruct (_unit_lorawan_parse_response _ _) as [e r]. cbn [fst] in Hok. now subst e.
Qed.

Lemma dec_length_digit (n : N) : (n <= 9)%N -> String.length (dec n) = 1%nat.
Proof.
  intros H. rewrite <- (N2Nat.id n).
  assert (N.to_nat n < 10)%nat as Hk by lia. revert Hk.
  generalize (N.to_nat n) as k. intros k Hk.
  do 10 (destruct k as [|k]; [reflexivity|]). lia.
Qed.

Lemma log_fed level n w :
  fed (S n) w ->
  unit_lorawan_log level w
  = (ESP_OK, exchanged (at_frame ("ILOGLVL=" ++ dec (N.min level 5))) w).
Proof.
  intros H. unfold unit_lorawan_log, UNIT_LORAWAN_LOG_LEVEL_MAX.
  assert ((if (5 <? level)%N then 5%N else level) = N.min level 5) as ->.
  { destruct (N.ltb_spec 5 level); lia. }
  rewrite snprintf_fits
    by (rewrite string_length_app, dec_length_digit by lia; cbn; lia).
  now apply (command_status_fed _ _ n).
Qed.

Lemma reboot_fed n w :
  fed (S n) w ->
  unit_lorawan_reboot w
  = (ESP_OK, snd (vTaskDelay 2000 (exchanged (at_frame "IREBOOT=0") w))).
Proof.
  intros H. unfold unit_lorawan_reboot. unfold bind at 1.
  rewrite (send_at_command_fed _ _ UNIT_LORAWAN_RESPONSE_TIMEOUT_MS n w eq_refl H).
  destruct (fed_next _ _ H) as (_ & _ & Hne).
  pose proof (parse_nonempty_ok (next_reply w) response_zero Hne) as Hok.
  destruct (_unit_lorawan_parse_response _ _) as [e r]. cbn [fst] in Hok. now subst e.
Qed.

Lemma fed_flushed n w : fed n w -> fed n (flushed w).
Proof. intros H. exact H. Qed.

Lemma init_fed n w :
  fed (4 + n) w ->
  attached_of_reply (next_reply w) = true ->
  unit_lorawan_init ESP_OK w
  = (ESP_OK,
     snd (vTaskDelay 2000
            (exchanges (map at_frame ["CGMI?"; "ILOGLVL=1"; "CSAVE"; "IREBOOT=0"]%string)
                       (flushed w)))).
Proof.
  intros H Hatt. unfold unit_lorawan_init. cbn [is_ok ESP_OK Z.eqb negb].
  unfold bind at 1. fold (flushed w).
  change (core2foraws_expports_uart_read_flush w) with (tt, flushed w).
  assert (fed (4 + n) (flushed w)) as H0 by exact H.
  assert (next_reply (flushed w) = next_reply w) as Hn by reflexivity.
  unfold bind at 1. rewrite (attached_fed (3 + n) _ H0), Hn, Hatt.
  cbn [is_ok ESP_OK Z.eqb negb orb].
  assert (fed (3 + n) (exchanged (at_frame "CGMI?") (flushed w))) as H1
    by now apply fed_exchanged.
  unfold bind at 1. rewrite (log_fed 1 (2 + n) _ H1).
  assert (fed (2 + n) (exchanged (at_frame ("ILOGLVL=" ++ dec (N.min 1 5)))
                                 (exchanged (at_frame "CGMI?") (flushed w)))) as H2
    by now apply fed_exchanged.
  unfold bind at 1.
  rewrite (send_at_command_fed _ _ UNIT_LORAWAN_RESPONSE_TIMEOUT_MS (1 + n) _ eq_refl H2).
  assert (fed (1 + n) (exchanged (at_frame "CSAVE")
                         (exchanged (at_frame ("ILOGLVL=" ++ dec (N.min 1 5)))
                            (exchanged (at_frame "CGMI?") (flushed w))))) as H3
    by now apply fed_exchanged.
  unfold bind at 1. rewrite (reboot_fed n _ H3). reflexivity.
Qed.

Lemma init_status (w : world) :
  fst (unit_lorawan_init ESP_OK w)
  = if is_ok (fst (fst (unit_lorawan_attached (flushed w))))
       && snd (fst (unit_lorawan_attached (flushed w)))
    then ESP_OK else ESP_FAIL.
Proof.
  unfold unit_lorawan_init. cbn [is_ok ESP_OK Z.eqb negb].
  unfold bind at 1. change (core2foraws_expports_uart_read_flush w) with (tt, flushed w).
  unfold bind at 1.
  destruct (unit_lorawan_attached (flushed w)) as [[err attached] w1]. cbn [fst snd].
  destruct (is_ok err), attached; cbn [negb orb andb]; try reflexivity.
  unfold bind.
  destruct (unit_lorawan_log 1 w1) as [e1 w2].
  destruct (_unit_lorawan_send_at_command _ _ _ w2) as [[e2 r2] w3].
  destruct (unit_lorawan_reboot w3) as [e3 w4]. reflexivity.
Qed.

End Setters.

(** X15.  The status of a setter tells that the modem answered, not that it
    agreed.  Against a transport that accepts the write and brings a reply
    at the first poll -- any non-empty text, an ERROR reply included -- save,
    restore, join, the log level, and the range-checked setters called with
    arguments in range each write their one frame and return ESP_OK; reboot
    does the same and then waits 2 s. *)
Theorem setters_acknowledge_any_reply (w : world) :
  fed 1 w ->
  unit_lorawan_save_config w = (ESP_OK, exchanged (at_frame "CSAVE") w) /\
  unit_lorawan_restore_defaults w = (ESP_OK, exchanged (at_frame "CRESTORE") w) /\
  unit_lorawan_join w = (ESP_OK, exchanged (at_frame "CJOIN=1,1,10,8") w) /\
  (forall level,
      unit_lorawan_log level w
      = (ESP_OK, exchanged (at_frame ("ILOGLVL=" ++ dec (N.min level 5))) w)) /\
  (forall data_rate, (data_rate <= 4)%N ->
      unit_lorawan_set_data_rate data_rate w
      = (ESP_OK, exchanged (at_frame ("CDATARATE=" ++ dec data_rate)) w)) /\
  (forall message_type retries, (message_type <= 1)%N -> (1 <= retries <= 15)%N ->
      unit_lorawan_set_retries message_type retries w
      = (ESP_OK, exchanged (at_frame ("CNBTRIALS=" ++ dec message_type ++ ","
                                      ++ dec retries)) w)) /\
  (forall power_index, (power_index <= 7)%N ->
      unit_lorawan_set_tx_power power_index w
      = (ESP_OK, exchanged (at_frame ("CTXP=" ++ dec power_index)) w)) /\
  (forall mode, (mode <= 2)%N ->
      unit_lorawan_link_check mode w
      = (ESP_OK, exchanged (at_frame ("CLINKCHECK=" ++ dec mode)) w)) /\
  unit_lorawan_reboot w
  = (ESP_OK, snd (vTaskDelay 2000 (exchanged (at_frame "IREBOOT=0") w))).
Proof.
  intros H.
  split; [now apply (command_status_fed _ _ 0)|].
  split; [now apply (command_status_fed _ _ 0)|].
  split; [now apply (join_fed 0)|].
  split; [intros level; now apply (log_fed level 0)|].
  split.
  { intros data_rate Hr. unfold unit_lorawan_set_data_rate, UNIT_LORAWAN_US915_DATA_RATE_MAX.
    destruct (N.ltb_spec 4 data_rate); [lia|].
    rewrite snprintf_fits
      by (rewrite string_length_app, dec_length_digit by lia; cbn; lia).
    now apply (command_status_fed _ _ 0). }
  split.
  { intros message_type retries Hm Hr. unfold unit_lorawan_set_retries.
    destruct (N.ltb_spec 1 message_type); [lia|].
    destruct (N.ltb_spec retries 1); [lia|].
    destruct (N.ltb_spec 15 retries); [lia|]. cbn [orb].
    rewrite snprintf_fits.
    - now apply (command_status_fed _ _ 0).
    - rewrite !string_length_app, dec_length_digit by lia.
      pose proof (dec_length_small retries ltac:(lia)). cbn. lia. }
  split.
  { intros power_index Hr. unfold unit_lorawan_set_tx_power.
    destruct (N.ltb_spec 7 power_index); [lia|].
    rewrite snprintf_fits
      by (rewrite string_length_app, dec_length_digit by lia; cbn; lia).
    now apply (command_status_fed _ _ 0). }
  split.
  { intros mode Hr. unfold unit_lorawan_link_check.
    destruct (N.ltb_spec 2 mode); [lia|].
    rewrite snprintf_fits
      by (rewrite string_length_app, dec_length_digit by lia; cbn; lia).
    apply (command_status_fed _ _ 0); [|exact H]. now destruct (mode =? 1)%N. }
  now apply (reboot_fed 0).
Qed.

Lemma setters_acknowledge_any_reply_witness :
  fst (unit_lorawan_set_tx_power 7 (answering ["+CME ERROR:1"]%string)) = ESP_OK /\
  written (snd (unit_lorawan_set_tx_power 7 (answering ["+CME ERROR:1"]%string)))
  = [at_frame "CTXP=7"] /\
  clock (snd (unit_lorawan_reboot (answering ["ERROR"]%string))) = 2100.
Proof.
  assert (forall text, text <> EmptyString -> fed 1 (answering [text])) as Hf.
  { intros text Hne. split; [reflexivity|]. split; [cbn; lia|].
    constructor; [split; [reflexivity | exact Hne] | constructor]. }
  destruct (setters_acknowledge_any_reply (answering ["+CME ERROR:1"]%string)
              (Hf "+CME ERROR:1"%string ltac:(discriminate))) as (_ & _ & _ & _ & _ & _ & Hp & _).
  destruct (setters_acknowledge_any_reply (answering ["ERROR"]%string)
              (Hf "ERROR"%string ltac:(discriminate))) as (_ & _ & _ & _ & _ & _ & _ & _ & Hr).
  rewrite (Hp 7%N ltac:(lia)), Hr.
  split; [reflexivity | split; reflexivity].
Defined.

(** X16.  Initialisation.  A failure to open the port is returned as it is,
    with nothing sent.  Otherwise the status depends on the attachment probe
    alone: ESP_OK when the probe (made after a flush) returns ESP_OK and
    true, ESP_FAIL when it does not, whatever becomes of the log level, the
    save and the reboot that follow.  Against a modem that identifies itself
    and answers each command at the first poll, the four frames are the
    probe, ILOGLVL=1, CSAVE and IREBOOT=0, and the call ends with the 2 s
    wait for the reboot. *)
Theorem init_depends_on_probe_alone (uart_begin : esp_err_t) (w : world) :
  (uart_begin <> ESP_OK -> unit_lorawan_init uart_begin w = (uart_begin, w)) /\
  fst (unit_lorawan_init ESP_OK w)
  = (if is_ok (fst (fst (unit_lorawan_attached (flushed w))))
        && snd (fst (unit_lorawan_attached (flushed w)))
     then ESP_OK else ESP_FAIL) /\
  (fed 4 w -> attached_of_reply (next_reply w) = true ->
   unit_lorawan_init ESP_OK w
   = (ESP_OK,
      snd (vTaskDelay 2000
             (exchanges (map at_frame ["CGMI?"; "ILOGLVL=1"; "CSAVE"; "IREBOOT=0"]%string)
                        (flushed w))))).
Proof.
  split; [|split].
  - intros H. unfold unit_lorawan_init, is_ok.
    destruct (Z.eqb_spec uart_begin ESP_OK); [contradiction | reflexivity].
  - apply init_status.
  - apply (init_fed 0).
Qed.

Lemma init_depends_on_probe_alone_witness :
  unit_lorawan_init ESP_ERR_NO_MEM world0 = (ESP_ERR_NO_MEM, world0) /\
  fst (unit_lorawan_init ESP_OK
         (answering ["+CGMI=ASR" ++ CRLF ++ "OK"; "ERROR"; "ERROR"; "ERROR"]%string))
  = ESP_OK.
Proof.
  split.
  - apply (proj1 (init_depends_on_probe_alone ESP_ERR_NO_MEM world0)). discriminate.
  - rewrite (proj2 (proj2 (init_depends_on_probe_alone ESP_OK
               (answering ["+CGMI=ASR" ++ CRLF ++ "OK"; "ERROR"; "ERROR"; "ERROR"]%string)))).
    + reflexivity.
    + split; [reflexivity|]. split; [cbn; lia|].
      repeat (constructor; [split; [reflexivity | discriminate]|]). constructor.
    + reflexivity.
Defined.

(** X17.  The channel mask of a sub-band.  For the sub-bands 1 to 8 the mask is
    the four-digit hexadecimal of the single bit sub_band - 1, so that
    different sub-bands get different masks; any other number gets the mask
    of sub-band 2. *)
Theorem sub_band_mask_is_one_bit (sub_band sub_band' : N) :
  ((1 <= sub_band <= 8)%N ->
   _get_us915_sub_band_mask sub_band = hex4 (2 ^ (sub_band - 1))) /\
  ((1 <= sub_band <= 8)%N -> (1 <= sub_band' <= 8)%N ->
   _get_us915_sub_band_mask sub_band = _get_us915_sub_band_mask sub_band' ->
   sub_band = sub_band') /\
  ((sub_band < 1)%N \/ (8 < sub_band)%N ->
   _get_us915_sub_band_mask sub_band = _get_us915_sub_band_mask 2).
Proof.
  split; [|split].
  - intros H.
    assert (sub_band = 1 \/ sub_band = 2 \/ sub_band = 3 \/ sub_band = 4
            \/ sub_band = 5 \/ sub_band = 6 \/ sub_band = 7 \/ sub_band = 8)%N
      as [->|[->|[->|[->|[->|[->|[->| ->]]]]]]] by lia; reflexivity.
  - intros H H'.
    assert (sub_band = 1 \/ sub_band = 2 \/ sub_band = 3 \/ sub_band = 4
            \/ sub_band = 5 \/ sub_band = 6 \/ sub_band = 7 \/ sub_band = 8)%N
      as [->|[->|[->|[->|[->|[->|[->| ->]]]]]]] by lia;
    assert (sub_band' = 1 \/ sub_band' = 2 \/ sub_band' = 3 \/ sub_band' = 4
            \/ sub_band' = 5 \/ sub_band' = 6 \/ sub_band' = 7 \/ sub_band' = 8)%N
      as [->|[->|[->|[->|[->|[->|[->| ->]]]]]]] by lia;
    intros E; (reflexivity || discriminate E).
  - intros [H|H].
    + assert (sub_band = 0%N) as -> by lia. reflexivity.
    + unfold _get_us915_sub_band_mask.
      repeat match goal with
             | |- context [match ?x with _ => _ end] => is_var x; destruct x
             end; first [reflexivity | lia].
Qed.

Lemma sub_band_mask_is_one_bit_witness :
  _get_us915_sub_band_mask 6 = "0020"%string.
Proof.
  rewrite (proj1 (sub_band_mask_is_one_bit 6 6)) by lia. reflexivity.
Defined.

(* ===================================================================== *)
(** * Time spent sleeping *)
(* ===================================================================== *)

Section Sleep.

Lemma send_attempt_clock retry at_cmd response timeout_ms w :
  0 <= timeout_ms <= 2 ^ 32 - 50 ->
  clock w <= clock (snd (send_attempt retry at_cmd response timeout_ms w))
  <= clock w + (if (0 <? retry)%nat then 500 else 0) + 100
     + 50 * Z.of_nat (poll_budget timeout_ms).
Proof.
  intros Ht. destruct (is_ok (hd ESP_OK (tx w))) eqn:Htx.
  - rewrite (send_attempt_accepted retry at_cmd response timeout_ms w Ht Htx).
    destruct (first_data (poll_budget timeout_ms) (rx w)) as [[k bytes]|] eqn:E.
    + apply first_data_lt in E. unfold after_write. cbn [snd clock].
      destruct (0 <? retry)%nat; lia.
    + unfold after_write. cbn [snd clock]. destruct (0 <? retry)%nat; lia.
  - rewrite (send_attempt_refused retry at_cmd response timeout_ms w Htx).
    unfold after_write. cbn [snd clock]. destruct (0 <? retry)%nat; lia.
Qed.

Lemma send_at_command_clock cmd response timeout_ms w :
  0 <= timeout_ms <= 2 ^ 32 - 50 ->
  clock w <= clock (snd (_unit_lorawan_send_at_command cmd response timeout_ms w))
  <= clock w + 1000 + 3 * (100 + 50 * Z.of_nat (poll_budget timeout_ms)).
Proof.
  intros Ht. rewrite send_at_command_unrolled. cbv zeta.
  pose proof (send_attempt_clock 0 (at_frame cmd) response timeout_ms w Ht) as B1.
  destruct (send_attempt 0 (at_frame cmd) response timeout_ms w) as [[c1 [e1 r1]] w1].
  cbn [fst snd Nat.ltb Nat.leb] in *.
  destruct (is_ok e1); [cbn [snd]; lia|].
  pose proof (send_attempt_clock 1 (at_frame cmd) r1 timeout_ms w1 Ht) as B2.
  destruct (send_attempt 1 (at_frame cmd) r1 timeout_ms w1) as [[c2 [e2 r2]] w2].
  cbn [fst snd Nat.ltb Nat.leb] in *.
  destruct (is_ok e2); [cbn [snd]; lia|].
  pose proof (send_attempt_clock 2 (at_frame cmd) r2 timeout_ms w2 Ht) as B3.
  destruct (send_attempt 2 (at_frame cmd) r2 timeout_ms w2) as [[c3 [e3 r3]] w3].
  cbn [fst snd Nat.ltb Nat.leb] in *. lia.
Qed.

Lemma connected_clock w :
  clock w <= clock (snd (unit_lorawan_connected w)) <= clock w + 16300.
Proof.
  pose proof (send_at_command_clock "CSTATUS?" response_zero
                UNIT_LORAWAN_RESPONSE_TIMEOUT_MS w ltac:(vm_compute; split; discriminate))
    as B.
  change (Z.of_nat (poll_budget UNIT_LORAWAN_RESPONSE_TIMEOUT_MS)) with 100 in B.
  unfold unit_lorawan_connected, bind.
  destruct (_unit_lorawan_send_at_command _ _ _ w) as [[err r] w1].
  unfold ret. cbn [snd] in *. lia.
Qed.

Lemma polls_clock n w joined w1 :
  polls n w joined w1 ->
  clock w + 1000 * Z.of_nat n <= clock w1 <= clock w + 17300 * Z.of_nat n /\
  (joined = true -> (1 <= n)%nat).
Proof.
  induction 1 as [w | w w1 E | n w err state w1 joined w2 E Hs P IH].
  - split; [lia | discriminate].
  - pose proof (connected_clock (nap w)) as B. rewrite E in B. cbn [snd] in B.
    change (clock (nap w)) with (clock w + 1000) in B. split; [lia|]. intros _. lia.
  - pose proof (connected_clock (nap w)) as B. rewrite E in B. cbn [snd] in B.
    change (clock (nap w)) with (clock w + 1000) in B. split; [lia|]. intros _. lia.
Qed.

Lemma join_monitor_outcome (monitor_params : join_monitor_params_t) (w : world) :
  exists n joined w1,
    polls n w joined w1 /\
    (n <= N.to_nat (timeout_sec monitor_params))%nat /\
    (joined = false -> n = N.to_nat (timeout_sec monitor_params)) /\
    snd (ttn_join_monitor_task monitor_params w)
    = with_tasks w1
        (tasks w ++ [CallbackCall (callback monitor_params) joined
                                  (if joined then 0%N else 1%N)
                                  (user_data monitor_params);
                     ParamsFree; TaskDelete]).
Proof.
  destruct (monitor_loop_spec monitor_params (N.to_nat (timeout_sec monitor_params)) w)
    as (n & joined & w1 & P & Hn & Hj & K & R).
  exists n, joined, w1. split; [exact P|]. split; [exact Hn|]. split; [exact Hj|].
  unfold ttn_join_monitor_task. unfold bind at 1. rewrite R.
  destruct joined; unfold bind, log_task, ret, with_tasks; cbn [negb snd clock rx tx trace tasks];
    rewrite <- ?app_assoc; try rewrite K; reflexivity.
Qed.

End Sleep.

(** X18.  The time a command spends sleeping is bounded, whatever the modem
    and the transport do: for a timeout of at most 2^32 - 50 ms it is at
    most three attempts of 100 ms settle delay and one poll budget of 50 ms
    naps each, and the two 500 ms back-off naps -- 16.3 s for the driver's
    5 s timeout -- and the clock never runs backwards. *)
Theorem command_sleep_is_bounded cmd response (timeout_ms : Z) (w : world) :
  0 <= timeout_ms <= 2 ^ 32 - 50 ->
  clock w <= clock (snd (_unit_lorawan_send_at_command cmd response timeout_ms w))
  <= clock w + 1000 + 3 * (100 + 50 * Z.of_nat (poll_budget timeout_ms)).
Proof. exact (send_at_command_clock cmd response timeout_ms w). Qed.

Lemma command_sleep_is_bounded_witness :
  clock (snd (_unit_lorawan_send_at_command "CSTATUS?" response_zero 5000 world0)) <= 16300.
Proof.
  pose proof (command_sleep_is_bounded "CSTATUS?" response_zero 5000 world0
                ltac:(vm_compute; split; discriminate)) as B.
  change (Z.of_nat (poll_budget 5000)) with 100 in B.
  change (clock world0) with 0 in B. lia.
Defined.

(** X19.  The join watcher is neither early nor endless.  It reports a timeout
    (joined = false, error 1) only after all timeout_sec polls, that is no
    sooner than timeout_sec seconds of sleep after it started; it reports a
    join only after at least one poll, no sooner than one second; and in
    both cases it has slept at most 17.3 s per poll made (the one-second nap
    and a connected check of at most 16.3 s). *)
Theorem join_watcher_time_window (monitor_params : join_monitor_params_t) (w : world) :
  let w' := snd (ttn_join_monitor_task monitor_params w) in
  let T := Z.of_N (timeout_sec monitor_params) in
  exists joined,
    tasks w' = tasks w ++ [CallbackCall (callback monitor_params) joined
                                        (if joined then 0%N else 1%N)
                                        (user_data monitor_params);
                           ParamsFree; TaskDelete] /\
    (joined = false -> clock w + 1000 * T <= clock w') /\
    (joined = true -> clock w + 1000 <= clock w' /\ 1 <= T) /\
    clock w' <= clock w + 17300 * T.
Proof.
  intros w' T. subst w' T.
  destruct (join_monitor_outcome monitor_params w) as (n & joined & w1 & P & Hn & Hj & R).
  destruct (polls_clock _ _ _ _ P) as [B Hpos].
  exists joined. rewrite R, tasks_with_tasks, clock_with_tasks.
  split; [reflexivity|]. split; [|split].
  - intros H. specialize (Hj H). lia.
  - intros H. specialize (Hpos H). lia.
  - lia.
Qed.

(** A silent modem and a budget of two polls: the timeout is reported after
    34.6 s of sleep, within the window. *)
Lemma join_watcher_time_window_witness :
  2000 <= clock (snd (ttn_join_monitor_task (mk_params 1 0 2) world0)) <= 34600.
Proof.
  destruct (join_watcher_time_window (mk_params 1 0 2) world0)
    as (joined & Ht & Hf & _ & Hu).
  cbv zeta in *.
  assert (tasks (snd (ttn_join_monitor_task (mk_params 1 0 2) world0))
          = [CallbackCall 1 false 1 0; ParamsFree; TaskDelete]) as E
    by (vm_compute; reflexivity).
  rewrite E in Ht. destruct joined; [discriminate Ht|].
  specialize (Hf eq_refl). cbn [timeout_sec clock world0] in *.
  change (clock world0) with 0 in *. lia.
Defined.

(* ===================================================================== *)
(** * The channel RSSI scan *)
(* ===================================================================== *)

Section Rssi.

Lemma scan_digits_rest_stop (acc : Z) (rest : string) :
  starts_with_digit rest = false -> scan_digits_rest acc rest = (acc, rest).
Proof.
  destruct rest as [|c t]; [reflexivity|]. cbn. now destruct (digit_of c).
Qed.

Lemma scan_digits_rest_uint (u : Decimal.uint) : forall (acc : Z) (rest : string),
  scan_digits_rest acc (NilEmpty.string_of_uint u ++ rest)
  = scan_digits_rest (uint_value acc u) rest.
Proof.
  induction u as [|u IH|u IH|u IH|u IH|u IH|u IH|u IH|u IH|u IH|u IH]; intros acc rest;
    [reflexivity|..];
    cbn [NilEmpty.string_of_uint append scan_digits_rest uint_value];
    match goal with
    | |- context [digit_of ?c] =>
        let d := eval vm_compute in (digit_of c) in
        change (digit_of c) with d
    end; cbv iota; rewrite IH; f_equal; f_equal; lia.
Qed.

Lemma scan_digits_rest_dec (n : N) (rest : string) :
  starts_with_digit rest = false ->
  scan_digits_rest 0 (dec n ++ rest) = (Z.of_N n, rest).
Proof.
  intros H. unfold dec.
  now rewrite scan_digits_rest_uint, (scan_digits_rest_stop _ _ H), to_uint_value.
Qed.

Lemma scan_digits_dec (n : N) (rest : string) :
  starts_with_digit rest = false -> scan_digits 0 (dec n ++ rest) = Z.of_N n.
Proof.
  intros H. unfold dec.
  now rewrite scan_digits_uint, (scan_digits_stop _ _ H), to_uint_value.
Qed.

(** The first character of a printed number: a digit, so neither white
    space nor a sign. *)
Lemma dec_head (n : N) :
  exists c t, dec n = String c t /\ starts_with_digit (String c t) = true /\
              isspace c = false /\ c <> "-"%char /\ c <> "+"%char.
Proof.
  destruct (to_uint_digits n) as (c & t & E & d & Hd). exists c, t.
  split; [exact E|]. split; [cbn; now rewrite Hd|].
  unfold digit_of in Hd.
  destruct ((48 <=? N_of_ascii c) && (N_of_ascii c <=? 57))%N eqn:B; [|discriminate].
  apply andb_true_iff in B. destruct B as [B1 B2]. apply N.leb_le in B1, B2.
  split; [|split].
  - unfold isspace.
    destruct (N.eqb_spec (N_of_ascii c) 32); [lia|].
    destruct (N.leb_spec 9 (N_of_ascii c)); destruct (N.leb_spec (N_of_ascii c) 13);
      cbn; try reflexivity; lia.
  - intros ->. cbn in B1. lia.
  - intros ->. cbn in B1. lia.
Qed.

Lemma scan_d_rest_dec (n : N) (rest : string) :
  starts_with_digit rest = false ->
  scan_d_rest (dec n ++ rest) = Some (clamp_int (Z.of_N n), rest).
Proof.
  intros Hrest. pose proof (scan_digits_rest_dec n rest Hrest) as Hs.
  destruct (dec_head n) as (c & t & E & Hd & Hsp & Hm & Hp).
  rewrite E in *. unfold scan_d_rest. cbn [append skip_space]. rewrite Hsp.
  assert (starts_with_digit (String c (t ++ rest)) = true) as Hsd by exact Hd.
  cbn [append] in Hs.
  destruct c as [[] [] [] [] [] [] [] []]; try (exfalso; now (apply Hm || apply Hp));
    rewrite Hsd, Hs; reflexivity.
Qed.

Lemma scan_d_dec_int (z : Z) (rest : string) :
  starts_with_digit rest = false ->
  scan_d (dec_int z ++ rest) = Some (clamp_int z).
Proof.
  intros Hrest. unfold dec_int. destruct (Z.ltb_spec z 0) as [Hneg|Hpos].
  - destruct (dec_head (Z.to_N (- z))) as (c & t & E & Hd & _).
    unfold scan_d. cbn [append skip_space].
    change (isspace "-") with false. cbv iota.
    assert (starts_with_digit (dec (Z.to_N (- z)) ++ rest) = true) as ->
      by (rewrite E; exact Hd).
    rewrite (scan_digits_dec _ _ Hrest). do 2 f_equal. lia.
  - rewrite (scan_d_dec _ _ Hrest). do 2 f_equal. lia.
Qed.


Lemma string_app_assoc (a b c : string) :
  ((a ++ b) ++ c)%string = (a ++ b ++ c)%string.
Proof. induction a as [|x a IH]; cbn; [reflexivity | now rewrite IH]. Qed.

Lemma strchr_app (a b : string) (c : ascii) :
  lacks c a = true -> strchr (a ++ b) c = strchr b c.
Proof.
  unfold lacks. induction a as [|x a IH]; cbn; [reflexivity|].
  destruct (Ascii.eqb x c); cbn; [discriminate | exact IH].
Qed.

Lemma dec_lacks_newline (n : N) : lacks newline (dec n) = true.
Proof. unfold dec, lacks. induction (N.to_uint n); cbn; auto. Qed.

Lemma dec_int_lacks_newline (z : Z) : lacks newline (dec_int z) = true.
Proof.
  unfold dec_int. destruct (z <? 0)%Z; [|apply dec_lacks_newline].
  unfold lacks. cbn. apply dec_lacks_newline.
Qed.

Lemma dec_int_no_nul (z : Z) : no_nul (dec_int z) = true.
Proof.
  unfold dec_int. destruct (z <? 0)%Z; [|apply dec_no_nul].
  unfold no_nul. cbn. apply dec_no_nul.
Qed.

Lemma no_nul_app (a b : string) : no_nul a = true -> no_nul b = true -> no_nul (a ++ b) = true.
Proof. unfold no_nul. intros Ha Hb. now rewrite string_forallb_app, Ha, Hb. Qed.

Lemma c_str_no_nul (s : string) : no_nul s = true -> c_str s = s.
Proof.
  unfold no_nul. induction s as [|c s IH]; cbn; [reflexivity|].
  destruct (Ascii.eqb c zero); cbn; [discriminate|]. intros H. now rewrite IH.
Qed.

Lemma strchr_shorter (s pos : string) (c : ascii) :
  strchr s c = Some pos -> (0 < String.length pos <= String.length s)%nat.
Proof.
  revert pos. induction s as [|x s IH]; intros pos; cbn; [discriminate|].
  destruct (Ascii.eqb x c).
  - intros E. injection E as <-. cbn. lia.
  - intros E. apply IH in E. lia.
Qed.

Lemma next_line_shorter (line next : string) :
  next_line line = Some next -> (String.length next < String.length line)%nat.
Proof.
  unfold next_line. destruct (strchr line newline) as [[|x t]|] eqn:E; try discriminate.
  intros E'. injection E' as <-. apply strchr_shorter in E. cbn in E. lia.
Qed.

(** The text bounds the number of turns of the loop. *)
Lemma rssi_loop_fuel_suffices (fuel : nat) : forall line count rssi_values,
  (match line with Some l => String.length l < fuel | None => True end)%nat ->
  rssi_loop fuel line count rssi_values <> None.
Proof.
  induction fuel as [|fuel IH]; intros [l|] count rssi_values H; cbn [rssi_loop];
    try discriminate; [lia|].
  destruct (count <? 8)%nat; [|discriminate].
  destruct (match sscanf_d_colon_d l with
            | Some (channel, rssi_val) => _
            | None => _
            end) as [count' values'].
  apply IH. destruct (next_line l) as [next|] eqn:E; [|exact I].
  apply next_line_shorter in E. lia.
Qed.

Lemma array_set_length (values : list Z) : forall i v,
  List.length (array_set values i v) = List.length values.
Proof.
  induction values as [|x t IH]; intros [|j] v; cbn; auto.
Qed.

Lemma array_set_skipn (values : list Z) : forall i v k,
  (i < k)%nat -> skipn k (array_set values i v) = skipn k values.
Proof.
  induction values as [|x t IH]; intros [|j] v [|k] H; cbn; try reflexivity; try lia.
  apply IH. lia.
Qed.

(** What the loop does to the caller's array and to the count, whatever
    the text. *)
Lemma rssi_loop_bounds (fuel : nat) : forall line count rssi_values count' values',
  (count <= 8)%nat ->
  rssi_loop fuel line count rssi_values = Some (count', values') ->
  (count <= count' <= 8)%nat /\
  List.length values' = List.length rssi_values /\
  skipn 8 values' = skipn 8 rssi_values /\
  firstn count values' = firstn count rssi_values.
Proof.
  induction fuel as [|fuel IH]; intros [l|] count rssi_values count' values' Hc;
    cbn [rssi_loop].
  - destruct (count <? 8)%nat; [discriminate|]. intros E. injection E as <- <-.
    repeat split; lia.
  - intros E. injection E as <- <-. repeat split; lia.
  - destruct (Nat.ltb_spec count 8) as [Hlt|Hge].
    + destruct (match sscanf_d_colon_d l with
                | Some (channel, rssi_val) => _
                | None => _
                end) as [c1 v1] eqn:Estep.
      assert ((count <= c1 <= 8)%nat /\ List.length v1 = List.length rssi_values /\
              skipn 8 v1 = skipn 8 rssi_values /\
              firstn count v1 = firstn count rssi_values) as (A & B & C & D).
      { destruct (sscanf_d_colon_d l) as [[channel rssi_val]|].
        - destruct ((0 <=? channel)%Z && (channel <=? 7)%Z
                    && (channel =? Z.of_nat count)%Z);
            injection Estep as <- <-.
          + split; [lia|]. split; [apply array_set_length|].
            split; [apply array_set_skipn; lia|].
            clear. revert count. induction rssi_values as [|x t IHt]; intros [|j]; cbn;
              try reflexivity. now rewrite IHt.
          + repeat split; lia.
        - injection Estep as <- <-. repeat split; lia. }
      intros E. apply IH in E; [|lia]. destruct E as (A' & B' & C' & D').
      split; [lia|]. split; [congruence|]. split; [congruence|].
      rewrite <- D.
      assert (firstn count (firstn c1 values') = firstn count (firstn c1 v1)) as F
        by now rewrite D'.
      rewrite !firstn_firstn in F. now rewrite !Nat.min_l in F by lia.
    + intros E. injection E as <- <-. repeat split; lia.
  - intros E. injection E as <- <-. repeat split; lia.
Qed.

Lemma rssi_replied (freq_band_idx : N) (values : list Z) (old_count : N)
      (text : string) rest (w : world) :
  hd ESP_OK (tx w) = ESP_OK ->
  rx w = (ESP_OK, text) :: rest ->
  text <> EmptyString ->
  fst (unit_lorawan_get_channel_rssi freq_band_idx (Some values) (Some old_count) w)
  = match reply_data text with
    | Some data =>
        match strstr (c_str data) "+CRSSI:" with
        | Some line_start =>
            match rssi_loop (S (String.length line_start)) (next_line line_start)
                            0 values with
            | Some (count, values') => (ESP_OK, (Some values', Some (N.of_nat count)))
            | None => (ESP_OK, (Some values, Some old_count))
            end
        | None => (ESP_FAIL, (Some values, Some old_count))
        end
    | None => (ESP_OK, (Some values, Some old_count))
    end.
Proof.
  intros Htx Hrx Hne. unfold unit_lorawan_get_channel_rssi, bind.
  rewrite (send_at_command_replied _ response_zero
             UNIT_LORAWAN_RESPONSE_TIMEOUT_MS w text rest eq_refl Htx Hrx Hne).
  pose proof (command_data text response_zero Hne) as Hd.
  pose proof (parse_nonempty_ok text response_zero Hne) as Hok.
  destruct (_unit_lorawan_parse_response text response_zero) as [e r].
  cbn [fst] in Hok. subst e. rewrite Hd. unfold ret.
  destruct (reply_data text) as [data|]; [|reflexivity].
  destruct (strstr (c_str data) "+CRSSI:") as [line_start|]; [|reflexivity].
  destruct (rssi_loop _ _ _ _) as [[count values']|]; reflexivity.
Qed.

Lemma array_fill_length levels : forall values channel,
  List.length (array_fill values channel levels) = List.length values.
Proof.
  induction levels as [|v vs IH]; intros values channel; cbn [array_fill]; [reflexivity|].
  now rewrite IH, array_set_length.
Qed.

Lemma array_set_app (done : list Z) (x : Z) (todo : list Z) (v : Z) :
  array_set (done ++ x :: todo) (List.length done) v = done ++ v :: todo.
Proof. induction done as [|d done IH]; cbn; [reflexivity | now rewrite IH]. Qed.

Lemma array_fill_app levels : forall (done values : list Z),
  (List.length levels <= List.length values)%nat ->
  array_fill (done ++ values) (List.length done) levels
  = done ++ levels ++ skipn (List.length levels) values.
Proof.
  induction levels as [|v vs IH]; intros done values H; cbn [array_fill]; [reflexivity|].
  destruct values as [|x values]; [cbn in H; lia|].
  rewrite array_set_app.
  change (done ++ v :: values) with (done ++ [v] ++ values).
  rewrite app_assoc.
  replace (S (List.length done)) with (List.length (done ++ [v]))
    by (rewrite length_app; cbn; lia).
  rewrite IH by (cbn in H; lia). now rewrite <- app_assoc.
Qed.

Lemma rssi_loop_report (eol tail : string) :
  eol = String newline EmptyString \/ eol = CRLF ->
  starts_with_digit tail = false ->
  forall levels channel values fuel,
    (channel + List.length levels = 8)%nat ->
    Forall (fun v => -32768 <= v <= 32767) levels ->
    (List.length levels <= fuel)%nat ->
    rssi_loop fuel (Some (rssi_lines eol channel levels ++ tail)%string) channel values
    = Some (8%nat, array_fill values channel levels).
Proof.
  intros Heol Htail.
  induction levels as [|v vs IH]; intros channel values fuel Hc Hr Hf.
  - cbn in Hc. rewrite Nat.add_0_r in Hc. subst channel.
    cbn [rssi_loop rssi_lines array_fill]. now destruct fuel.
  - cbn [List.length] in Hc, Hf. destruct fuel as [|fuel]; [lia|].
    inversion Hr as [|? ? Hv Hvs]; subst.
    cbn [rssi_loop rssi_lines array_fill].
    destruct (Nat.ltb_spec channel 8) as [_|]; [|lia].
    rewrite !string_app_assoc.
    set (R := (rssi_lines eol (S channel) vs ++ tail)%string).
    assert (starts_with_digit (eol ++ R)%string = false) as Heol_nd
      by (destruct Heol as [-> | ->]; reflexivity).
    assert (sscanf_d_colon_d (dec (N.of_nat channel) ++ ":" ++ dec_int v ++ eol ++ R)%string
            = Some (Z.of_nat channel, v)) as ->.
    { unfold sscanf_d_colon_d. rewrite scan_d_rest_dec by reflexivity.
      cbn [append]. rewrite (scan_d_dec_int v _ Heol_nd).
      unfold clamp_int, INT_MAX, INT_MIN. do 2 f_equal; lia. }
    replace ((0 <=? Z.of_nat channel)%Z && (Z.of_nat channel <=? 7)%Z
             && (Z.of_nat channel =? Z.of_nat channel)%Z) with true
      by (symmetry; rewrite !andb_true_iff, !Z.leb_le, Z.eqb_eq; lia).
    assert (int16_of_int v = v) as ->.
    { unfold int16_of_int. rewrite Z.mod_small; lia. }
    assert (next_line (dec (N.of_nat channel) ++ ":" ++ dec_int v ++ eol ++ R)%string
            = Some R) as ->.
    { unfold next_line. rewrite (strchr_app _ _ _ (dec_lacks_newline _)).
      cbn [append strchr]. change (Ascii.eqb ":" newline) with false. cbv iota.
      rewrite (strchr_app _ _ _ (dec_int_lacks_newline _)).
      destruct Heol as [-> | ->]; reflexivity. }
    apply IH; [lia | assumption | lia].
Qed.

Lemma rssi_lines_no_nul eol levels : forall channel,
  no_nul eol = true -> no_nul (rssi_lines eol channel levels) = true.
Proof.
  induction levels as [|v vs IH]; intros channel He; [reflexivity|].
  cbn [rssi_lines]. apply no_nul_app; [apply dec_no_nul|].
  apply (no_nul_app ":"); [reflexivity|].
  apply no_nul_app; [apply dec_int_no_nul|]. apply no_nul_app; auto.
Qed.

Lemma rssi_lines_length eol levels : forall channel,
  (List.length levels <= String.length (rssi_lines eol channel levels))%nat.
Proof.
  induction levels as [|v vs IH]; intros channel; cbn [rssi_lines List.length]; [lia|].
  rewrite !string_length_app. specialize (IH (S channel)). cbn. lia.
Qed.

End Rssi.

(** X20.  An RSSI report is read back.  When the scan is answered at the first
    poll with +CRSSI: and eight lines <channel>:<level> for the channels 0
    to 7 in order (lines ended by LF or CR LF, levels within the range of
    int16_t) and OK, the call returns ESP_OK, stores the eight levels in the
    first eight entries of the caller's array, leaves the others, and sets
    the count to 8. *)
Theorem rssi_report_is_read_back (eol : string) (levels values : list Z)
        (freq_band_idx old_count : N) rest (w : world) :
  eol = String newline EmptyString \/ eol = CRLF ->
  List.length levels = 8%nat ->
  Forall (fun v => -32768 <= v <= 32767) levels ->
  (8 <= List.length values)%nat ->
  hd ESP_OK (tx w) = ESP_OK ->
  rx w = (ESP_OK, "+CRSSI:" ++ eol ++ rssi_lines eol 0 levels ++ "OK")%string :: rest ->
  fst (unit_lorawan_get_channel_rssi freq_band_idx (Some values) (Some old_count) w)
  = (ESP_OK, (Some (levels ++ skipn 8 values), Some 8%N)).
Proof.
  intros Heol Hlen Hrange Hvals Htx Hrx.
  set (text := ("+CRSSI:" ++ eol ++ rssi_lines eol 0 levels ++ "OK")%string) in *.
  assert (no_nul eol = true) as Hnn by (destruct Heol as [-> | ->]; reflexivity).
  assert (c_str text = text) as Hc.
  { apply c_str_no_nul. subst text. apply (no_nul_app "+CRSSI:"); [reflexivity|].
    apply no_nul_app; [exact Hnn|]. apply no_nul_app; [|reflexivity].
    now apply rssi_lines_no_nul. }
  assert (strstr text "+CRSSI:" = Some text) as Hpos
    by (apply strstr_prefix, prefix_app).
  assert (reply_data text = Some text) as Hdata.
  { apply reply_data_ok; rewrite Hc.
    - subst text. apply (found_app_r "+CRSSI:"), found_app_r, found_app_r. reflexivity.
    - unfold has_data_prefix. rewrite (found_of_strstr _ _ _ Hpos), !orb_true_r.
      reflexivity. }
  rewrite (rssi_replied freq_band_idx values old_count text rest w Htx Hrx)
    by (subst text; discriminate).
  rewrite Hdata, Hc, Hpos.
  assert (next_line text = Some (rssi_lines eol 0 levels ++ "OK")%string) as ->.
  { subst text. unfold next_line. destruct Heol as [-> | ->]; reflexivity. }
  rewrite (rssi_loop_report eol "OK" Heol eq_refl levels 0 values).
  - pose proof (array_fill_app levels [] values ltac:(lia)) as F.
    cbn [app List.length] in F. rewrite F, Hlen. reflexivity.
  - now rewrite Hlen.
  - exact Hrange.
  - subst text. rewrite !string_length_app.
    pose proof (rssi_lines_length eol levels 0). cbn. lia.
Qed.

Lemma rssi_report_is_read_back_witness :
  fst (unit_lorawan_get_channel_rssi 1 (Some (repeat 0 9)) (Some 0%N)
         (answering
            [("+CRSSI:" ++ CRLF
              ++ rssi_lines CRLF 0 [-95; -101; -88; -120; -97; -99; -110; -32768]
              ++ "OK")%string]))
  = (ESP_OK, (Some [-95; -101; -88; -120; -97; -99; -110; -32768; 0], Some 8%N)).
Proof.
  apply (rssi_report_is_read_back CRLF [-95; -101; -88; -120; -97; -99; -110; -32768]
           (repeat 0 9) 1 0 []);
    [now right | reflexivity | | cbn; lia | reflexivity | reflexivity].
  repeat (constructor; [lia|]). constructor.
Defined.

(** X21.  The RSSI scan stays within eight entries, whatever the modem sends
    and whatever the transport does.  Either the two outputs are left as
    they were, or the count is at most 8, the caller's array keeps its
    length and every entry from the ninth on; and the status is ESP_OK,
    ESP_FAIL (a captured reply without +CRSSI:), ESP_ERR_TIMEOUT or the
    status of a refused write.  The loop over the lines ends for every text:
    the length of the text bounds its turns. *)
Theorem rssi_scan_stays_within_eight (freq_band_idx old_count : N) (values : list Z)
        (w : world) :
  let run := fst (unit_lorawan_get_channel_rssi freq_band_idx (Some values)
                    (Some old_count) w) in
  (snd run = (Some values, Some old_count)
   \/ exists values' count,
        snd run = (Some values', Some (N.of_nat count)) /\
        (count <= 8)%nat /\
        List.length values' = List.length values /\
        skipn 8 values' = skipn 8 values) /\
  (forall line_start values0,
      rssi_loop (S (String.length line_start)) (next_line line_start) 0 values0 <> None).
Proof.
  intros run. subst run. split.
  - unfold unit_lorawan_get_channel_rssi, bind.
    destruct (_unit_lorawan_send_at_command _ _ _ w) as [[err r] w1].
    destruct (if is_ok err && success r then response_data r else None) as [data|];
      [|left; reflexivity].
    destruct (strstr (c_str data) "+CRSSI:") as [line_start|]; [|left; reflexivity].
    destruct (rssi_loop _ _ 0 values) as [[count values']|] eqn:E; [|left; reflexivity].
    right. exists values', count. apply rssi_loop_bounds in E; [|lia].
    destruct E as (A & B & C & _). cbn [fst snd ret]. unfold ret. cbn [fst snd].
    repeat split; auto; lia.
  - intros line_start values0. apply rssi_loop_fuel_suffices.
    destruct (next_line line_start) as [next|] eqn:E; [|exact I].
    apply next_line_shorter in E. lia.
Qed.

(* ===================================================================== *)
(** * OTAA from the compile-time settings, and the framer of version 0.0.1 *)
(* ===================================================================== *)

Section Kconfig.

Lemma leading_passes_all cmds w :
  (List.length cmds <= leading_passes (map snd (rx w)))%nat ->
  chain_world cmds w = exchanges (map at_frame cmds) w.
Proof. intros H. apply chain_world_all. lia. Qed.

Lemma otta_cmds_fit (devEUI appEUI appKey : string) (mode : unit_lorwan_uldlmode) :
  strlen devEUI = 16%nat -> strlen appEUI = 16%nat -> strlen appKey = 32%nat ->
  otta_cmds devEUI appEUI appKey mode
  = [ "CJOINMODE=0"; "CDEVEUI=" ++ c_str devEUI; "CAPPEUI=" ++ c_str appEUI;
      "CAPPKEY=" ++ c_str appKey; "CULDLMODE=" ++ _unit_lorawan_uldlmode_str mode;
      "CCLASS=0"; "CWORKMODE=2" ]%string.
Proof.
  unfold strlen, otta_cmds. intros A B C.
  rewrite (snprintf_fits 64 ("CDEVEUI=" ++ _)) by (rewrite string_length_app, A; cbn; lia).
  rewrite (snprintf_fits 64 ("CAPPEUI=" ++ _)) by (rewrite string_length_app, B; cbn; lia).
  rewrite (snprintf_fits 80 ("CAPPKEY=" ++ _)) by (rewrite string_length_app, C; cbn; lia).
  rewrite (snprintf_fits 32 ("CULDLMODE=" ++ _)) by (destruct mode; cbn; lia).
  reflexivity.
Qed.

Lemma legacy_frame_length (cmd : string) :
  String.length ("AT+" ++ c_str cmd ++ CRLF) = (strlen cmd + 5)%nat.
Proof. unfold strlen. cbn [append String.length]. rewrite string_length_app. cbn. lia. Qed.

End Kconfig.

(** X22.  OTAA configuration from the compile-time settings checks the lengths
    that the plain call does not: without the OTAA settings, or with a device
    EUI or application EUI that is not 16 characters long or a key that is
    not 32, it returns ESP_ERR_INVALID_ARG and sends nothing.  With settings
    of the right lengths and a modem that lets the seven steps pass, the
    seven frames carry the settings whole, and the frequency mode is 1 (same
    frequency) when the mode setting is defined and non-zero, 2 otherwise. *)
Theorem kconfig_otaa_checks_lengths (cfg : otaa_kconfig) (uldl : option bool) (w : world) :
  unit_lorawan_config_otaa_from_kconfig None uldl w = (ESP_ERR_INVALID_ARG, w) /\
  (strlen (CONFIG_LORAWAN_DEVICE_EUI cfg) <> 16%nat
   \/ strlen (CONFIG_LORAWAN_APP_EUI cfg) <> 16%nat
   \/ strlen (CONFIG_LORAWAN_APP_KEY cfg) <> 32%nat ->
   unit_lorawan_config_otaa_from_kconfig (Some cfg) uldl w = (ESP_ERR_INVALID_ARG, w)) /\
  (strlen (CONFIG_LORAWAN_DEVICE_EUI cfg) = 16%nat ->
   strlen (CONFIG_LORAWAN_APP_EUI cfg) = 16%nat ->
   strlen (CONFIG_LORAWAN_APP_KEY cfg) = 32%nat ->
   fed 7 w ->
   (7 <= leading_passes (map snd (rx w)))%nat ->
   let run := unit_lorawan_config_otaa_from_kconfig (Some cfg) uldl w in
   fst run = ESP_OK /\
   written (snd run)
   = written w
     ++ map at_frame
          [ "CJOINMODE=0";
            "CDEVEUI=" ++ c_str (CONFIG_LORAWAN_DEVICE_EUI cfg);
            "CAPPEUI=" ++ c_str (CONFIG_LORAWAN_APP_EUI cfg);
            "CAPPKEY=" ++ c_str (CONFIG_LORAWAN_APP_KEY cfg);
            "CULDLMODE=" ++ match uldl with Some true => "1" | _ => "2" end;
            "CCLASS=0"; "CWORKMODE=2" ]%string).
Proof.
  split; [reflexivity|]. split.
  - intros H. unfold unit_lorawan_config_otaa_from_kconfig,
      UNIT_LORAWAN_EUI_LENGTH, UNIT_LORAWAN_APP_KEY_LENGTH.
    destruct (Nat.eqb_spec (strlen (CONFIG_LORAWAN_DEVICE_EUI cfg)) 16); [|reflexivity].
    destruct (Nat.eqb_spec (strlen (CONFIG_LORAWAN_APP_EUI cfg)) 16); [|reflexivity].
    destruct (Nat.eqb_spec (strlen (CONFIG_LORAWAN_APP_KEY cfg)) 32); [|reflexivity].
    tauto.
  - intros A B C Hf Hlp run. subst run.
    unfold unit_lorawan_config_otaa_from_kconfig,
      UNIT_LORAWAN_EUI_LENGTH, UNIT_LORAWAN_APP_KEY_LENGTH.
    rewrite A, B, C. cbn [Nat.eqb negb]. cbv zeta.
    rewrite (configOTTA_fed _ _ _ _ 0 w Hf). cbn [fst snd].
    split; [reflexivity|].
    rewrite leading_passes_all by (cbn [otta_cmds List.length]; lia).
    rewrite written_exchanges, (otta_cmds_fit _ _ _ _ A B C).
    destruct uldl as [[|]|]; reflexivity.
Qed.

Lemma kconfig_otaa_checks_lengths_witness :
  unit_lorawan_config_otaa_from_kconfig
    (Some (mk_otaa_kconfig "012345678901234" "0000000000000000"
                           "00000000000000000000000000000000"))
    None (answering (repeat "OK"%string 7))
  = (ESP_ERR_INVALID_ARG, answering (repeat "OK"%string 7)).
Proof.
  apply (proj1 (proj2 (kconfig_otaa_checks_lengths _ None _))).
  left. vm_compute. discriminate.
Defined.

(** X23.  The framer of version 0.0.1 counts the frame in a byte.  For a
    command of fewer than 250 characters it writes the frame AT+<cmd> CR LF
    and the NUL that ends it -- one byte more than the later framer -- and
    returns the status of the write without reading a reply.  For a command
    of more than 250 and fewer than 506 characters the count wraps: only the
    first strlen(cmd) - 251 characters of the frame are written before the
    NUL, so the command reaches the modem cut short, with the same status. *)
Theorem legacy_frame_wraps_at_250 (cmd : string) (w : world) :
  let run := Legacy._unit_lorawan_send_cmd cmd w in
  fst run = hd ESP_OK (tx w) /\
  rx (snd run) = rx w /\ clock (snd run) = clock w /\
  ((strlen cmd < 250)%nat ->
   written (snd run) = written w ++ [(at_frame (c_str cmd) ++ String zero EmptyString)%string]) /\
  ((250 < strlen cmd < 506)%nat ->
   written (snd run)
   = written w ++ [(substring 0 (strlen cmd - 251) (at_frame (c_str cmd))
                    ++ String zero EmptyString)%string]).
Proof.
  intros run. subst run.
  unfold Legacy._unit_lorawan_send_cmd, core2foraws_expports_uart_write.
  cbn [fst snd rx clock]. split; [reflexivity|]. split; [reflexivity|].
  split; [reflexivity|].
  assert (forall bytes,
             written (mk_world (clock w) (rx w) (tl (tx w)) (trace w ++ [EvWrite bytes])
                               (tasks w)) = written w ++ [bytes]) as Hw.
  { intros bytes. unfold written. cbn [trace]. now rewrite flat_map_app. }
  rewrite Hw. unfold Legacy.at_cmd_str, Legacy.at_cmd_str_len.
  split.
  - intros H.
    replace ((3 + strlen cmd + 2 + 1) mod 256)%nat with (S (strlen cmd + 5))%nat
      by (rewrite Nat.mod_small; lia).
    rewrite snprintf_fits by (rewrite legacy_frame_length; lia). reflexivity.
  - intros H.
    replace ((3 + strlen cmd + 2 + 1) mod 256)%nat with (S (strlen cmd - 251))%nat.
    + unfold snprintf. cbn [Nat.sub]. rewrite Nat.sub_0_r. reflexivity.
    + apply (Nat.mod_unique _ _ 1%nat); lia.
Qed.

Lemma legacy_frame_wraps_at_250_witness :
  written (snd (Legacy._unit_lorawan_send_cmd "CJOIN=1,1,10,8" world0))
  = [("AT+CJOIN=1,1,10,8" ++ CRLF ++ String zero EmptyString)%string].
Proof.
  rewrite (proj1 (proj2 (proj2 (proj2 (legacy_frame_wraps_at_250 "CJOIN=1,1,10,8" world0)))))
    by (vm_compute; lia).
  reflexivity.
Defined.

(** X24.  The status check of version 0.0.1 and the later parser.  On a
    received text the old check fails exactly when the text has an ERROR
    marker (ESP_FAIL), whatever else it holds; the later parser reports
    success exactly when the text has an OK marker, or the old check accepts
    it and it has a data-bearing prefix.  So the two agree on a reply with a
    data-bearing prefix and no OK marker, the parser is the stricter one on
    a text with no marker at all, and the more lenient one on a text that
    has both OK and ERROR. *)
Theorem legacy_check_and_parser (raw : string) (old : lorawan_response_t) :
  raw <> EmptyString ->
  let status := Legacy._unit_lorawan_check_received_status
                  (N.of_nat (String.length raw)) raw in
  let response := snd (_unit_lorawan_parse_response raw old) in
  (status = ESP_OK <-> found (c_str raw) "ERROR" = false) /\
  (status = ESP_OK \/ status = ESP_FAIL) /\
  (success response = true <->
   found (c_str raw) "OK" = true
   \/ (status = ESP_OK /\ has_data_prefix (c_str raw) = true)) /\
  Legacy._unit_lorawan_check_received_status 0 raw = ESP_ERR_INVALID_SIZE.
Proof.
  intros Hne status response. subst status response.
  destruct (parse_response_shape raw old Hne) as (Hs & _). rewrite Hs.
  unfold Legacy._unit_lorawan_check_received_status.
  rewrite (response_len_nonzero raw Hne).
  destruct (found (c_str raw) "ERROR"), (found (c_str raw) "OK"),
    (has_data_prefix (c_str raw)); cbn [orb andb negb];
    (split; [split; intros; first [reflexivity | discriminate]|]);
    (split; [first [left; reflexivity | right; reflexivity]|]);
    (split; [|reflexivity]);
    (split;
     [ intros H; first [discriminate H | left; reflexivity | right; split; reflexivity]
     | intros [H|[H1 H2]]; first [reflexivity | discriminate] ]).
Qed.

Lemma legacy_check_and_parser_witness :
  Legacy._unit_lorawan_check_received_status 11 "OK... ERROR" = ESP_FAIL /\
  success (snd (_unit_lorawan_parse_response "OK... ERROR" response_zero)) = true.
Proof.
  destruct (legacy_check_and_parser "OK... ERROR" response_zero ltac:(discriminate))
    as (_ & _ & H & _).
  cbv zeta in H. split; [reflexivity|]. apply H. left. reflexivity.
Defined.
(* ===================================================================== *)
(** * The reply a command receives *)
(* ===================================================================== *)

(** A refused write costs an attempt and no read; a budget of one poll
    leaves the second packet to the second attempt; a silent peer leaves
    the command with a timeout. *)
Example received_examples :
  received 3 2 [ESP_FAIL] [(ESP_OK, EmptyString); (ESP_OK, "OK"%string)]
  = Some (1%nat, "OK"%string) /\
  received 3 1 [] [(ESP_OK, EmptyString); (ESP_OK, "OK"%string)]
  = Some (1%nat, "OK"%string) /\
  received 3 2 [] [] = None /\
  final_error 3 ESP_FAIL [] = ESP_ERR_TIMEOUT /\
  final_error 3 ESP_FAIL [ESP_FAIL; ESP_FAIL; ESP_ERR_INVALID_STATE] = ESP_ERR_INVALID_STATE.
Proof. repeat split. Qed.

Section Received.

Lemma quiet_idle_polls (k : nat) : forallb quiet (idle_polls k) = true.
Proof. induction k as [|k IH]; [reflexivity | exact IH]. Qed.

Lemma quiet_reading (k : nat) (last : list event) :
  forallb quiet last = true ->
  forallb quiet (EvDelay 100 :: idle_polls k ++ last) = true.
Proof.
  intros H. cbn [forallb quiet]. rewrite forallb_app, quiet_idle_polls, H. reflexivity.
Qed.

Lemma written_app_events (w : world) (t : list event) (evs : list event) :
  trace w = t ++ evs ->
  written w
  = flat_map (fun e => match e with EvWrite b => [b] | _ => [] end) t
    ++ flat_map (fun e => match e with EvWrite b => [b] | _ => [] end) evs.
Proof. intros H. unfold written. now rewrite H, flat_map_app. Qed.

Lemma frames_backoff (retry : nat) :
  flat_map (fun e => match e with EvWrite b => [b] | _ => [] end) (backoff retry) = [].
Proof. unfold backoff. now destruct (0 <? retry)%nat. Qed.

Lemma written_after_write retry at_cmd w :
  written (after_write retry at_cmd w) = written w ++ [at_cmd].
Proof.
  unfold written, after_write. cbn [trace].
  now rewrite !flat_map_app, frames_backoff.
Qed.

Lemma received_refused attempts budget tx rx :
  is_ok (hd ESP_OK tx) = false ->
  received (S attempts) budget tx rx
  = match received attempts budget (tl tx) rx with
    | Some (i, bytes) => Some (S i, bytes)
    | None => None
    end.
Proof. intros H. cbn [received]. now rewrite H. Qed.

Lemma received_silent attempts budget tx rx :
  is_ok (hd ESP_OK tx) = true ->
  first_data budget rx = None ->
  received (S attempts) budget tx rx
  = match received attempts budget (tl tx) (skipn budget rx) with
    | Some (i, bytes) => Some (S i, bytes)
    | None => None
    end.
Proof. intros H E. cbn [received]. now rewrite H, E. Qed.

Lemma received_here attempts budget tx rx k bytes :
  is_ok (hd ESP_OK tx) = true ->
  first_data budget rx = Some (k, bytes) ->
  received (S attempts) budget tx rx = Some (O, bytes).
Proof. intros H E. cbn [received]. now rewrite H, E. Qed.

Lemma received_nonempty attempts budget : forall tx rx i bytes,
  received attempts budget tx rx = Some (i, bytes) ->
  bytes <> EmptyString /\ (i < attempts)%nat.
Proof.
  induction attempts as [|attempts IH]; intros tx rx i bytes; [discriminate|].
  destruct (is_ok (hd ESP_OK tx)) eqn:Htx.
  - destruct (first_data budget rx) as [[k b]|] eqn:E.
    + rewrite (received_here _ _ _ _ k b Htx E). intros H. injection H as <- <-.
      split; [eapply first_data_nonempty; exact E | lia].
    + rewrite (received_silent _ _ _ _ Htx E).
      destruct (received attempts budget (tl tx) (skipn budget rx)) as [[j b]|] eqn:R;
        [|discriminate].
      intros H. injection H as <- <-. apply IH in R. split; [tauto | lia].
  - rewrite (received_refused _ _ _ _ Htx).
    destruct (received attempts budget (tl tx) rx) as [[j b]|] eqn:R; [|discriminate].
    intros H. injection H as <- <-. apply IH in R. split; [tauto | lia].
Qed.

(** The error of a command without reply is never [ESP_OK]: it is
    [ESP_ERR_TIMEOUT] or the status of a refused write. *)
Lemma final_error_spec (all : list esp_err_t) : forall attempts err tx,
  (forall e, In e tx -> In e all) ->
  err <> ESP_OK /\ (err = ESP_ERR_TIMEOUT \/ In err all) ->
  final_error attempts err tx <> ESP_OK /\
  (final_error attempts err tx = ESP_ERR_TIMEOUT \/ In (final_error attempts err tx) all).
Proof.
  induction attempts as [|attempts IH]; intros err tx Hin Herr; [exact Herr|].
  cbn [final_error]. apply IH.
  - intros e He. apply Hin. destruct tx; [contradiction | now right].
  - destruct (is_ok (hd ESP_OK tx)) eqn:Htx.
    + split; [discriminate | now left].
    + split; [now apply is_ok_false|]. right. apply Hin.
      destruct tx as [|e tx]; [discriminate Htx | now left].
Qed.

Lemma final_error_attempted (attempts : nat) (err : esp_err_t) (tx : list esp_err_t) :
  final_error (S attempts) err tx <> ESP_OK /\
  (final_error (S attempts) err tx = ESP_ERR_TIMEOUT
   \/ In (final_error (S attempts) err tx) tx).
Proof.
  cbn [final_error]. apply final_error_spec.
  - intros e He. destruct tx; [contradiction | now right].
  - destruct (is_ok (hd ESP_OK tx)) eqn:Htx.
    + split; [discriminate | now left].
    + split; [now apply is_ok_false|]. right.
      destruct tx as [|e tx]; [discriminate Htx | now left].
Qed.

Lemma send_retry_loop_received at_cmd timeout_ms :
  0 <= timeout_ms <= 2 ^ 32 - 50 ->
  forall remaining retry err0 response w,
  let budget := poll_budget timeout_ms in
  let run := send_retry_loop remaining retry at_cmd err0 response timeout_ms w in
  fst run
  = match received remaining budget (tx w) (rx w) with
    | Some (_, bytes) => _unit_lorawan_parse_response bytes response
    | None => (final_error remaining err0 (tx w), response)
    end /\
  written (snd run)
  = written w ++ repeat at_cmd (attempts_made remaining budget (tx w) (rx w)) /\
  exists evs,
    trace (snd run) = trace w ++ evs /\
    attempts_trace at_cmd retry (attempts_made remaining budget (tx w) (rx w)) evs.
Proof.
  intros Ht. induction remaining as [|remaining IH]; intros retry err0 response w budget run.
  - subst run. cbn [send_retry_loop ret fst snd received final_error].
    unfold attempts_made. cbn [received repeat]. rewrite !app_nil_r.
    split; [reflexivity|]. split; [reflexivity|].
    exists []. rewrite app_nil_r. split; [reflexivity | constructor].
  - subst run. cbn [send_retry_loop]. unfold bind. unfold attempts_made.
    destruct (is_ok (hd ESP_OK (tx w))) eqn:Htx.
    + rewrite (send_attempt_accepted retry at_cmd response timeout_ms w Ht Htx).
      fold budget.
      destruct (first_data budget (rx w)) as [[k bytes]|] eqn:E.
      * rewrite (received_here _ _ _ _ k bytes Htx E).
        pose proof (parse_nonempty_ok bytes response (first_data_nonempty _ _ _ _ E)) as Hp.
        destruct (_unit_lorawan_parse_response bytes response) as [e r].
        cbn [fst snd ret] in *.
        split; [reflexivity|]. split.
        { unfold written at 1. cbn [trace]. rewrite flat_map_app.
          fold (written (after_write retry at_cmd w)).
          rewrite written_after_write. cbn [flat_map].
          rewrite flat_map_app, frames_idle_polls. cbn [flat_map app repeat].
          now rewrite app_nil_r. }
        exists (backoff retry ++ EvFlush :: EvWrite at_cmd
                        :: (EvDelay 100 :: idle_polls k ++ [EvRead]) ++ []).
        split.
        { unfold after_write. cbn [trace]. rewrite app_nil_r, <- !app_assoc. reflexivity. }
        constructor; [apply quiet_reading; reflexivity | constructor].
      * rewrite (received_silent _ _ _ _ Htx E).
        cbn [fst snd].
        match goal with
        | |- context [send_retry_loop remaining (S retry) at_cmd ?e response timeout_ms ?w1] =>
            destruct (IH (S retry) e response w1) as (R1 & R2 & evs & R3 & R4);
            cbn [tx rx trace] in R1, R2, R3, R4; fold budget in R1, R2, R4
        end.
        rewrite R1, R2. cbn [final_error]. rewrite Htx.
        unfold attempts_made in *.
        split; [now destruct (received remaining budget (tl (tx w)) (skipn budget (rx w)))
                     as [[j b]|]|].
        split.
        { unfold written at 1. cbn [trace]. rewrite flat_map_app.
          fold (written (after_write retry at_cmd w)).
          rewrite written_after_write. cbn [flat_map].
          rewrite frames_idle_polls. cbn [app]. rewrite app_nil_r, <- app_assoc.
          now destruct (received remaining budget (tl (tx w)) (skipn budget (rx w)))
            as [[j b]|]. }
        exists (backoff retry ++ EvFlush :: EvWrite at_cmd
                        :: (EvDelay 100 :: idle_polls budget ++ []) ++ evs).
        split.
        { rewrite R3. unfold after_write. cbn [trace].
          rewrite app_nil_r, <- !app_assoc. reflexivity. }
        destruct (received remaining budget (tl (tx w)) (skipn budget (rx w))) as [[j b]|];
          (constructor; [apply quiet_reading; reflexivity | exact R4]).
    + rewrite (send_attempt_refused retry at_cmd response timeout_ms w Htx).
      rewrite (received_refused _ _ _ _ Htx). cbn [fst snd].
      destruct (IH (S retry) (hd ESP_OK (tx w)) response (after_write retry at_cmd w))
        as (R1 & R2 & evs & R3 & R4).
      change (tx (after_write retry at_cmd w)) with (tl (tx w)) in R1, R2, R4.
      change (rx (after_write retry at_cmd w)) with (rx w) in R1, R2, R4.
      change (trace (after_write retry at_cmd w))
        with (trace w ++ backoff retry ++ [EvFlush; EvWrite at_cmd]) in R3.
      fold budget in R1, R2, R4.
      rewrite R1, R2. cbn [final_error]. rewrite Htx.
      unfold attempts_made in *.
      split; [now destruct (received remaining budget (tl (tx w)) (rx w)) as [[j b]|]|].
      split.
      { rewrite written_after_write, <- app_assoc.
        now destruct (received remaining budget (tl (tx w)) (rx w)) as [[j b]|]. }
      exists (backoff retry ++ EvFlush :: EvWrite at_cmd :: [] ++ evs).
      split.
      { rewrite R3. rewrite <- !app_assoc. reflexivity. }
      destruct (received remaining budget (tl (tx w)) (rx w)) as [[j b]|];
        (constructor; [reflexivity | exact R4]).
Qed.

Lemma send_at_command_received cmd response timeout_ms w :
  0 <= timeout_ms <= 2 ^ 32 - 50 ->
  let budget := poll_budget timeout_ms in
  let run := _unit_lorawan_send_at_command cmd response timeout_ms w in
  fst run
  = match received 3 budget (tx w) (rx w) with
    | Some (_, bytes) => _unit_lorawan_parse_response bytes response
    | None => (final_error 3 ESP_FAIL (tx w), response)
    end /\
  written (snd run)
  = written w ++ repeat (at_frame cmd) (attempts_made 3 budget (tx w) (rx w)) /\
  exists evs,
    trace (snd run) = trace w ++ evs /\
    attempts_trace (at_frame cmd) 0 (attempts_made 3 budget (tx w) (rx w)) evs.
Proof.
  intros Ht.
  exact (send_retry_loop_received (at_frame cmd) timeout_ms Ht 3 0%nat ESP_FAIL response w).
Qed.

(** Where the model of the reader stops being the reader: with a timeout of
    [2^32 - 1] ms and a peer that stays silent, the elapsed time, a multiple
    of 50 modulo 2^32, never reaches the timeout, and the loop runs out of
    any fuel.  The fuel of [_unit_lorawan_wait_for_response] is enough up to
    [2^32 - 50] ms ([wait_for_response_script]); the statements about the
    reader and the framer that depend on it carry that bound. *)
Lemma wait_loop_without_end (c0 : Z) : forall (fuel j : nat) (w : world),
  rx w = [] ->
  clock w = c0 + 50 * Z.of_nat j ->
  fst (wait_loop fuel (uint32 c0) (2 ^ 32 - 1) w) = None.
Proof.
  assert (forall (j : nat) (w : world),
             clock w = c0 + 50 * Z.of_nat j ->
             (uint32 (uint32 (clock w) - uint32 c0) <? 2 ^ 32 - 1)%Z = true) as Hgo.
  { intros j w Hc. apply Z.ltb_lt. unfold uint32. rewrite <- Zminus_mod, Hc.
    replace (c0 + 50 * Z.of_nat j - c0) with (50 * Z.of_nat j) by lia.
    pose proof (Z.mod_pos_bound (50 * Z.of_nat j) (2 ^ 32) ltac:(lia)).
    pose proof (Z.div_mod (50 * Z.of_nat j) (2 ^ 32) ltac:(lia)). lia. }
  induction fuel as [|fuel IH]; intros j w Hrx Hc.
  - cbn [wait_loop]. now rewrite (Hgo j w Hc).
  - rewrite wait_loop_step, (Hgo j w Hc), Hrx. cbn [hd tl has_data fst snd].
    cbn [is_ok ESP_OK Z.eqb String.length Nat.ltb Nat.leb andb].
    apply (IH (S j)); cbn [rx clock]; [reflexivity | lia].
Qed.

End Received.

(** C2, as the code has it, for a timeout of at most 2^32 - 50 ms (the
    driver's own are 5000 and 30000).  In this order:
    - a command is the first of at most three attempts that ends with
      [ESP_OK], or else the third attempt;
    - an attempt naps 500 ms (not before the first one), flushes and writes
      the frame; when the write is refused it ends there, with the status
      of the write, and reads nothing; when not, it polls until a read
      brings bytes or the budget of polls is spent, and ends with [ESP_OK]
      and the parse of the bytes in the first case, with [ESP_ERR_TIMEOUT]
      and the response untouched in the second;
    - when the attempt of index [i] is the first to receive bytes, the
      command returns [ESP_OK] and their parse after [i + 1] attempts --
      also when the bytes are an ERROR reply or carry no marker;
    - when no attempt receives bytes, the command returns the error of the
      third attempt, never [ESP_OK], after three attempts;
    - a reply that is ready at the first poll ends the command after one
      attempt, whatever the reply says. *)
Theorem send_at_command_retry_policy cmd response (timeout_ms : Z) (w : world) :
  0 <= timeout_ms <= 2 ^ 32 - 50 ->
  let budget := poll_budget timeout_ms in
  let run := _unit_lorawan_send_at_command cmd response timeout_ms w in
  run = (let first := send_attempt 0 (at_frame cmd) response timeout_ms w in
         if is_ok (fst (snd (fst first))) then (snd (fst first), snd first)
         else
           let second := send_attempt 1 (at_frame cmd) (snd (snd (fst first)))
                                      timeout_ms (snd first) in
           if is_ok (fst (snd (fst second))) then (snd (fst second), snd second)
           else
             let third := send_attempt 2 (at_frame cmd) (snd (snd (fst second)))
                                       timeout_ms (snd second) in
             (snd (fst third), snd third)) /\
  (forall retry response' w',
      let attempt := send_attempt retry (at_frame cmd) response' timeout_ms w' in
      let begun := after_write retry (at_frame cmd) w' in
      (is_ok (hd ESP_OK (tx w')) = false ->
       attempt = ((LoopContinue, (hd ESP_OK (tx w'), response')), begun)) /\
      (is_ok (hd ESP_OK (tx w')) = true ->
       first_data budget (rx w') = None ->
       fst attempt = (LoopContinue, (ESP_ERR_TIMEOUT, response')) /\
       rx (snd attempt) = skipn budget (rx w') /\
       trace (snd attempt) = trace begun ++ EvDelay 100 :: idle_polls budget) /\
      (forall k bytes,
          is_ok (hd ESP_OK (tx w')) = true ->
          first_data budget (rx w') = Some (k, bytes) ->
          fst attempt = (LoopBreak, _unit_lorawan_parse_response bytes response') /\
          fst (_unit_lorawan_parse_response bytes response') = ESP_OK /\
          rx (snd attempt) = skipn (S k) (rx w') /\
          trace (snd attempt)
          = trace begun ++ EvDelay 100 :: idle_polls k ++ [EvRead])) /\
  (forall i bytes,
      received UNIT_LORAWAN_MAX_RETRIES budget (tx w) (rx w) = Some (i, bytes) ->
      fst run = _unit_lorawan_parse_response bytes response /\
      fst (fst run) = ESP_OK /\
      (i < UNIT_LORAWAN_MAX_RETRIES)%nat /\
      written (snd run) = written w ++ repeat (at_frame cmd) (S i) /\
      exists evs,
        trace (snd run) = trace w ++ evs /\
        attempts_trace (at_frame cmd) 0 (S i) evs) /\
  (received UNIT_LORAWAN_MAX_RETRIES budget (tx w) (rx w) = None ->
   fst run = (final_error UNIT_LORAWAN_MAX_RETRIES ESP_FAIL (tx w), response) /\
   fst (fst run) <> ESP_OK /\
   (fst (fst run) = ESP_ERR_TIMEOUT \/ In (fst (fst run)) (tx w)) /\
   written (snd run) = written w ++ repeat (at_frame cmd) UNIT_LORAWAN_MAX_RETRIES /\
   exists evs,
     trace (snd run) = trace w ++ evs /\
     attempts_trace (at_frame cmd) 0 UNIT_LORAWAN_MAX_RETRIES evs) /\
  (forall bytes rest,
      0 < timeout_ms ->
      hd ESP_OK (tx w) = ESP_OK ->
      rx w = (ESP_OK, bytes) :: rest ->
      bytes <> EmptyString ->
      run = (_unit_lorawan_parse_response bytes response,
             mk_world (clock w + 100) rest (tl (tx w))
                      (trace w ++ [EvFlush; EvWrite (at_frame cmd); EvDelay 100; EvRead])
                      (tasks w))).
Proof.
  intros Ht budget run. subst run.
  destruct (send_at_command_received cmd response timeout_ms w Ht) as (R1 & R2 & R3).
  fold budget in R1, R2, R3. unfold attempts_made in R2, R3.
  unfold UNIT_LORAWAN_MAX_RETRIES.
  split; [apply send_at_command_unrolled|].
  split; [|split; [|split]].
  - intros retry response' w'.
    split; [apply send_attempt_refused|]. split.
    + intros Htx E.
      rewrite (send_attempt_accepted retry (at_frame cmd) response' timeout_ms w' Ht Htx).
      fold budget. rewrite E. cbn [fst snd rx trace]. now repeat split.
    + intros k bytes Htx E.
      rewrite (send_attempt_accepted retry (at_frame cmd) response' timeout_ms w' Ht Htx).
      fold budget. rewrite E. cbn [fst snd rx trace].
      split; [reflexivity|]. split; [|now split].
      apply parse_nonempty_ok. eapply first_data_nonempty. exact E.
  - intros i bytes E. rewrite E in R1, R2, R3.
    destruct (received_nonempty _ _ _ _ _ _ E) as [Hne Hi].
    split; [exact R1|]. split; [rewrite R1; now apply parse_nonempty_ok|].
    split; [exact Hi|]. split; [exact R2 | exact R3].
  - intros E. rewrite E in R1, R2, R3.
    destruct (final_error_attempted 2 ESP_FAIL (tx w)) as [F1 F2].
    split; [exact R1|]. rewrite R1. cbn [fst].
    split; [exact F1|]. split; [exact F2|]. split; [exact R2 | exact R3].
  - intros bytes rest Htp Htx Hrx Hne. now apply send_at_command_replied.
Qed.

(** The first write is refused, the second attempt finds nothing at its
    first poll and an ERROR reply at its second: the command ends there,
    after two frames, with [ESP_OK] and the failure the parser read. *)
Lemma send_at_command_retry_policy_witness :
  let w := mk_world 0 [(ESP_OK, EmptyString); (ESP_OK, "ERROR:7"%string)]
                    [ESP_FAIL] [] [] in
  let run := _unit_lorawan_send_at_command "CSAVE" response_zero 5000 w in
  fst run = (ESP_OK, mk_response false None 0 "7") /\
  written (snd run) = [at_frame "CSAVE"; at_frame "CSAVE"].
Proof.
  intros w run.
  destruct (send_at_command_retry_policy "CSAVE" response_zero 5000 w
              ltac:(vm_compute; split; discriminate))
    as (_ & _ & H & _).
  destruct (H 1%nat "ERROR:7"%string eq_refl) as (E1 & _ & _ & E2 & _).
  split; [exact E1 | exact E2].
Defined.

(** C3, as the code has it.  For a text without [OK] marker: when its first
    [ERROR] marker reads [ERROR:7] up to white space or the end, it is a
    failure with error code "7"; when it has an [ERROR] marker at all, it is
    a failure; when it has none of the markers ([OK], [ERROR], the seven
    data-bearing prefixes), it is a failure.  A text with an [OK] marker is
    a success, and so is a text with a data-bearing prefix and no [ERROR]
    marker; and these are all the successes. *)
Theorem parse_response_error_and_unmarked :
  (forall raw rest old,
      found (c_str raw) "OK" = false ->
      strstr (c_str raw) "ERROR" = Some ("ERROR:7" ++ rest)%string ->
      token_end rest = true ->
      _unit_lorawan_parse_response raw old
      = (ESP_OK, mk_response false None 0 "7")) /\
  (forall raw old,
      found (c_str raw) "OK" = false ->
      found (c_str raw) "ERROR" = true ->
      fst (_unit_lorawan_parse_response raw old) = ESP_OK /\
      success (snd (_unit_lorawan_parse_response raw old)) = false) /\
  (forall raw old,
      raw <> EmptyString ->
      found (c_str raw) "OK" = false ->
      found (c_str raw) "ERROR" = false ->
      has_data_prefix (c_str raw) = false ->
      _unit_lorawan_parse_response raw old
      = (ESP_OK, mk_response false None 0 EmptyString)) /\
  (forall raw old,
      found (c_str raw) "OK" = true ->
      fst (_unit_lorawan_parse_response raw old) = ESP_OK /\
      success (snd (_unit_lorawan_parse_response raw old)) = true) /\
  (forall raw old,
      found (c_str raw) "ERROR" = false ->
      has_data_prefix (c_str raw) = true ->
      _unit_lorawan_parse_response raw old
      = (ESP_OK, mk_response true (Some raw) (N.of_nat (String.length raw))
                             EmptyString)) /\
  (forall raw old,
      raw <> EmptyString ->
      fst (_unit_lorawan_parse_response raw old) = ESP_OK /\
      (success (snd (_unit_lorawan_parse_response raw old)) = true <->
       found (c_str raw) "OK" = true \/
       (found (c_str raw) "ERROR" = false /\ has_data_prefix (c_str raw) = true))).
Proof.
  split; [|split; [|split; [|split; [|split]]]].
  - intros raw rest old Hok Herr Hend.
    rewrite (parse_error_reply raw _ old Hok Herr).
    now rewrite scan_error_code_7.
  - intros raw old Hok Herr.
    apply found_true_iff in Herr as [pos Hpos].
    now rewrite (parse_error_reply raw pos old Hok Hpos).
  - apply parse_unmarked_reply.
  - intros raw old Hok. now apply parse_ok_reply.
  - intros raw old Herr Hdata.
    assert (raw <> EmptyString) as Hne.
    { intros ->. discriminate Hdata. }
    unfold _unit_lorawan_parse_response.
    rewrite response_len_nonzero by exact Hne. cbv zeta.
    apply found_false_iff in Herr. rewrite Herr, Hdata.
    now destruct (found (c_str raw) "OK").
  - intros raw old Hne. split; [now apply parse_nonempty_ok|].
    destruct (parse_response_shape raw old Hne) as [Hs _]. cbv zeta in Hs.
    rewrite Hs.
    destruct (found (c_str raw) "OK"), (found (c_str raw) "ERROR"),
      (has_data_prefix (c_str raw)); cbn; intuition congruence.
Qed.

Lemma parse_response_error_and_unmarked_witness :
  _unit_lorawan_parse_response ("+CME ERROR:7" ++ CRLF)%string response_zero
  = (ESP_OK, mk_response false None 0 "7") /\
  success (snd (_unit_lorawan_parse_response "ERROR" response_zero)) = false /\
  _unit_lorawan_parse_response "no marker" response_zero
  = (ESP_OK, mk_response false None 0 EmptyString) /\
  success (snd (_unit_lorawan_parse_response "OK" response_zero)) = true /\
  _unit_lorawan_parse_response "+CSTATUS:04" response_zero
  = (ESP_OK, mk_response true (Some "+CSTATUS:04"%string) 11 EmptyString) /\
  (success (snd (_unit_lorawan_parse_response "+CSTATUS:04 ERROR" response_zero)) = true
   -> False).
Proof.
  destruct parse_response_error_and_unmarked as (H7 & Herr & Hnone & Hok & Hdata & Hall).
  split; [|split; [|split; [|split; [|split]]]].
  - apply (H7 ("+CME ERROR:7" ++ CRLF)%string CRLF response_zero); reflexivity.
  - apply (Herr "ERROR"%string response_zero); reflexivity.
  - apply (Hnone "no marker"%string response_zero); [discriminate | reflexivity ..].
  - apply (Hok "OK"%string response_zero); reflexivity.
  - apply (Hdata "+CSTATUS:04"%string response_zero); reflexivity.
  - intros H.
    apply (Hall "+CSTATUS:04 ERROR"%string response_zero ltac:(discriminate)) in H.
    destruct H as [H | [H _]]; discriminate H.
Defined.

(* ===================================================================== *)
(** * Connected-check and the reply it receives *)
(* ===================================================================== *)

Section ConnectedReceived.

Lemma budget_in_range :
  0 <= UNIT_LORAWAN_RESPONSE_TIMEOUT_MS <= 2 ^ 32 - 50.
Proof. vm_compute. split; discriminate. Qed.




End ConnectedReceived.



(* ===================================================================== *)
(** * The data-rate lookup and the replies it receives *)
(* ===================================================================== *)

Section LookupReceived.


Lemma reply_data_text (text data : string) : reply_data text = Some data -> data = text.
Proof.
  unfold reply_data. destruct (accepted text && has_data_prefix (c_str text)); congruence.
Qed.



End LookupReceived.



(* ===================================================================== *)
(** * The join watcher and a modem that stays silent *)
(* ===================================================================== *)

Section WatcherSilent.

Lemma send_at_command_tx_empty cmd response timeout_ms w :
  tx w = [] ->
  tx (snd (_unit_lorawan_send_at_command cmd response timeout_ms w)) = [].
Proof.
  intros Htx. unfold _unit_lorawan_send_at_command.
  destruct (send_retry_loop_spec (at_frame cmd) timeout_ms
              UNIT_LORAWAN_MAX_RETRIES 0 ESP_FAIL response w)
    as (n & evs & _ & _ & _ & _ & Hin & _).
  destruct (tx (snd (send_retry_loop _ _ _ _ _ _ w))) as [|e l]; [reflexivity|].
  specialize (Hin e (or_introl eq_refl)). rewrite Htx in Hin. contradiction.
Qed.

(** Connected-check against a silent modem: three attempts of 100 polls
    each, 16.3 s in all. *)
Lemma connected_silent (w : world) :
  tx w = [] -> rx w = [] ->
  fst (unit_lorawan_connected w) = (ESP_ERR_TIMEOUT, false) /\
  tx (snd (unit_lorawan_connected w)) = [] /\
  rx (snd (unit_lorawan_connected w)) = [] /\
  tasks (snd (unit_lorawan_connected w)) = tasks w /\
  clock (snd (unit_lorawan_connected w)) = clock w + 16300 /\
  written (snd (unit_lorawan_connected w))
  = written w ++ repeat (at_frame "CSTATUS?") 3.
Proof.
  intros Htx Hrx. unfold unit_lorawan_connected, bind.
  pose proof (send_at_command_script "CSTATUS?" response_zero
                UNIT_LORAWAN_RESPONSE_TIMEOUT_MS w budget_in_range Htx) as S.
  cbv zeta in S. rewrite Hrx in S.
  change (poll_budget UNIT_LORAWAN_RESPONSE_TIMEOUT_MS) with 100%nat in S.
  change (first_data (3 * 100) []) with (@None (nat * string)) in S.
  destruct S as (S1 & S2 & S3 & S4).
  pose proof (send_at_command_tx_empty "CSTATUS?" response_zero
                UNIT_LORAWAN_RESPONSE_TIMEOUT_MS w Htx) as S5.
  destruct (frame_send_at_command "CSTATUS?" response_zero
              UNIT_LORAWAN_RESPONSE_TIMEOUT_MS w) as [S6 _].
  destruct (_unit_lorawan_send_at_command _ _ _ w) as [[err r] w1].
  cbn [fst snd ret] in *. injection S1 as -> ->.
  split; [reflexivity|]. split; [exact S5|]. split; [exact S4|].
  split; [exact S6|]. split; [|exact S2].
  rewrite S3. change (Z.of_nat 100) with 100. lia.
Qed.

Lemma monitor_loop_silent (monitor_params : join_monitor_params_t) :
  forall remaining w,
  tx w = [] -> rx w = [] ->
  fst (monitor_loop remaining monitor_params false w) = false /\
  tasks (snd (monitor_loop remaining monitor_params false w)) = tasks w /\
  clock (snd (monitor_loop remaining monitor_params false w))
  = clock w + 17300 * Z.of_nat remaining /\
  written (snd (monitor_loop remaining monitor_params false w))
  = written w ++ repeat (at_frame "CSTATUS?") (3 * remaining).
Proof.
  induction remaining as [|remaining IH]; intros w Htx Hrx.
  - cbn [monitor_loop ret fst snd repeat Nat.mul]. rewrite app_nil_r.
    repeat split; lia.
  - cbn [monitor_loop]. unfold bind.
    change (vTaskDelay 1000 w) with (tt, nap w).
    destruct (connected_silent (nap w) Htx Hrx) as (C1 & C2 & C3 & C4 & C5 & C6).
    change (clock (nap w)) with (clock w + 1000) in C5.
    assert (written (nap w) = written w) as Hw.
    { unfold written, nap, vTaskDelay. cbn [snd trace].
      rewrite flat_map_app. cbn [flat_map]. now rewrite app_nil_r. }
    rewrite Hw in C6. change (tasks (nap w)) with (tasks w) in C4.
    destruct (unit_lorawan_connected (nap w)) as [[err state] w1].
    cbn [fst snd] in *. injection C1 as -> ->.
    cbn [is_ok ESP_ERR_TIMEOUT ESP_OK Z.eqb andb].
    destruct (IH w1 C2 C3) as (I1 & I2 & I3 & I4).
    split; [exact I1|]. split; [congruence|]. split; [lia|].
    rewrite I4, C6, <- app_assoc, <- repeat_app. f_equal. f_equal. lia.
Qed.

Lemma join_monitor_silent (monitor_params : join_monitor_params_t) (w : world) :
  tx w = [] -> rx w = [] ->
  let w' := snd (ttn_join_monitor_task monitor_params w) in
  tasks w' = tasks w ++ [CallbackCall (callback monitor_params) false 1
                                      (user_data monitor_params);
                         ParamsFree; TaskDelete] /\
  clock w' = clock w + 17300 * Z.of_N (timeout_sec monitor_params) /\
  written w'
  = written w ++ repeat (at_frame "CSTATUS?") (3 * N.to_nat (timeout_sec monitor_params)).
Proof.
  intros Htx Hrx w'. subst w'.
  destruct (monitor_loop_silent monitor_params (N.to_nat (timeout_sec monitor_params))
              w Htx Hrx) as (I1 & I2 & I3 & I4).
  destruct (monitor_loop (N.to_nat (timeout_sec monitor_params)) monitor_params false w)
    as [joined w1] eqn:R.
  cbn [fst snd] in *. subst joined.
  assert (snd (ttn_join_monitor_task monitor_params w)
          = with_tasks w1
              (((tasks w1 ++ [CallbackCall (callback monitor_params) false 1
                                           (user_data monitor_params)])
                ++ [ParamsFree]) ++ [TaskDelete])) as ->.
  { unfold ttn_join_monitor_task. unfold bind at 1. rewrite R. reflexivity. }
  rewrite tasks_with_tasks, clock_with_tasks, written_with_tasks.
  split; [rewrite I2, <- !app_assoc; reflexivity|].
  split; [rewrite I3; lia|].
  exact I4.
Qed.

End WatcherSilent.

(** C8, as the code has it.  The orchestrator, given a callback, leaves
    exactly one watcher task behind when it returns ESP_OK and none when it
    returns an error (and none without a callback).  The watcher makes at
    most [timeout_sec] polls, each a one-second nap followed by a
    connected-check, and stops at the first poll that finds the device
    joined; it then calls the callback exactly once -- (true, 0) after such
    a poll, (false, 1) after [timeout_sec] polls without one -- frees its
    parameters and deletes itself.  The callback comes between 1 s and
    17.3 s per poll made after the start of the watcher; against a modem
    that stays silent it comes after exactly 17.3 s per second of
    [timeout_sec], since each connected-check then lasts 16.3 s. *)
Theorem join_watcher_calls_back_once :
  (forall config cb user_data w,
      tasks (snd (unit_lorawan_configure_ttn_us915 (Some config) (Some cb) user_data w))
      = tasks w
        ++ (if is_ok (fst (unit_lorawan_configure_ttn_us915
                             (Some config) (Some cb) user_data w))
            then [TaskCreate (mk_params cb user_data (join_timeout_sec config))]
            else [])) /\
  (forall config user_data w,
      tasks (snd (unit_lorawan_configure_ttn_us915 (Some config) None user_data w))
      = tasks w) /\
  (forall monitor_params w,
      exists n joined w1,
        polls n w joined w1 /\
        (n <= N.to_nat (timeout_sec monitor_params))%nat /\
        (joined = true \/ n = N.to_nat (timeout_sec monitor_params)) /\
        (joined = true -> (1 <= n)%nat) /\
        snd (ttn_join_monitor_task monitor_params w)
        = with_tasks w1
            (tasks w ++ [CallbackCall (callback monitor_params) joined
                                      (if joined then 0 else 1)
                                      (user_data monitor_params);
                         ParamsFree; TaskDelete]) /\
        clock w + 1000 * Z.of_nat n
        <= clock (snd (ttn_join_monitor_task monitor_params w))
        <= clock w + 17300 * Z.of_nat n) /\
  (forall monitor_params w,
      tx w = [] -> rx w = [] ->
      let w' := snd (ttn_join_monitor_task monitor_params w) in
      tasks w' = tasks w ++ [CallbackCall (callback monitor_params) false 1
                                          (user_data monitor_params);
                             ParamsFree; TaskDelete] /\
      clock w' = clock w + 17300 * Z.of_N (timeout_sec monitor_params) /\
      written w'
      = written w
        ++ repeat (at_frame "CSTATUS?") (3 * N.to_nat (timeout_sec monitor_params))).
Proof.
  split; [|split; [|split]].
  - intros config cb user_data w.
    exact (configure_ttn_spawns config (Some cb) user_data w).
  - intros config user_data w.
    rewrite (configure_ttn_spawns config None user_data w). cbn [spawned].
    now rewrite app_nil_r.
  - intros monitor_params w.
    destruct (join_monitor_outcome monitor_params w) as (n & joined & w1 & P & Hn & Hj & R).
    destruct (polls_clock _ _ _ _ P) as [B Hpos].
    exists n, joined, w1. rewrite R, clock_with_tasks.
    split; [exact P|]. split; [exact Hn|]. split.
    { destruct joined; [now left | right; now apply Hj]. }
    split; [exact Hpos|]. split; [reflexivity | exact B].
  - exact join_monitor_silent.
Qed.

(** The watcher of a 2-second timeout against a silent modem: the one
    callback reports the timeout after 34.6 s; with the smallest configured
    timeout, 30 s, after 519 s. *)
Lemma join_watcher_calls_back_once_witness :
  let w2 := snd (ttn_join_monitor_task (mk_params 1 0 2) world0) in
  let w30 := snd (ttn_join_monitor_task (mk_params 1 0 30) world0) in
  tasks w2 = [CallbackCall 1 false 1 0; ParamsFree; TaskDelete] /\
  clock w2 = 34600 /\
  written w2 = repeat (at_frame "CSTATUS?") 6 /\
  clock w30 = 519000.
Proof.
  destruct join_watcher_calls_back_once as (_ & _ & _ & H).
  destruct (H (mk_params 1 0 2) world0 eq_refl eq_refl) as (T2 & C2 & W2).
  destruct (H (mk_params 1 0 30) world0 eq_refl eq_refl) as (_ & C30 & _).
  intros w2 w30. subst w2 w30.
  split; [exact T2|]. split; [exact C2|]. split; [exact W2 | exact C30].
Defined.
